(** * HubSpot CRM skill: a shallow embedding of the TypeScript sources

    The repository is a set of agent tools over the HubSpot REST API.  The
    files embedded here are the three library files [createContact.ts],
    [deals.ts] and [engagements.ts], the skill file [hubspotCRM.skill.ts]
    that wraps them as tools (its tools for deals and chat contacts and the
    text renderer), and the stand-alone tool files [updateDealStage.tool.ts]
    and [createContactFromChat.tool.ts].  Every function is [async] glue
    around the global [fetch]; the embedding makes the two effects explicit:

    - the remote end is an oracle that answers a request given the requests
      issued so far, and
    - the list of requests issued so far (the trace) is threaded through
      every call, so that "no network call is attempted" is the statement
      that the trace is unchanged.

    JavaScript strings are modelled by [string] (one character per code
    unit), JSON property bags ([Record<string, string>]) by [gmap string
    string], arrays by lists, optional fields by [option].  A response body
    is [null], a primitive or an object; the members of an object are taken
    at the types the sources cast them to. *)

From stdpp Require Import gmap strings list pretty.
From Stdlib Require Import ZArith Ascii Sorted Permutation.

Local Open Scope string_scope.
Local Open Scope list_scope.
Local Open Scope stdpp_scope.

(** ** JavaScript helpers used by the sources *)

Module Js.

(** [Boolean(s)] for an optional string: [undefined] and the empty string are falsy. *)
Definition truthy (s : option string) : bool :=
  match s with
  | Some (String _ _) => true
  | _ => false
  end.

(** [a || b] on an optional string. *)
Definition or_else (a : option string) (b : string) : string :=
  match a with
  | Some (String c s) => String c s
  | _ => b
  end.

(** [xs.join(sep)]. *)
Fixpoint join (sep : string) (xs : list string) : string :=
  match xs with
  | [] => EmptyString
  | [x] => x
  | x :: rest => x +:+ sep +:+ join sep rest
  end.

(** [s.replace(/\/+$/, empty)]: drop every trailing slash. *)
Fixpoint strip_trailing_slashes (s : string) : string :=
  match s with
  | EmptyString => EmptyString
  | String c rest =>
      match strip_trailing_slashes rest with
      | EmptyString => if Ascii.eqb c "/"%char then EmptyString else String c EmptyString
      | kept => String c kept
      end
  end.

(** [s.substring(0, n)]. *)
Definition substring0 (n : nat) (s : string) : string := String.substring 0 n s.

(** [Array.prototype.sort(comparefn)].  The comparator returns a number,
    [None] standing for [NaN]; the engine takes a [NaN] result as [+0].

    When the comparator orders the elements consistently, the language
    fixes the result: the elements in comparator order, equal ones in their
    original order (the sort is stable since ECMAScript 2019).  When it does
    not, as with dates that do not parse, the result depends on which pairs
    the engine compares.  The definition follows V8, the engine of Node.js,
    which sorts an array of fewer than 64 elements in two steps
    ([ArrayTimSortImpl] in [third_party/v8/builtins/array-sort.tq]): it takes
    the longest run at the start of the array that is already in order, or
    strictly out of order and then reversed ([CountAndMakeRun]), and inserts
    each remaining element at the place a binary search finds for it
    ([BinaryInsertionSort]).  The program sorts at most 25 items. *)
Section Sort.
Context {A : Type} (comparefn : A -> A -> option Z).

Definition SortCompare (x y : A) : Z := default 0%Z (comparefn x y).

(** The loop of [CountAndMakeRun]: how far the run extends beyond
    [previous]. *)
Fixpoint extendRun (isDescending : bool) (previousElement : A) (rest : list A) : nat :=
  match rest with
  | [] => 0
  | currentElement :: rest =>
      let order := SortCompare currentElement previousElement in
      if isDescending then
        if (0 <=? order)%Z then 0 else S (extendRun isDescending currentElement rest)
      else
        if (order <? 0)%Z then 0 else S (extendRun isDescending currentElement rest)
  end.

(** The run made at the start of [workArray], and the elements after it. *)
Definition CountAndMakeRun (workArray : list A) : list A * list A :=
  match workArray with
  | elementHigh :: elementLow :: rest =>
      let order := SortCompare elementLow elementHigh in
      let isDescending := (order <? 0)%Z in
      let runLength := 2 + extendRun isDescending elementLow rest in
      let run := take runLength workArray in
      (if isDescending then reverse run else run, drop runLength workArray)
  | _ => (workArray, [])
  end.

(** The binary search of [BinaryInsertionSort] between [left] and [right];
    every round shrinks the interval, so [right - left] rounds of [fuel]
    are enough. *)
Fixpoint insertionPoint (fuel : nat) (pivot : A) (run : list A) (left right : nat) : nat :=
  match fuel with
  | 0 => left
  | S fuel =>
      if bool_decide (left < right) then
        let mid := left + Nat.div2 (right - left) in
        match run !! mid with
        | Some element =>
            if (SortCompare pivot element <? 0)%Z
            then insertionPoint fuel pivot run left mid
            else insertionPoint fuel pivot run (mid + 1) right
        | None => left
        end
      else left
  end.

(** One round of [BinaryInsertionSort]: [pivot] enters the sorted [run]. *)
Definition BinaryInsertion (run : list A) (pivot : A) : list A :=
  let left := insertionPoint (length run) pivot run 0 (length run) in
  take left run ++ pivot :: drop left run.

Definition Array_sort (xs : list A) : list A :=
  let '(run, rest) := CountAndMakeRun xs in
  fold_left BinaryInsertion rest run.

(** Where a stable sort puts [x] in a sorted list: behind the elements it
    does not have to precede.  This is what the binary search finds when
    the comparator is consistent. *)
Fixpoint insert (x : A) (sorted : list A) : list A :=
  match sorted with
  | [] => [x]
  | y :: rest =>
      if (SortCompare x y <? 0)%Z then x :: y :: rest
      else y :: insert x rest
  end.
End Sort.

End Js.

(** ** HTTP: requests, responses and the [fetch] effect *)

Inductive Method := GET | POST | PATCH.

(** The request body, before [JSON.stringify]. *)
Inductive Payload :=
| NoPayload
| PropertiesPayload (properties : list (string * string))
| SearchPayload (propertyName operator value : string) (properties : list string).

Record Request := {
  method : Method;
  url : string;
  headers : list (string * string);
  body : Payload;
}.

(** A JSON response body.  An object is seen through the members the
    sources read: an absent member is [None], and [text] is what
    [JSON.stringify(body)] yields.  A primitive is truthy or falsy ([false],
    [0] and the empty string are falsy).  Reading a member of a primitive
    yields [undefined]; so does reading a member of [null] through [?.],
    whereas a plain read of a member of [null] throws a [TypeError].  The
    member [results], when present, is an array, as the sources declare it;
    its elements are seen in the same way, and may be [null]. *)
Module Json.
Record Stage := { stage_id : string; stage_label : string; displayOrder : Z }.

Record Entry := {
  toObjectId : option string;
  entry_id : option string;
  entry_properties : option (gmap string string);
  label : option string;
  stages : list Stage;
}.

(** An element of [results]: [null], or a value seen through its members. *)
Inductive element :=
| NullElement
| Element (fields : Entry).

Definition fields (e : element) : Entry :=
  match e with
  | NullElement =>
      {| toObjectId := None; entry_id := None; entry_properties := None; label := None;
         stages := [] |}
  | Element f => f
  end.

Definition isNull (e : element) : bool :=
  match e with
  | NullElement => true
  | Element _ => false
  end.

Record t := {
  text : string;
  id : option string;
  message : option string;
  properties : option (gmap string string);
  results : option (list element);
}.

Inductive value :=
| Null
| Primitive (truthy : bool) (text : string)
| Object (members : t).

(** A value without members, as [?.] and reads on primitives see it. *)
Definition bare (text : string) : t :=
  {| text := text; id := None; message := None; properties := None; results := None |}.

Definition members (v : value) : t :=
  match v with
  | Null => bare "null"
  | Primitive _ text => bare text
  | Object m => m
  end.

(** [v === null] and [Boolean(v)]. *)
Definition nullish (v : value) : bool :=
  match v with
  | Null => true
  | _ => false
  end.

Definition truthy (v : value) : bool :=
  match v with
  | Null => false
  | Primitive truthy _ => truthy
  | Object _ => true
  end.
End Json.

Coercion Json.members : Json.value >-> Json.t.
Coercion Json.fields : Json.element >-> Json.Entry.

(** [await res.json()] either yields the parsed body or throws. *)
Inductive JsonOutcome :=
| JsonValue (v : Json.value)
| JsonThrows (message : string).

Module Response.
Record t := { status : Z; json : JsonOutcome }.

(** [res.ok]: the status is in the range 200-299. *)
Definition ok (res : t) : bool := ((200 <=? status res) && (status res <=? 299))%Z.
End Response.

(** [await fetch(url, init)] either yields a response or throws (transport
    failure); the thrown error is kept as its message. *)
Inductive FetchOutcome :=
| Responds (res : Response.t)
| FetchThrows (message : string).

(** What the code takes from its host.  [env] is lua-cli's [env(name)];
    [remote] answers a request given the requests sent before it;
    [Date_getTime s] is [new Date(s).getTime()], [None] for [NaN];
    [zod_email] is the format check of [z.string().email()];
    [nullRead name] is the message of the [TypeError] the engine throws
    when the member [name] of [null] is read. *)
Record Runtime := {
  env : string -> option string;
  remote : list Request -> Request -> FetchOutcome;
  Date_getTime : string -> option Z;
  zod_email : string -> bool;
  nullRead : string -> string;
}.

(** Computations that may call [fetch]: they read the runtime and extend
    the trace of requests. *)
Definition Net (A : Type) : Type := Runtime -> list Request -> A * list Request.

Global Instance Net_ret : MRet Net := fun A (a : A) _ trace => (a, trace).
Global Instance Net_bind : MBind Net := fun A B (k : A -> Net B) (c : Net A) rt trace =>
  let '(a, trace') := c rt trace in k a rt trace'.

Definition fetch (req : Request) : Net FetchOutcome :=
  fun rt trace => (remote rt trace req, trace ++ [req]).

Definition getEnv (name : string) : Net (option string) :=
  fun rt trace => (env rt name, trace).

Definition getDate : Net (string -> option Z) :=
  fun rt trace => (Date_getTime rt, trace).

(** The message a [catch] finds after a plain read of [null.name]. *)
Definition typeError (name : string) : Net string :=
  fun rt trace => (nullRead rt name, trace).

(** [for (const x of xs) { acc = body(acc, x) }] with effects. *)
Fixpoint forOf {A S : Type} (xs : list A) (body : S -> A -> Net S) (acc : S) : Net S :=
  match xs with
  | [] => mret acc
  | x :: rest => acc' ← body acc x; forOf rest body acc'
  end.

(** The two configuration reads every entry point starts with. *)
Definition TOKEN : Net (option string) := getEnv "HUBSPOT_PRIVATE_APP_TOKEN".

Definition HUBSPOT_BASE : Net string :=
  base ← getEnv "HUBSPOT_API_BASE_URL";
  mret (Js.strip_trailing_slashes (Js.or_else base "https://api.hubapi.com")).

Definition authHeaders (token : string) : list (string * string) :=
  [("Authorization", "Bearer " +:+ token); ("Accept", "application/json")].

Definition jsonHeaders (token : string) : list (string * string) :=
  [("Authorization", "Bearer " +:+ token);
   ("Content-Type", "application/json");
   ("Accept", "application/json")].

Definition missingToken : string := "Missing HUBSPOT_PRIVATE_APP_TOKEN in environment.".

(** ** engagements.ts *)

Module Engagements.

Inductive EngagementType := calls | emails | notes | tasks | meetings.

Global Instance EngagementType_eq_dec : EqDecision EngagementType.
Proof. solve_decision. Defined.

(** The string each member of the union type stands for. *)
Definition typeName (t : EngagementType) : string :=
  match t with
  | calls => "calls"
  | emails => "emails"
  | notes => "notes"
  | tasks => "tasks"
  | meetings => "meetings"
  end.

(** One element of [EngagementSummary.items]. *)
Module Item.
Record t := {
  id : string;
  createdAt : option string;
  subject : option string;
  body : option string;
  status : option string;
  direction : option string;
}.
End Item.

Module EngagementSummary.
Record t := {
  type : EngagementType;
  count : nat;
  items : list Item.t;
}.
End EngagementSummary.

Module Summary.
Record t := {
  calls : EngagementSummary.t;
  emails : EngagementSummary.t;
  notes : EngagementSummary.t;
  tasks : EngagementSummary.t;
  meetings : EngagementSummary.t;
  totalEngagements : nat;
  recentActivity : string;
}.
End Summary.

Module ContactActivitySummaryResult.
Record t := {
  ok : bool;
  contactId : option string;
  contactName : option string;
  email : option string;
  summary : option Summary.t;
  error : option string;
}.
End ContactActivitySummaryResult.

(** One element of the local array [allItems]. *)
Module Tagged.
Record t := { type : EngagementType; createdAt : option string }.
End Tagged.

Definition associationsUrl (baseUrl contactId : string) (engagementType : EngagementType) : string :=
  baseUrl +:+ "/crm/v4/objects/contacts/" +:+ contactId +:+ "/associations/"
    +:+ typeName engagementType.

Definition associationsRequest (contactId : string) (engagementType : EngagementType)
    (token baseUrl : string) : Request :=
  {| method := GET;
     url := associationsUrl baseUrl contactId engagementType;
     headers := authHeaders token;
     body := NoPayload |}.

Definition getContactAssociations (contactId : string) (engagementType : EngagementType)
    (token baseUrl : string) : Net (list string) :=
  res ← fetch (associationsRequest contactId engagementType token baseUrl);
  match res with
  | FetchThrows _ => mret []
  | Responds res =>
      if negb (Response.ok res) then mret []
      else
        match Response.json res with
        | JsonThrows _ => mret []
        | JsonValue body =>
            if Json.nullish body then mret []
            else
              let results := default [] (Json.results body) in
              if existsb Json.isNull results then mret []
              else
                mret (filter (fun s => Js.truthy (Some s) = true)
                        (map (fun r : Json.element => default EmptyString (Json.toObjectId r))
                           results))
        end
  end.

Definition getPropertiesForType (type : EngagementType) : list string :=
  match type with
  | calls =>
      ["hs_call_title"; "hs_call_body"; "hs_call_status"; "hs_call_direction"; "hs_createdate"]
  | emails =>
      ["hs_email_subject"; "hs_email_text"; "hs_email_status"; "hs_email_direction";
       "hs_createdate"]
  | notes => ["hs_note_body"; "hs_createdate"]
  | tasks => ["hs_task_subject"; "hs_task_body"; "hs_task_status"; "hs_createdate"]
  | meetings => ["hs_meeting_title"; "hs_meeting_body"; "hs_meeting_outcome"; "hs_createdate"]
  end.

Definition detailsUrl (baseUrl : string) (engagementType : EngagementType)
    (engagementId : string) : string :=
  baseUrl +:+ "/crm/v3/objects/" +:+ typeName engagementType +:+ "/" +:+ engagementId
    +:+ "?properties=" +:+ Js.join "," (getPropertiesForType engagementType).

Definition detailsRequest (engagementType : EngagementType) (engagementId token baseUrl : string)
    : Request :=
  {| method := GET;
     url := detailsUrl baseUrl engagementType engagementId;
     headers := authHeaders token;
     body := NoPayload |}.

(** The result as the caller's [if (details)] sees it: [None] is a falsy
    result, that is [null] (returned on every failure, or parsed from the
    body) or a body that is [false], [0] or the empty string; [Some] carries
    the members of a truthy body. *)
Definition getEngagementDetails (engagementType : EngagementType)
    (engagementId token baseUrl : string) : Net (option Json.t) :=
  res ← fetch (detailsRequest engagementType engagementId token baseUrl);
  match res with
  | FetchThrows _ => mret None
  | Responds res =>
      if negb (Response.ok res) then mret None
      else
        match Response.json res with
        | JsonThrows _ => mret None
        | JsonValue data =>
            if Json.truthy data then mret (Some (Json.members data)) else mret None
        end
  end.

Definition extractEngagementInfo (type : EngagementType) (data : Json.t) : Item.t :=
  let props : gmap string string := default ∅ (Json.properties data) in
  let id := default EmptyString (Json.id data) in
  match type with
  | calls =>
      {| Item.id := id;
         Item.createdAt := props !! "hs_createdate";
         Item.subject := props !! "hs_call_title";
         Item.body := props !! "hs_call_body";
         Item.status := props !! "hs_call_status";
         Item.direction := props !! "hs_call_direction" |}
  | emails =>
      {| Item.id := id;
         Item.createdAt := props !! "hs_createdate";
         Item.subject := props !! "hs_email_subject";
         Item.body := props !! "hs_email_text";
         Item.status := props !! "hs_email_status";
         Item.direction := props !! "hs_email_direction" |}
  | notes =>
      {| Item.id := id;
         Item.createdAt := props !! "hs_createdate";
         Item.subject := None;
         Item.body := props !! "hs_note_body";
         Item.status := None;
         Item.direction := None |}
  | tasks =>
      {| Item.id := id;
         Item.createdAt := props !! "hs_createdate";
         Item.subject := props !! "hs_task_subject";
         Item.body := props !! "hs_task_body";
         Item.status := props !! "hs_task_status";
         Item.direction := None |}
  | meetings =>
      {| Item.id := id;
         Item.createdAt := props !! "hs_createdate";
         Item.subject := props !! "hs_meeting_title";
         Item.body := props !! "hs_meeting_body";
         Item.status := props !! "hs_meeting_outcome";
         Item.direction := None |}
  end.

Definition engagementTypes : list EngagementType := [calls; emails; notes; tasks; meetings].

(** The local [summaries], a record keyed by engagement type. *)
Definition Summaries : Type := EngagementType -> EngagementSummary.t.

Definition summaries0 : Summaries := fun engType =>
  {| EngagementSummary.type := engType;
     EngagementSummary.count := 0;
     EngagementSummary.items := [] |}.

Definition pushItem (engType : EngagementType) (info : Item.t) (summaries : Summaries)
    : Summaries := fun k =>
  if decide (k = engType) then
    {| EngagementSummary.type := EngagementSummary.type (summaries k);
       EngagementSummary.count := EngagementSummary.count (summaries k);
       EngagementSummary.items := EngagementSummary.items (summaries k) ++ [info] |}
  else summaries k.

Definition setCount (engType : EngagementType) (n : nat) (summaries : Summaries)
    : Summaries := fun k =>
  if decide (k = engType) then
    {| EngagementSummary.type := EngagementSummary.type (summaries k);
       EngagementSummary.count := n;
       EngagementSummary.items := EngagementSummary.items (summaries k) |}
  else summaries k.

(** The loop state: [summaries] and [allItems]. *)
Definition Collected : Type := Summaries * list Tagged.t.

(** Body of the inner loop, [for (const engId of recentIds)]. *)
Definition collectOne (engType : EngagementType) (token baseUrl : string)
    (st : Collected) (engId : string) : Net Collected :=
  details ← getEngagementDetails engType engId token baseUrl;
  match details with
  | Some details =>
      let info := extractEngagementInfo engType details in
      mret (pushItem engType info st.1,
            st.2 ++ [{| Tagged.type := engType; Tagged.createdAt := Item.createdAt info |}])
  | None => mret st
  end.

(** Body of the outer loop, [for (const engType of engagementTypes)]. *)
Definition collectType (contactId token baseUrl : string)
    (st : Collected) (engType : EngagementType) : Net Collected :=
  associationIds ← getContactAssociations contactId engType token baseUrl;
  let recentIds := take 5 associationIds in
  st' ← forOf recentIds (collectOne engType token baseUrl) st;
  mret (setCount engType (length associationIds) st'.1, st'.2).

(** The comparator handed to [allItems.sort].  [getTime()] is an integer
    number of milliseconds or [NaN]; the sign of the difference of two
    such integers is the sign of their difference as doubles. *)
Definition timeOf (getTime : string -> option Z) (createdAt : option string) : option Z :=
  match createdAt with
  | Some (String c s) => getTime (String c s)
  | _ => Some 0%Z
  end.

Definition compareItems (getTime : string -> option Z) (a b : Tagged.t) : option Z :=
  match timeOf getTime (Tagged.createdAt a), timeOf getTime (Tagged.createdAt b) with
  | Some dateA, Some dateB => Some (dateB - dateA)%Z
  | _, _ => None
  end.

Definition recentActivityOf (allItems : list Tagged.t) : string :=
  match allItems with
  | first :: _ =>
      "Most recent: " +:+ typeName (Tagged.type first) +:+ " on "
        +:+ default "unknown date" (Tagged.createdAt first)
  | [] => "No recent activity found"
  end.

Definition failure (message : string) : ContactActivitySummaryResult.t :=
  {| ContactActivitySummaryResult.ok := false;
     ContactActivitySummaryResult.contactId := None;
     ContactActivitySummaryResult.contactName := None;
     ContactActivitySummaryResult.email := None;
     ContactActivitySummaryResult.summary := None;
     ContactActivitySummaryResult.error := Some message |}.

Definition contactUrl (baseUrl contactId : string) : string :=
  baseUrl +:+ "/crm/v3/objects/contacts/" +:+ contactId
    +:+ "?properties=email,firstname,lastname".

Definition contactRequest (contactId token baseUrl : string) : Request :=
  {| method := GET;
     url := contactUrl baseUrl contactId;
     headers := authHeaders token;
     body := NoPayload |}.

(** Everything after the two loops: sort, totals, marker, envelope. *)
Definition assemble (getTime : string -> option Z) (contactData : Json.t)
    (collected : Collected) : ContactActivitySummaryResult.t :=
  let summaries := collected.1 in
  let allItems := Js.Array_sort (compareItems getTime) collected.2 in
  let totalEngagements :=
    EngagementSummary.count (summaries calls) +
    EngagementSummary.count (summaries emails) +
    EngagementSummary.count (summaries notes) +
    EngagementSummary.count (summaries tasks) +
    EngagementSummary.count (summaries meetings) in
  let recentActivity := recentActivityOf allItems in
  let property name := Json.properties contactData ≫= (.!! name) in
  let contactName :=
    Js.or_else
      (Some (Js.join " "
         (omap (fun part => if Js.truthy part then part else None)
            [property "firstname"; property "lastname"])))
      "Unknown" in
  {| ContactActivitySummaryResult.ok := true;
     ContactActivitySummaryResult.contactId := Json.id contactData;
     ContactActivitySummaryResult.contactName := Some contactName;
     ContactActivitySummaryResult.email := property "email";
     ContactActivitySummaryResult.summary :=
       Some {| Summary.calls := summaries calls;
               Summary.emails := summaries emails;
               Summary.notes := summaries notes;
               Summary.tasks := summaries tasks;
               Summary.meetings := summaries meetings;
               Summary.totalEngagements := totalEngagements;
               Summary.recentActivity := recentActivity |};
     ContactActivitySummaryResult.error := None |}.

Definition getContactActivitySummary (contactId : string)
    : Net ContactActivitySummaryResult.t :=
  token ← TOKEN;
  baseUrl ← HUBSPOT_BASE;
  match token with
  | Some (String c s) =>
      let token := String c s in
      match contactId with
      | EmptyString => mret (failure "Contact ID is required.")
      | _ =>
          contactRes ← fetch (contactRequest contactId token baseUrl);
          match contactRes with
          | FetchThrows message => mret (failure message)
          | Responds contactRes =>
              if negb (Response.ok contactRes) then
                match Response.json contactRes with
                | JsonThrows message => mret (failure message)
                | JsonValue errorBody =>
                    mret (failure (default "Contact not found" (Json.message errorBody)))
                end
              else
                match Response.json contactRes with
                | JsonThrows message => mret (failure message)
                | JsonValue contactData =>
                    collected ← forOf engagementTypes
                                  (collectType contactId token baseUrl) (summaries0, []);
                    if Json.nullish contactData then
                      message ← typeError "properties";
                      mret (failure message)
                    else
                      getTime ← getDate;
                      mret (assemble getTime contactData collected)
                end
          end
      end
  | _ => mret (failure missingToken)
  end.

Definition searchRequest (email token baseUrl : string) : Request :=
  {| method := POST;
     url := baseUrl +:+ "/crm/v3/objects/contacts/search";
     headers := jsonHeaders token;
     body := SearchPayload "email" "EQ" email
               ["email"; "firstname"; "lastname"; "phone"; "company"] |}.

Module SearchResult.
Record t := {
  ok : bool;
  contactId : option string;
  contact : option Json.Entry;
  error : option string;
}.
End SearchResult.

Definition searchFailure (message : string) : SearchResult.t :=
  {| SearchResult.ok := false;
     SearchResult.contactId := None;
     SearchResult.contact := None;
     SearchResult.error := Some message |}.

Definition searchContactByEmail (email : string) : Net SearchResult.t :=
  token ← TOKEN;
  baseUrl ← HUBSPOT_BASE;
  match token with
  | Some (String c s) =>
      let token := String c s in
      res ← fetch (searchRequest email token baseUrl);
      match res with
      | FetchThrows message => mret (searchFailure message)
      | Responds res =>
          match Response.json res with
          | JsonThrows message => mret (searchFailure message)
          | JsonValue body =>
              if negb (Response.ok res) then
                mret (searchFailure (default (Json.text body) (Json.message body)))
              else if Json.nullish body then
                message ← typeError "results";
                mret (searchFailure message)
              else
                match Json.results body with
                | Some (first :: _) =>
                    if Json.isNull first then
                      message ← typeError "id";
                      mret (searchFailure message)
                    else
                      mret {| SearchResult.ok := true;
                              SearchResult.contactId := Json.entry_id first;
                              SearchResult.contact := Some (Json.fields first);
                              SearchResult.error := None |}
                | _ =>
                    mret {| SearchResult.ok := true;
                            SearchResult.contactId := None;
                            SearchResult.contact := None;
                            SearchResult.error := None |}
                end
          end
      end
  | _ => mret (searchFailure missingToken)
  end.

End Engagements.

(** ** createContact.ts *)

Module CreateContact.

Module Input.
Record t := {
  email : option string;
  firstname : option string;
  lastname : option string;
  phone : option string;
  company : option string;
}.
End Input.

Module UpdateInput.
Record t := {
  contactId : string;
  email : option string;
  firstname : option string;
  lastname : option string;
  phone : option string;
  company : option string;
}.
End UpdateInput.

Module Result.
Record t := {
  ok : bool;
  id : option string;
  properties : option (gmap string string);
  error : option string;
  status : option Z;
}.
End Result.

Definition failure (status : option Z) (message : string) : Result.t :=
  {| Result.ok := false;
     Result.id := None;
     Result.properties := None;
     Result.error := Some message;
     Result.status := status |}.

(** [if (value) properties[name] = value]; the list keeps insertion order,
    the order [JSON.stringify] writes the keys in. *)
Definition setIf (name : string) (value : option string) (properties : list (string * string))
    : list (string * string) :=
  match value with
  | Some (String c s) => properties ++ [(name, String c s)]
  | _ => properties
  end.

Definition collectProperties (email firstname lastname phone company : option string)
    : list (string * string) :=
  let properties := [] in
  let properties := setIf "email" email properties in
  let properties := setIf "firstname" firstname properties in
  let properties := setIf "lastname" lastname properties in
  let properties := setIf "phone" phone properties in
  let properties := setIf "company" company properties in
  properties.

(** The [try] block shared by every write: send, read the body, map it. *)
Definition send (req : Request) : Net Result.t :=
  res ← fetch req;
  match res with
  | FetchThrows message => mret (failure None message)
  | Responds res =>
      match Response.json res with
      | JsonThrows message => mret (failure None message)
      | JsonValue body =>
          if negb (Response.ok res) then
            mret (failure (Some (Response.status res))
                    (default (Json.text body) (Json.message body)))
          else
            mret {| Result.ok := true;
                    Result.id := Json.id body;
                    Result.properties := Some (default ∅ (Json.properties body));
                    Result.error := None;
                    Result.status := None |}
      end
  end.

Definition createRequest (properties : list (string * string)) (token baseUrl : string)
    : Request :=
  {| method := POST;
     url := baseUrl +:+ "/crm/v3/objects/contacts";
     headers := jsonHeaders token;
     body := PropertiesPayload properties |}.

Definition createContact (input : Input.t) : Net Result.t :=
  token ← TOKEN;
  baseUrl ← HUBSPOT_BASE;
  match token with
  | Some (String c s) =>
      let token := String c s in
      let properties :=
        collectProperties (Input.email input) (Input.firstname input) (Input.lastname input)
          (Input.phone input) (Input.company input) in
      match properties with
      | [] => mret (failure None "No properties provided.")
      | _ => send (createRequest properties token baseUrl)
      end
  | _ => mret (failure None missingToken)
  end.

Definition updateRequest (contactId : string) (properties : list (string * string))
    (token baseUrl : string) : Request :=
  {| method := PATCH;
     url := baseUrl +:+ "/crm/v3/objects/contacts/" +:+ contactId;
     headers := jsonHeaders token;
     body := PropertiesPayload properties |}.

Definition updateContact (input : UpdateInput.t) : Net Result.t :=
  token ← TOKEN;
  baseUrl ← HUBSPOT_BASE;
  match token with
  | Some (String c s) =>
      let token := String c s in
      match UpdateInput.contactId input with
      | EmptyString => mret (failure None "Contact ID is required.")
      | contactId =>
          let properties :=
            collectProperties (UpdateInput.email input) (UpdateInput.firstname input)
              (UpdateInput.lastname input) (UpdateInput.phone input)
              (UpdateInput.company input) in
          match properties with
          | [] => mret (failure None "No properties to update provided.")
          | _ => send (updateRequest contactId properties token baseUrl)
          end
      end
  | _ => mret (failure None missingToken)
  end.

End CreateContact.

(** ** deals.ts *)

Module Deals.

Module UpdateDealStageInput.
Record t := { dealId : string; dealstage : string; notes : option string }.
End UpdateDealStageInput.

Module UpdateDealStageResult.
Record t := {
  ok : bool;
  id : option string;
  properties : option (gmap string string);
  error : option string;
  status : option Z;
}.
End UpdateDealStageResult.

Module GetPipelinesResult.
Record t := {
  ok : bool;
  pipelines : option (list Json.element);
  error : option string;
}.
End GetPipelinesResult.

Module DealResult.
Record t := { ok : bool; deal : option Json.value; error : option string }.
End DealResult.

Definition failure (status : option Z) (message : string) : UpdateDealStageResult.t :=
  {| UpdateDealStageResult.ok := false;
     UpdateDealStageResult.id := None;
     UpdateDealStageResult.properties := None;
     UpdateDealStageResult.error := Some message;
     UpdateDealStageResult.status := status |}.

Definition patchRequest (dealId dealstage token baseUrl : string) : Request :=
  {| method := PATCH;
     url := baseUrl +:+ "/crm/v3/objects/deals/" +:+ dealId;
     headers := jsonHeaders token;
     body := PropertiesPayload [("dealstage", dealstage)] |}.

Definition updateDealStage (input : UpdateDealStageInput.t) : Net UpdateDealStageResult.t :=
  token ← TOKEN;
  baseUrl ← HUBSPOT_BASE;
  match token with
  | Some (String c s) =>
      let token := String c s in
      match UpdateDealStageInput.dealId input, UpdateDealStageInput.dealstage input with
      | EmptyString, _ => mret (failure None "Deal ID is required.")
      | _, EmptyString => mret (failure None "Deal stage is required.")
      | dealId, dealstage =>
          res ← fetch (patchRequest dealId dealstage token baseUrl);
          match res with
          | FetchThrows message => mret (failure None message)
          | Responds res =>
              match Response.json res with
              | JsonThrows message => mret (failure None message)
              | JsonValue body =>
                  if negb (Response.ok res) then
                    mret (failure (Some (Response.status res))
                            (default (Json.text body) (Json.message body)))
                  else
                    mret {| UpdateDealStageResult.ok := true;
                            UpdateDealStageResult.id := Json.id body;
                            UpdateDealStageResult.properties :=
                              Some (default ∅ (Json.properties body));
                            UpdateDealStageResult.error := None;
                            UpdateDealStageResult.status := None |}
              end
          end
      end
  | _ => mret (failure None missingToken)
  end.

Definition pipelinesFailure (message : string) : GetPipelinesResult.t :=
  {| GetPipelinesResult.ok := false;
     GetPipelinesResult.pipelines := None;
     GetPipelinesResult.error := Some message |}.

Definition pipelinesRequest (token baseUrl : string) : Request :=
  {| method := GET;
     url := baseUrl +:+ "/crm/v3/pipelines/deals";
     headers := authHeaders token;
     body := NoPayload |}.

Definition getDealPipelines : Net GetPipelinesResult.t :=
  token ← TOKEN;
  baseUrl ← HUBSPOT_BASE;
  match token with
  | Some (String c s) =>
      let token := String c s in
      res ← fetch (pipelinesRequest token baseUrl);
      match res with
      | FetchThrows message => mret (pipelinesFailure message)
      | Responds res =>
          match Response.json res with
          | JsonThrows message => mret (pipelinesFailure message)
          | JsonValue body =>
              if negb (Response.ok res) then
                mret (pipelinesFailure (default (Json.text body) (Json.message body)))
              else
                mret {| GetPipelinesResult.ok := true;
                        GetPipelinesResult.pipelines := Some (default [] (Json.results body));
                        GetPipelinesResult.error := None |}
          end
      end
  | _ => mret (pipelinesFailure missingToken)
  end.

Definition dealFailure (message : string) : DealResult.t :=
  {| DealResult.ok := false; DealResult.deal := None; DealResult.error := Some message |}.

Definition dealUrl (baseUrl dealId : string) : string :=
  baseUrl +:+ "/crm/v3/objects/deals/" +:+ dealId
    +:+ "?properties=dealname,dealstage,amount,closedate,pipeline".

Definition dealRequest (dealId token baseUrl : string) : Request :=
  {| method := GET;
     url := dealUrl baseUrl dealId;
     headers := authHeaders token;
     body := NoPayload |}.

(** The [try] block of [getDealById], shared with the stand-alone tool. *)
Definition lookup (dealId token baseUrl : string) : Net DealResult.t :=
  res ← fetch (dealRequest dealId token baseUrl);
  match res with
  | FetchThrows message => mret (dealFailure message)
  | Responds res =>
      match Response.json res with
      | JsonThrows message => mret (dealFailure message)
      | JsonValue body =>
          if negb (Response.ok res) then
            mret (dealFailure (default (Json.text body) (Json.message body)))
          else
            mret {| DealResult.ok := true;
                    DealResult.deal := Some body;
                    DealResult.error := None |}
      end
  end.

Definition getDealById (dealId : string) : Net DealResult.t :=
  token ← TOKEN;
  baseUrl ← HUBSPOT_BASE;
  match token with
  | Some (String c s) => lookup dealId (String c s) baseUrl
  | _ => mret (dealFailure missingToken)
  end.

End Deals.

(** ** Tool inputs and envelopes shared by the skill file and the tool files *)

(** [inputSchema.parse(input)] either returns the input or throws. *)
Inductive Completion (A : Type) :=
| Returned (value : A)
| ZodError.
Arguments Returned {A} value.
Arguments ZodError {A}.

Module ChatInput.
Record t := {
  email : string;
  firstname : option string;
  lastname : option string;
  phone : option string;
  company : option string;
  chatSummary : option string;
}.
End ChatInput.

(** [createContactFromChatInputSchema.parse]: [email] must pass
    [z.string().email()]; the other fields are optional strings. *)
Definition parseChatInput (input : ChatInput.t) : Net (Completion ChatInput.t) :=
  fun rt trace =>
    (if zod_email rt (ChatInput.email input) then Returned input else ZodError, trace).

Module ChatResult.
Record t := {
  ok : bool;
  alreadyExists : option bool;
  contactId : option string;
  message : option string;
  contact : option Json.Entry;
  id : option string;
  properties : option (gmap string string);
  error : option string;
  status : option Z;
  chatSummary : option string;
}.
End ChatResult.

Module DealToolResult.
Record t := {
  ok : bool;
  id : option string;
  properties : option (gmap string string);
  error : option string;
  status : option Z;
  message : option string;
  previousDeal : option Json.value;
}.
End DealToolResult.

Definition chatExists (email : string) (contactId : string) (contact : option Json.Entry)
    : ChatResult.t :=
  {| ChatResult.ok := true;
     ChatResult.alreadyExists := Some true;
     ChatResult.contactId := Some contactId;
     ChatResult.message := Some ("Contact with email " +:+ email +:+ " already exists in HubSpot");
     ChatResult.contact := contact;
     ChatResult.id := None;
     ChatResult.properties := None;
     ChatResult.error := None;
     ChatResult.status := None;
     ChatResult.chatSummary := None |}.

(** [{ ...result }] and [{ ...result, alreadyExists: false, message, chatSummary }]. *)
Definition chatOfCreate (result : CreateContact.Result.t) (alreadyExists : option bool)
    (message chatSummary : option string) : ChatResult.t :=
  {| ChatResult.ok := CreateContact.Result.ok result;
     ChatResult.alreadyExists := alreadyExists;
     ChatResult.contactId := None;
     ChatResult.message := message;
     ChatResult.contact := None;
     ChatResult.id := CreateContact.Result.id result;
     ChatResult.properties := CreateContact.Result.properties result;
     ChatResult.error := CreateContact.Result.error result;
     ChatResult.status := CreateContact.Result.status result;
     ChatResult.chatSummary := chatSummary |}.

Definition dealToolFailure (message : string) : DealToolResult.t :=
  {| DealToolResult.ok := false;
     DealToolResult.id := None;
     DealToolResult.properties := None;
     DealToolResult.error := Some message;
     DealToolResult.status := None;
     DealToolResult.message := None;
     DealToolResult.previousDeal := None |}.

(** What [`${error}`] prints for an optional string. *)
Definition templated (value : option string) : string := default "undefined" value.

Definition couldNotFind (dealId : string) (error : option string) : string :=
  "Could not find deal with ID " +:+ dealId +:+ ": " +:+ templated error.

Definition updatedMessage (dealstage : string) : string :=
  "Successfully updated deal stage to '" +:+ dealstage +:+ "'".

Definition createdMessage (email : string) : string :=
  "Successfully created new contact from chat: " +:+ email.

(** ** hubspotCRM.skill.ts: the tools built on the three library files *)

Module Skill.

Module CreateContactFromChatTool.
(** The part of [execute] that follows the search. *)
Definition afterSearch (parsed : ChatInput.t) (existingContact : Engagements.SearchResult.t)
    : Net (Completion ChatResult.t) :=
  match Engagements.SearchResult.ok existingContact,
        Engagements.SearchResult.contactId existingContact with
  | true, Some (String c s) =>
      mret (Returned (chatExists (ChatInput.email parsed) (String c s)
                        (Engagements.SearchResult.contact existingContact)))
  | _, _ =>
      result ← CreateContact.createContact
                 {| CreateContact.Input.email := Some (ChatInput.email parsed);
                    CreateContact.Input.firstname := ChatInput.firstname parsed;
                    CreateContact.Input.lastname := ChatInput.lastname parsed;
                    CreateContact.Input.phone := ChatInput.phone parsed;
                    CreateContact.Input.company := ChatInput.company parsed |};
      if CreateContact.Result.ok result then
        mret (Returned (chatOfCreate result (Some false)
                          (Some (createdMessage (ChatInput.email parsed)))
                          (ChatInput.chatSummary parsed)))
      else mret (Returned (chatOfCreate result None None None))
  end.

Definition execute (input : ChatInput.t) : Net (Completion ChatResult.t) :=
  parsed ← parseChatInput input;
  match parsed with
  | ZodError => mret ZodError
  | Returned parsed =>
      existingContact ← Engagements.searchContactByEmail (ChatInput.email parsed);
      afterSearch parsed existingContact
  end.
End CreateContactFromChatTool.

Module UpdateDealStageTool.
(** Every field of [updateDealStageInputSchema] is a plain string, so
    [parse] returns its argument. *)
Definition execute (input : Deals.UpdateDealStageInput.t) : Net DealToolResult.t :=
  let parsed := input in
  let dealId := Deals.UpdateDealStageInput.dealId parsed in
  currentDeal ← Deals.getDealById dealId;
  if negb (Deals.DealResult.ok currentDeal) then
    mret (dealToolFailure (couldNotFind dealId (Deals.DealResult.error currentDeal)))
  else
    result ← Deals.updateDealStage
               {| Deals.UpdateDealStageInput.dealId := dealId;
                  Deals.UpdateDealStageInput.dealstage :=
                    Deals.UpdateDealStageInput.dealstage parsed;
                  Deals.UpdateDealStageInput.notes :=
                    Deals.UpdateDealStageInput.notes parsed |};
    let spread (message : option string) (previousDeal : option Json.value) :=
      {| DealToolResult.ok := Deals.UpdateDealStageResult.ok result;
         DealToolResult.id := Deals.UpdateDealStageResult.id result;
         DealToolResult.properties := Deals.UpdateDealStageResult.properties result;
         DealToolResult.error := Deals.UpdateDealStageResult.error result;
         DealToolResult.status := Deals.UpdateDealStageResult.status result;
         DealToolResult.message := message;
         DealToolResult.previousDeal := previousDeal |} in
    if Deals.UpdateDealStageResult.ok result then
      mret (spread (Some (updatedMessage (Deals.UpdateDealStageInput.dealstage parsed)))
              (Deals.DealResult.deal currentDeal))
    else mret (spread None None).
End UpdateDealStageTool.

Definition newline : string := String (ascii_of_nat 10) EmptyString.

(** [lines.push(line)]. *)
Definition push (lines : list string) (line : string) : list string := lines ++ [line].

(** [items.slice(0, n).forEach((item) => lines.push(render(item)))]. *)
Definition pushEach (n : nat) (render : Engagements.Item.t -> string)
    (items : list Engagements.Item.t) (lines : list string) : list string :=
  fold_left (fun lines item => push lines (render item)) (take n items) lines.

Definition dated (fallback : string) (item : Engagements.Item.t) : string :=
  "- " +:+ Js.or_else (Engagements.Item.subject item) fallback +:+ " ("
    +:+ Js.or_else (Engagements.Item.createdAt item) "unknown date" +:+ ")".

Definition taskLine (task : Engagements.Item.t) : string :=
  "- " +:+ Js.or_else (Engagements.Item.subject task) "Task" +:+ " - "
    +:+ Js.or_else (Engagements.Item.status task) "unknown status".

Definition noteLine (note : Engagements.Item.t) : string :=
  let preview :=
    Js.or_else (Js.substring0 100 <$> Engagements.Item.body note) "No content" in
  let longer :=
    match Engagements.Item.body note with
    | Some (String c s) => bool_decide (100 < String.length (String c s))
    | _ => false
    end in
  "- " +:+ preview +:+ (if longer then "..." else EmptyString).

Definition heading (title : string) (count : nat) : string :=
  "### " +:+ title +:+ " (" +:+ pretty count +:+ " total)".

(** The array [lines] just before [lines.join]. *)
Definition summaryLines (contactName email : option string) (summary : Engagements.Summary.t)
    : list string :=
  let count := Engagements.EngagementSummary.count in
  let items := Engagements.EngagementSummary.items in
  let lines := [] in
  let lines := push lines ("## Activity Summary for " +:+ Js.or_else contactName "Unknown"
                             +:+ " (" +:+ Js.or_else email "no email" +:+ ")") in
  let lines := push lines EmptyString in
  let lines := push lines ("**Total Engagements:** "
                             +:+ pretty (Engagements.Summary.totalEngagements summary)) in
  let lines := push lines ("**" +:+ Engagements.Summary.recentActivity summary +:+ "**") in
  let lines := push lines EmptyString in
  let lines :=
    let calls := Engagements.Summary.calls summary in
    if bool_decide (0 < count calls) then
      let lines := push lines (heading "Calls" (count calls)) in
      let lines := pushEach 3 (dated "Call") (items calls) lines in
      push lines EmptyString
    else lines in
  let lines :=
    let emails := Engagements.Summary.emails summary in
    if bool_decide (0 < count emails) then
      let lines := push lines (heading "Emails" (count emails)) in
      let lines := pushEach 3 (dated "Email") (items emails) lines in
      push lines EmptyString
    else lines in
  let lines :=
    let meetings := Engagements.Summary.meetings summary in
    if bool_decide (0 < count meetings) then
      let lines := push lines (heading "Meetings" (count meetings)) in
      let lines := pushEach 3 (dated "Meeting") (items meetings) lines in
      push lines EmptyString
    else lines in
  let lines :=
    let tasks := Engagements.Summary.tasks summary in
    if bool_decide (0 < count tasks) then
      let lines := push lines (heading "Tasks" (count tasks)) in
      let lines := pushEach 3 taskLine (items tasks) lines in
      push lines EmptyString
    else lines in
  let lines :=
    let notes := Engagements.Summary.notes summary in
    if bool_decide (0 < count notes) then
      let lines := push lines (heading "Notes" (count notes)) in
      pushEach 2 noteLine (items notes) lines
    else lines in
  lines.

Definition generateActivitySummaryText (result : Engagements.ContactActivitySummaryResult.t)
    : string :=
  match Engagements.ContactActivitySummaryResult.summary result with
  | None => "No activity summary available"
  | Some summary =>
      Js.join newline
        (summaryLines (Engagements.ContactActivitySummaryResult.contactName result)
           (Engagements.ContactActivitySummaryResult.email result) summary)
  end.

End Skill.

(** ** tools/updateDealStage.tool.ts *)

Module UpdateDealStageToolFile.

Definition getDealById (dealId token baseUrl : string) : Net Deals.DealResult.t :=
  res ← fetch (Deals.dealRequest dealId token baseUrl);
  match res with
  | FetchThrows message => mret (Deals.dealFailure message)
  | Responds res =>
      match Response.json res with
      | JsonThrows message => mret (Deals.dealFailure message)
      | JsonValue body =>
          if negb (Response.ok res) then
            mret (Deals.dealFailure (default (Json.text body) (Json.message body)))
          else
            mret {| Deals.DealResult.ok := true;
                    Deals.DealResult.deal := Some body;
                    Deals.DealResult.error := None |}
      end
  end.

Definition failure (status : option Z) (message : string) : DealToolResult.t :=
  {| DealToolResult.ok := false;
     DealToolResult.id := None;
     DealToolResult.properties := None;
     DealToolResult.error := Some message;
     DealToolResult.status := status;
     DealToolResult.message := None;
     DealToolResult.previousDeal := None |}.

Definition execute (input : Deals.UpdateDealStageInput.t) : Net DealToolResult.t :=
  let parsed := input in
  let dealId := Deals.UpdateDealStageInput.dealId parsed in
  let dealstage := Deals.UpdateDealStageInput.dealstage parsed in
  token ← TOKEN;
  baseUrl ← HUBSPOT_BASE;
  match token with
  | Some (String c s) =>
      let token := String c s in
      currentDeal ← getDealById dealId token baseUrl;
      if negb (Deals.DealResult.ok currentDeal) then
        mret (failure None (couldNotFind dealId (Deals.DealResult.error currentDeal)))
      else
        res ← fetch (Deals.patchRequest dealId dealstage token baseUrl);
        match res with
        | FetchThrows message => mret (failure None message)
        | Responds res =>
            match Response.json res with
            | JsonThrows message => mret (failure None message)
            | JsonValue body =>
                if negb (Response.ok res) then
                  mret (failure (Some (Response.status res))
                          (default (Json.text body) (Json.message body)))
                else
                  mret {| DealToolResult.ok := true;
                          DealToolResult.id := Json.id body;
                          DealToolResult.properties := Some (default ∅ (Json.properties body));
                          DealToolResult.error := None;
                          DealToolResult.status := None;
                          DealToolResult.message := Some (updatedMessage dealstage);
                          DealToolResult.previousDeal := Deals.DealResult.deal currentDeal |}
            end
        end
  | _ => mret (failure None missingToken)
  end.

End UpdateDealStageToolFile.

(** ** tools/createContactFromChat.tool.ts *)

Module CreateContactFromChatToolFile.

Definition searchContactByEmail (email token baseUrl : string)
    : Net Engagements.SearchResult.t :=
  res ← fetch (Engagements.searchRequest email token baseUrl);
  match res with
  | FetchThrows message => mret (Engagements.searchFailure message)
  | Responds res =>
      match Response.json res with
      | JsonThrows message => mret (Engagements.searchFailure message)
      | JsonValue body =>
          if Response.ok res && Json.nullish body then
            message ← typeError "results";
            mret (Engagements.searchFailure message)
          else
            match Response.ok res, Json.results body with
            | true, Some (first :: _) =>
                if Json.isNull first then
                  message ← typeError "id";
                  mret (Engagements.searchFailure message)
                else
                  mret {| Engagements.SearchResult.ok := true;
                          Engagements.SearchResult.contactId := Json.entry_id first;
                          Engagements.SearchResult.contact := Some (Json.fields first);
                          Engagements.SearchResult.error := None |}
            | _, _ =>
                mret {| Engagements.SearchResult.ok := true;
                        Engagements.SearchResult.contactId := None;
                        Engagements.SearchResult.contact := None;
                        Engagements.SearchResult.error := None |}
            end
      end
  end.

Definition createContact (properties : list (string * string)) (token baseUrl : string)
    : Net CreateContact.Result.t :=
  res ← fetch (CreateContact.createRequest properties token baseUrl);
  match res with
  | FetchThrows message => mret (CreateContact.failure None message)
  | Responds res =>
      match Response.json res with
      | JsonThrows message => mret (CreateContact.failure None message)
      | JsonValue body =>
          if negb (Response.ok res) then
            mret (CreateContact.failure None (default (Json.text body) (Json.message body)))
          else
            mret {| CreateContact.Result.ok := true;
                    CreateContact.Result.id := Json.id body;
                    CreateContact.Result.properties := Some (default ∅ (Json.properties body));
                    CreateContact.Result.error := None;
                    CreateContact.Result.status := None |}
      end
  end.

(** The part of [execute] that follows the search. *)
Definition afterSearch (parsed : ChatInput.t) (token baseUrl : string)
    (existingContact : Engagements.SearchResult.t) : Net (Completion ChatResult.t) :=
  match Engagements.SearchResult.ok existingContact,
        Engagements.SearchResult.contactId existingContact with
  | true, Some (String c s) =>
      mret (Returned (chatExists (ChatInput.email parsed) (String c s)
                        (Engagements.SearchResult.contact existingContact)))
  | _, _ =>
      let properties := [("email", ChatInput.email parsed)] in
      let properties := CreateContact.setIf "firstname" (ChatInput.firstname parsed)
                          properties in
      let properties := CreateContact.setIf "lastname" (ChatInput.lastname parsed)
                          properties in
      let properties := CreateContact.setIf "phone" (ChatInput.phone parsed)
                          properties in
      let properties := CreateContact.setIf "company" (ChatInput.company parsed)
                          properties in
      result ← createContact properties token baseUrl;
      if CreateContact.Result.ok result then
        mret (Returned (chatOfCreate result (Some false)
                          (Some (createdMessage (ChatInput.email parsed)))
                          (ChatInput.chatSummary parsed)))
      else mret (Returned (chatOfCreate result None None None))
  end.

Definition execute (input : ChatInput.t) : Net (Completion ChatResult.t) :=
  parsed ← parseChatInput input;
  match parsed with
  | ZodError => mret ZodError
  | Returned parsed =>
      token ← TOKEN;
      baseUrl ← HUBSPOT_BASE;
      match token with
      | Some (String c s) =>
          let token := String c s in
          existingContact ← searchContactByEmail (ChatInput.email parsed) token baseUrl;
          afterSearch parsed token baseUrl existingContact
      | _ =>
          mret (Returned (chatOfCreate (CreateContact.failure None missingToken) None None None))
      end
  end.

End CreateContactFromChatToolFile.

(** ** Vocabulary of the statements *)

(** The credential and the normalised base URL a run works with. *)
Definition tokenOf (rt : Runtime) : string :=
  default EmptyString (env rt "HUBSPOT_PRIVATE_APP_TOKEN").

Definition baseUrlOf (rt : Runtime) : string :=
  Js.strip_trailing_slashes (Js.or_else (env rt "HUBSPOT_API_BASE_URL") "https://api.hubapi.com").

(** [summary[kind]]. *)
Definition entryOf (summary : Engagements.Summary.t) (kind : Engagements.EngagementType)
    : Engagements.EngagementSummary.t :=
  match kind with
  | Engagements.calls => Engagements.Summary.calls summary
  | Engagements.emails => Engagements.Summary.emails summary
  | Engagements.notes => Engagements.Summary.notes summary
  | Engagements.tasks => Engagements.Summary.tasks summary
  | Engagements.meetings => Engagements.Summary.meetings summary
  end.

(** What the loop pushes on [allItems] for a fetched item. *)
Definition tagged (kind : Engagements.EngagementType) (item : Engagements.Item.t)
    : Engagements.Tagged.t :=
  {| Engagements.Tagged.type := kind;
     Engagements.Tagged.createdAt := Engagements.Item.createdAt item |}.

(** [allItems] before the sort: the items of each kind, in processing order. *)
Definition itemsInOrder (entry : Engagements.EngagementType -> Engagements.EngagementSummary.t)
    (kinds : list Engagements.EngagementType) : list Engagements.Tagged.t :=
  flat_map (fun kind => map (tagged kind) (Engagements.EngagementSummary.items (entry kind))) kinds.

Definition allItemsOf (summary : Engagements.Summary.t) : list Engagements.Tagged.t :=
  itemsInOrder (entryOf summary) Engagements.engagementTypes.

(** The merged list after [allItems.sort]. *)
Definition mergedItems (rt : Runtime) (summary : Engagements.Summary.t)
    : list Engagements.Tagged.t :=
  Js.Array_sort (Engagements.compareItems (Date_getTime rt)) (allItemsOf summary).

(** What one kind's entry owes to its association fetch in a run from
    [start] to [final]: the fetch happened at some point [before] of the run,
    the count is the length of the list it returned, and the items are a
    sample of at most five and at most [count]. *)
Definition sampled (rt : Runtime) (contactId : string) (start final : list Request)
    (kind : Engagements.EngagementType) (entry : Engagements.EngagementSummary.t) : Prop :=
  exists before : list Request,
    let fetched :=
      Engagements.getContactAssociations contactId kind (tokenOf rt) (baseUrlOf rt) rt before in
    start `prefix_of` before /\
    fetched.2 `prefix_of` final /\
    Engagements.EngagementSummary.type entry = kind /\
    Engagements.EngagementSummary.count entry = length fetched.1 /\
    length (Engagements.EngagementSummary.items entry) <= 5 /\
    length (Engagements.EngagementSummary.items entry) <=
      Engagements.EngagementSummary.count entry.

(** The sort key the comparator works with: the time of [createdAt], the
    epoch when [createdAt] is absent or empty (and, for the statements, when
    it does not parse). *)
Definition timeKey (getTime : string -> option Z) (x : Engagements.Tagged.t) : Z :=
  default 0%Z (Engagements.timeOf getTime (Engagements.Tagged.createdAt x)).

(** The item's [createdAt], when there is one, is a date [getTime] reads. *)
Definition parses (getTime : string -> option Z) (x : Engagements.Tagged.t) : Prop :=
  is_Some (Engagements.timeOf getTime (Engagements.Tagged.createdAt x)).

(** Latest first. *)
Definition descending (getTime : string -> option Z) (xs : list Engagements.Tagged.t) : Prop :=
  StronglySorted (fun a b => (timeKey getTime b <= timeKey getTime a)%Z) xs.

(** The items with a given time, in list order. *)
Definition atTime (getTime : string -> option Z) (t : Z) (xs : list Engagements.Tagged.t)
    : list Engagements.Tagged.t :=
  filter (fun x => timeKey getTime x = t) xs.

(** The wording of the spec: an item with an absent or unparseable
    [createdAt] sorts as the oldest, that is, after every item that has a
    date. *)
Definition undated (getTime : string -> option Z) (x : Engagements.Tagged.t) : Prop :=
  match Engagements.Tagged.createdAt x with
  | None => True
  | Some s => getTime s = None
  end.

Definition undated_sort_last (getTime : string -> option Z)
    (merged : list Engagements.Tagged.t) : Prop :=
  forall i j a b,
    merged !! i = Some a -> merged !! j = Some b ->
    undated getTime a -> ~ undated getTime b -> j < i.

(** The wording of the spec: the marker is the sentinel exactly when no
    fetched item has a parseable timestamp. *)
Definition sentinel_iff_no_timestamp (getTime : string -> option Z)
    (summary : Engagements.Summary.t) : Prop :=
  Engagements.Summary.recentActivity summary = "No recent activity found" <->
  Forall (undated getTime) (allItemsOf summary).

(** A transport failure or a non-success status. *)
Definition fetch_fails (outcome : FetchOutcome) : Prop :=
  match outcome with
  | FetchThrows _ => True
  | Responds res => Response.ok res = false
  end.

(** Two remotes that give the same answer, whatever was sent before, to
    every request that does not go to the URL [u]. *)
Definition agree_off (rt1 rt2 : Runtime) (u : string) : Prop :=
  forall trace1 trace2 req, url req <> u -> remote rt1 trace1 req = remote rt2 trace2 req.

(** The report section of one kind, in the words of the spec: nothing for
    a kind whose count is 0, otherwise a heading with the count, one line
    for each of the first [cap] items, and the lines that close the section. *)
Definition kindSection (title : string) (cap : nat) (render : Engagements.Item.t -> string)
    (closing : list string) (entry : Engagements.EngagementSummary.t) : list string :=
  if bool_decide (0 < Engagements.EngagementSummary.count entry) then
    Skill.heading title (Engagements.EngagementSummary.count entry)
      :: map render (take cap (Engagements.EngagementSummary.items entry)) ++ closing
  else [].

(** ** Concrete runtimes for the examples *)

Module Scenario.

Definition quote : string := String (ascii_of_nat 34) EmptyString.

(** A JSON object with the given [id], [properties] and [results]. *)
Definition object (id : option string) (properties : option (gmap string string))
    (results : option (list Json.Entry)) : Json.value :=
  Json.Object
    {| Json.text := "{}";
       Json.id := id;
       Json.message := None;
       Json.properties := properties;
       Json.results := map Json.Element <$> results |}.

Definition association (toObjectId : string) : Json.Entry :=
  {| Json.toObjectId := Some toObjectId;
     Json.entry_id := None;
     Json.entry_properties := None;
     Json.label := None;
     Json.stages := [] |}.

Definition found (id : string) (properties : gmap string string) : Json.Entry :=
  {| Json.toObjectId := None;
     Json.entry_id := Some id;
     Json.entry_properties := Some properties;
     Json.label := None;
     Json.stages := [] |}.

Definition ok200 (body : Json.value) : FetchOutcome :=
  Responds {| Response.status := 200; Response.json := JsonValue body |}.

Definition status404 : FetchOutcome :=
  Responds
    {| Response.status := 404;
       Response.json :=
         JsonValue
           (Json.Object
              {| Json.text := "{" +:+ quote +:+ "message" +:+ quote +:+ ":" +:+ quote
                                +:+ "resource not found" +:+ quote +:+ "}";
                 Json.id := None;
                 Json.message := Some "resource not found";
                 Json.properties := None;
                 Json.results := None |}) |}.

(** A remote that answers by URL, whatever was sent before, and 404
    outside its table. *)
Fixpoint answer (routes : list (string * FetchOutcome)) (u : string) : FetchOutcome :=
  match routes with
  | [] => status404
  | (u', outcome) :: rest => if String.eqb u u' then outcome else answer rest u
  end.

(** [new Date(s).getTime()] on the strings the examples use. *)
Definition clock (s : string) : option Z :=
  if String.eqb s "2024-01-01T00:00:00.000Z" then Some 1704067200000%Z
  else if String.eqb s "2024-01-02T00:00:00.000Z" then Some 1704153600000%Z
  else if String.eqb s "2024-01-03T00:00:00.000Z" then Some 1704240000000%Z
  else if String.eqb s "1969-12-31T00:00:00.000Z" then Some (-86400000)%Z
  else None.

(** A stand-in for zod's e-mail check: some text, an at sign, some text. *)
Fixpoint at_inside (s : string) : bool :=
  match s with
  | String _ (String "@" (String _ _)) => true
  | String _ rest => at_inside rest
  | EmptyString => false
  end.

(** The message V8 gives the [TypeError]. *)
Definition nullReadV8 (name : string) : string :=
  "Cannot read properties of null (reading '" +:+ name +:+ "')".

Definition runtime (token : option string) (routes : list (string * FetchOutcome)) : Runtime :=
  {| env := fun name => if String.eqb name "HUBSPOT_PRIVATE_APP_TOKEN" then token else None;
     remote := fun _ req => answer routes (url req);
     Date_getTime := clock;
     zod_email := at_inside;
     nullRead := nullReadV8 |}.

Definition base : string := "https://api.hubapi.com".

Definition jane : string * FetchOutcome :=
  (Engagements.contactUrl base "42",
   ok200 (object (Some "42")
            (Some {[ "firstname" := "Jane"; "lastname" := "Doe";
                     "email" := "jane@example.com" ]}) None)).

Definition associated (kind : Engagements.EngagementType) (ids : list string)
    : string * FetchOutcome :=
  (Engagements.associationsUrl base "42" kind,
   ok200 (object None None (Some (map association ids)))).

Definition detailed (kind : Engagements.EngagementType) (id : string)
    (properties : gmap string string) : string * FetchOutcome :=
  (Engagements.detailsUrl base kind id, ok200 (object (Some id) (Some properties) None)).

Definition created (date : string) : gmap string string := {[ "hs_createdate" := date ]}.

(** The summary a run for contact 42 returns ([None] when it fails). *)
Definition summaryOf (rt : Runtime) : option Engagements.Summary.t :=
  Engagements.ContactActivitySummaryResult.summary
    (Engagements.getContactActivitySummary "42" rt []).1.

(** A summary to render: two calls and one long note. *)
Definition longBody : string :=
  "Discussed renewal terms, pricing for the enterprise tier, the migration timeline and open "
    +:+ "support tickets in detail.".

Definition call (id title date : string) : Engagements.Item.t :=
  {| Engagements.Item.id := id;
     Engagements.Item.createdAt := Some date;
     Engagements.Item.subject := Some title;
     Engagements.Item.body := None;
     Engagements.Item.status := Some "COMPLETED";
     Engagements.Item.direction := Some "OUTBOUND" |}.

Definition note (id text date : string) : Engagements.Item.t :=
  {| Engagements.Item.id := id;
     Engagements.Item.createdAt := Some date;
     Engagements.Item.subject := None;
     Engagements.Item.body := Some text;
     Engagements.Item.status := None;
     Engagements.Item.direction := None |}.

Definition none (kind : Engagements.EngagementType) : Engagements.EngagementSummary.t :=
  {| Engagements.EngagementSummary.type := kind;
     Engagements.EngagementSummary.count := 0;
     Engagements.EngagementSummary.items := [] |}.

Definition janeSummary : Engagements.Summary.t :=
  {| Engagements.Summary.calls :=
       {| Engagements.EngagementSummary.type := Engagements.calls;
          Engagements.EngagementSummary.count := 2;
          Engagements.EngagementSummary.items :=
            [call "c1" "Intro call" "2024-01-02T00:00:00.000Z";
             call "c2" "Follow-up" "2024-01-01T00:00:00.000Z"] |};
     Engagements.Summary.emails := none Engagements.emails;
     Engagements.Summary.notes :=
       {| Engagements.EngagementSummary.type := Engagements.notes;
          Engagements.EngagementSummary.count := 1;
          Engagements.EngagementSummary.items :=
            [note "n1" longBody "2024-01-03T00:00:00.000Z"] |};
     Engagements.Summary.tasks := none Engagements.tasks;
     Engagements.Summary.meetings := none Engagements.meetings;
     Engagements.Summary.totalEngagements := 3;
     Engagements.Summary.recentActivity := "Most recent: notes on 2024-01-03T00:00:00.000Z" |}.

Definition janeResult : Engagements.ContactActivitySummaryResult.t :=
  {| Engagements.ContactActivitySummaryResult.ok := true;
     Engagements.ContactActivitySummaryResult.contactId := Some "42";
     Engagements.ContactActivitySummaryResult.contactName := Some "Jane Doe";
     Engagements.ContactActivitySummaryResult.email := Some "jane@example.com";
     Engagements.ContactActivitySummaryResult.summary := Some janeSummary;
     Engagements.ContactActivitySummaryResult.error := None |}.

(** A deal in the qualified stage; a PATCH of the deal answers with the
    stage it was asked to set. *)
Definition dealInput : Deals.UpdateDealStageInput.t :=
  {| Deals.UpdateDealStageInput.dealId := "900";
     Deals.UpdateDealStageInput.dealstage := "closedwon";
     Deals.UpdateDealStageInput.notes := None |}.

Definition qualifiedDeal : Json.value :=
  object (Some "900") (Some {[ "dealname" := "Renewal"; "dealstage" := "qualifiedtobuy" ]}) None.

Definition dealKnown : Runtime :=
  runtime (Some "token")
    [(Deals.dealUrl base "900", ok200 qualifiedDeal);
     (base +:+ "/crm/v3/objects/deals/900",
      ok200 (object (Some "900") (Some {[ "dealstage" := "closedwon" ]}) None))].

(** The remote knows no deal. *)
Definition dealUnknown : Runtime := runtime (Some "token") [].

(** A chat visitor; the remote either knows the address or does not. *)
Definition sarah : ChatInput.t :=
  {| ChatInput.email := "sarah@company.com";
     ChatInput.firstname := Some "Sarah";
     ChatInput.lastname := None;
     ChatInput.phone := None;
     ChatInput.company := Some "TechCorp";
     ChatInput.chatSummary := Some "Asked about pricing" |}.

Definition sarahFound : Json.Entry := found "77" {[ "email" := "sarah@company.com" ]}.

Definition sarahKnown : Runtime :=
  runtime (Some "token")
    [(base +:+ "/crm/v3/objects/contacts/search", ok200 (object None None (Some [sarahFound])))].

Definition sarahNew : Runtime :=
  runtime (Some "token")
    [(base +:+ "/crm/v3/objects/contacts/search", ok200 (object None None (Some [])));
     (base +:+ "/crm/v3/objects/contacts",
      ok200 (object (Some "78") (Some {[ "email" := "sarah@company.com" ]}) None))].

(** No credential configured. *)
Definition unconfigured : Runtime := runtime None [jane].

(** Twelve calls, all with details. *)
Definition twelveIds : list string :=
  ["1"; "2"; "3"; "4"; "5"; "6"; "7"; "8"; "9"; "10"; "11"; "12"].

Definition twelveCalls : Runtime :=
  runtime (Some "token")
    (jane :: associated Engagements.calls twelveIds
       :: map (fun id => detailed Engagements.calls id (created "2024-01-01T00:00:00.000Z"))
            twelveIds).

(** Nothing is associated with the contact. *)
Definition quiet : Runtime :=
  runtime (Some "token")
    [jane; associated Engagements.calls []; associated Engagements.emails [];
     associated Engagements.notes []; associated Engagements.tasks [];
     associated Engagements.meetings []].

(** A call on the 2nd, a note on the 1st and another one on the 2nd, a
    meeting on the 3rd. *)
Definition threeDays : Runtime :=
  runtime (Some "token")
    [jane;
     associated Engagements.calls ["c1"];
     detailed Engagements.calls "c1" (created "2024-01-02T00:00:00.000Z");
     associated Engagements.notes ["n1"; "n2"];
     detailed Engagements.notes "n1" (created "2024-01-01T00:00:00.000Z");
     detailed Engagements.notes "n2" (created "2024-01-02T00:00:00.000Z");
     associated Engagements.meetings ["m1"];
     detailed Engagements.meetings "m1" (created "2024-01-03T00:00:00.000Z")].

(** The same contact while the meetings association index is down. *)
Definition meetingsDown : Runtime :=
  {| env := env threeDays;
     remote := fun trace req =>
       if String.eqb (url req) (Engagements.associationsUrl base "42" Engagements.meetings)
       then FetchThrows "connect ECONNREFUSED"
       else remote threeDays trace req;
     Date_getTime := clock;
     zod_email := at_inside;
     nullRead := nullReadV8 |}.

(** A call whose date does not parse and an email that has one. *)
Definition garbledCall : Runtime :=
  runtime (Some "token")
    [jane;
     associated Engagements.calls ["c1"];
     detailed Engagements.calls "c1" (created "not-a-date");
     associated Engagements.emails ["e1"];
     detailed Engagements.emails "e1" (created "2024-01-01T00:00:00.000Z")].

(** A call without a date and an email from before 1970. *)
Definition oldEmail : Runtime :=
  runtime (Some "token")
    [jane;
     associated Engagements.calls ["c1"];
     detailed Engagements.calls "c1" ∅;
     associated Engagements.emails ["e1"];
     detailed Engagements.emails "e1" (created "1969-12-31T00:00:00.000Z")].

(** One call, fetched, without a date. *)
Definition undatedCall : Runtime :=
  runtime (Some "token")
    [jane;
     associated Engagements.calls ["c1"];
     detailed Engagements.calls "c1" ∅].

End Scenario.

(** ** hubspotCRM.skill.ts: the remaining tools *)

(** [createContactInputSchema.parse] and [updateContactInputSchema.parse]:
    [email] is optional and, when given, must pass [z.string().email()]; the
    other fields are strings or optional strings. *)
Definition emailAccepted (email : option string) : Net bool :=
  fun (rt : Runtime) (trace : list Request) =>
    (match email with
     | Some address => zod_email rt address
     | None => true
     end, trace).

Module SkillTools.

Module CreateContactTool.
Definition execute (input : CreateContact.Input.t) : Net (Completion CreateContact.Result.t) :=
  accepted ← emailAccepted (CreateContact.Input.email input);
  if (accepted : bool) then
    let parsed := input in
    result ← CreateContact.createContact parsed;
    mret (Returned result)
  else mret ZodError.
End CreateContactTool.

Module UpdateContactTool.
Definition execute (input : CreateContact.UpdateInput.t)
    : Net (Completion CreateContact.Result.t) :=
  accepted ← emailAccepted (CreateContact.UpdateInput.email input);
  if (accepted : bool) then
    let parsed := input in
    result ← CreateContact.updateContact parsed;
    mret (Returned result)
  else mret ZodError.
End UpdateContactTool.

Module GetDealPipelinesTool.
Definition execute : Net Deals.GetPipelinesResult.t := Deals.getDealPipelines.
End GetDealPipelinesTool.

Module GetContactActivitySummaryTool.

Module Input.
Record t := { contactId : option string; email : option string }.
End Input.

(** The envelope of [getContactActivitySummary], with [summaryText] when
    the tool adds it. *)
Module Result.
Record t := {
  ok : bool;
  contactId : option string;
  contactName : option string;
  email : option string;
  summary : option Engagements.Summary.t;
  error : option string;
  summaryText : option string;
}.
End Result.

(** [{ ...result }] and [{ ...result, summaryText }]. *)
Definition spread (result : Engagements.ContactActivitySummaryResult.t)
    (summaryText : option string) : Result.t :=
  {| Result.ok := Engagements.ContactActivitySummaryResult.ok result;
     Result.contactId := Engagements.ContactActivitySummaryResult.contactId result;
     Result.contactName := Engagements.ContactActivitySummaryResult.contactName result;
     Result.email := Engagements.ContactActivitySummaryResult.email result;
     Result.summary := Engagements.ContactActivitySummaryResult.summary result;
     Result.error := Engagements.ContactActivitySummaryResult.error result;
     Result.summaryText := summaryText |}.

Definition failure (message : string) : Result.t :=
  {| Result.ok := false;
     Result.contactId := None;
     Result.contactName := None;
     Result.email := None;
     Result.summary := None;
     Result.error := Some message;
     Result.summaryText := None |}.

(** The part of [execute] from [if (!contactId)] on. *)
Definition summarize (contactId : option string) : Net Result.t :=
  match contactId with
  | Some (String c s) =>
      result ← Engagements.getContactActivitySummary (String c s);
      match Engagements.ContactActivitySummaryResult.ok result,
            Engagements.ContactActivitySummaryResult.summary result with
      | true, Some _ => mret (spread result (Some (Skill.generateActivitySummaryText result)))
      | _, _ => mret (spread result None)
      end
  | _ => mret (failure "Either contactId or email must be provided")
  end.

Definition execute (input : Input.t) : Net (Completion Result.t) :=
  accepted ← emailAccepted (Input.email input);
  if (accepted : bool) then
    let parsed := input in
    let contactId := Input.contactId parsed in
    match Js.truthy contactId, Input.email parsed with
    | false, Some (String c s) =>
        let email := String c s in
        searchResult ← Engagements.searchContactByEmail email;
        if negb (Engagements.SearchResult.ok searchResult) then
          mret (Returned (failure ("Failed to search for contact: "
                                     +:+ templated (Engagements.SearchResult.error searchResult))))
        else if negb (Js.truthy (Engagements.SearchResult.contactId searchResult)) then
          mret (Returned (failure ("No contact found with email " +:+ email)))
        else
          let contactId := Engagements.SearchResult.contactId searchResult in
          result ← summarize contactId;
          mret (Returned result)
    | _, _ =>
        result ← summarize contactId;
        mret (Returned result)
    end
  else mret ZodError.

End GetContactActivitySummaryTool.

End SkillTools.

(** ** tools/createContact.tool.ts *)

Module CreateContactToolFile.

Definition execute (input : CreateContact.Input.t) : Net (Completion CreateContact.Result.t) :=
  accepted ← emailAccepted (CreateContact.Input.email input);
  if (accepted : bool) then
    let parsed := input in
    token ← TOKEN;
    baseUrl ← HUBSPOT_BASE;
    match token with
    | Some (String c s) =>
        let token := String c s in
        let properties := [] in
        let properties := CreateContact.setIf "email" (CreateContact.Input.email parsed)
                            properties in
        let properties := CreateContact.setIf "firstname" (CreateContact.Input.firstname parsed)
                            properties in
        let properties := CreateContact.setIf "lastname" (CreateContact.Input.lastname parsed)
                            properties in
        let properties := CreateContact.setIf "phone" (CreateContact.Input.phone parsed)
                            properties in
        let properties := CreateContact.setIf "company" (CreateContact.Input.company parsed)
                            properties in
        match properties with
        | [] => mret (Returned (CreateContact.failure None "No properties provided."))
        | _ =>
            res ← fetch {| method := POST;
                           url := baseUrl +:+ "/crm/v3/objects/contacts";
                           headers := jsonHeaders token;
                           body := PropertiesPayload properties |};
            match res with
            | FetchThrows message => mret (Returned (CreateContact.failure None message))
            | Responds res =>
                match Response.json res with
                | JsonThrows message => mret (Returned (CreateContact.failure None message))
                | JsonValue body =>
                    if negb (Response.ok res) then
                      mret (Returned
                              (CreateContact.failure (Some (Response.status res))
                                 (default (Json.text body) (Json.message body))))
                    else
                      mret (Returned
                              {| CreateContact.Result.ok := true;
                                 CreateContact.Result.id := Json.id body;
                                 CreateContact.Result.properties :=
                                   Some (default ∅ (Json.properties body));
                                 CreateContact.Result.error := None;
                                 CreateContact.Result.status := None |})
                end
            end
        end
    | _ => mret (Returned (CreateContact.failure None missingToken))
    end
  else mret ZodError.

End CreateContactToolFile.

(** ** The stand-alone updateContact tool *)

Module UpdateContactToolFile.

Definition execute (input : CreateContact.UpdateInput.t)
    : Net (Completion CreateContact.Result.t) :=
  accepted ← emailAccepted (CreateContact.UpdateInput.email input);
  if (accepted : bool) then
    let parsed := input in
    token ← TOKEN;
    baseUrl ← HUBSPOT_BASE;
    match token with
    | Some (String c s) =>
        let token := String c s in
        match CreateContact.UpdateInput.contactId parsed with
        | EmptyString => mret (Returned (CreateContact.failure None "Contact ID is required."))
        | contactId =>
            let properties := [] in
            let properties := CreateContact.setIf "email" (CreateContact.UpdateInput.email parsed)
                                properties in
            let properties := CreateContact.setIf "firstname"
                                (CreateContact.UpdateInput.firstname parsed) properties in
            let properties := CreateContact.setIf "lastname"
                                (CreateContact.UpdateInput.lastname parsed) properties in
            let properties := CreateContact.setIf "phone" (CreateContact.UpdateInput.phone parsed)
                                properties in
            let properties := CreateContact.setIf "company"
                                (CreateContact.UpdateInput.company parsed) properties in
            match properties with
            | [] =>
                mret (Returned (CreateContact.failure None "No properties to update provided."))
            | _ =>
                res ← fetch {| method := PATCH;
                               url := baseUrl +:+ "/crm/v3/objects/contacts/" +:+ contactId;
                               headers := jsonHeaders token;
                               body := PropertiesPayload properties |};
                match res with
                | FetchThrows message => mret (Returned (CreateContact.failure None message))
                | Responds res =>
                    match Response.json res with
                    | JsonThrows message => mret (Returned (CreateContact.failure None message))
                    | JsonValue body =>
                        if negb (Response.ok res) then
                          mret (Returned
                                  (CreateContact.failure (Some (Response.status res))
                                     (default (Json.text body) (Json.message body))))
                        else
                          mret (Returned
                                  {| CreateContact.Result.ok := true;
                                     CreateContact.Result.id := Json.id body;
                                     CreateContact.Result.properties :=
                                       Some (default ∅ (Json.properties body));
                                     CreateContact.Result.error := None;
                                     CreateContact.Result.status := None |})
                    end
                end
            end
        end
    | _ => mret (Returned (CreateContact.failure None missingToken))
    end
  else mret ZodError.

End UpdateContactToolFile.

(** ** More vocabulary and examples *)

(** [n] slashes. *)
Fixpoint slashes (n : nat) : string :=
  match n with
  | 0 => EmptyString
  | S n => String "/" (slashes n)
  end.

(** The five writable contact fields, in the order the code tests them. *)
Definition contactFields (email firstname lastname phone company : option string)
    : list (string * option string) :=
  [("email", email); ("firstname", firstname); ("lastname", lastname);
   ("phone", phone); ("company", company)].

(** A request as every function means to send it: to a path under the
    normalised base URL, with the configured, non-empty token as bearer
    credential, asking for JSON, and with a body exactly when it is not a
    GET. *)
Definition authorised (rt : Runtime) (req : Request) : Prop :=
  (exists path, url req = baseUrlOf rt +:+ path) /\
  Js.truthy (env rt "HUBSPOT_PRIVATE_APP_TOKEN") = true /\
  ("Authorization", "Bearer " +:+ tokenOf rt) ∈ headers req /\
  ("Accept", "application/json") ∈ headers req /\
  (method req = GET <-> body req = NoPayload).

(** The requests a call added to the trace: at most [budget] of them, all
    authorised and of method [m]. *)
Definition sends (rt : Runtime) (m : Method) (budget : nat) (before after : list Request)
    : Prop :=
  exists sent,
    after = before ++ sent /\ length sent <= budget /\
    Forall (fun req => authorised rt req /\ method req = m) sent.

(** The requests a summary spends on the given kinds: for each kind one
    association request and one details request for each of the first five
    of its [count] associations. *)
Definition sampledCount (entry : Engagements.EngagementType -> Engagements.EngagementSummary.t)
    (kinds : list Engagements.EngagementType) : nat :=
  sum_list (map (fun kind => 1 + 5 `min` Engagements.EngagementSummary.count (entry kind)) kinds).

(** A remote answer that cannot be read as a success: a transport failure,
    a non-success status or a body that is not JSON. *)
Definition reply_fails (outcome : FetchOutcome) : Prop :=
  match outcome with
  | FetchThrows _ => True
  | Responds res =>
      Response.ok res = false \/ exists message, Response.json res = JsonThrows message
  end.

(** What the contact lookup's failure reports: the thrown message, or the
    message of the error body, or "Contact not found". *)
Definition lookupError (outcome : FetchOutcome) : string :=
  match outcome with
  | FetchThrows message => message
  | Responds res =>
      match Response.json res with
      | JsonThrows message => message
      | JsonValue body => default "Contact not found" (Json.message body)
      end
  end.

(** What a remote answer amounts to as an error elsewhere: the thrown
    message, the message of a non-success body or, without one, the body as
    JSON text; nothing for a success. *)
Definition errorOf (outcome : FetchOutcome) : option string :=
  match outcome with
  | FetchThrows message => Some message
  | Responds res =>
      match Response.json res with
      | JsonThrows message => Some message
      | JsonValue body =>
          if Response.ok res then None
          else Some (default (Json.text body) (Json.message body))
      end
  end.

(** What the contact search throws by itself on a success: its two
    unguarded reads fail on [null], the read of [results] when the body is
    JSON null and the read of [id] when the first result is. *)
Definition searchThrows (rt : Runtime) (outcome : FetchOutcome) : option string :=
  match outcome with
  | FetchThrows _ => None
  | Responds res =>
      match Response.json res with
      | JsonThrows _ => None
      | JsonValue body =>
          if negb (Response.ok res) then None
          else
            match body, Json.results body with
            | Json.Null, _ => Some (nullRead rt "results")
            | _, Some (Json.NullElement :: _) => Some (nullRead rt "id")
            | _, _ => None
            end
      end
  end.

(** The HTTP status a write reports: that of a non-success answer with a
    JSON body. *)
Definition statusOf (outcome : FetchOutcome) : option Z :=
  match outcome with
  | FetchThrows _ => None
  | Responds res =>
      match Response.json res with
      | JsonThrows _ => None
      | JsonValue _ => if Response.ok res then None else Some (Response.status res)
      end
  end.

(** The display name of a contact: the non-empty name parts separated by
    one space, "Unknown" when there is none. *)
Definition fullName (firstname lastname : option string) : string :=
  match Js.truthy firstname, Js.truthy lastname with
  | true, true => default EmptyString firstname +:+ " " +:+ default EmptyString lastname
  | true, false => default EmptyString firstname
  | false, true => default EmptyString lastname
  | false, false => "Unknown"
  end.

(** [contactData.properties?.[name]]. *)
Definition contactProperty (contactData : Json.t) (name : string) : option string :=
  Json.properties contactData ≫= (.!! name).



(** A remote whose answer to a request does not depend on the requests
    sent before. *)
Definition stateless (rt : Runtime) : Prop :=
  forall trace1 trace2 req, remote rt trace1 req = remote rt trace2 req.

(** What such a remote associates with a contact, and the normalised item
    it yields for an engagement ([None] when the details fetch fails). *)
Definition associatedIds (rt : Runtime) (contactId : string) (kind : Engagements.EngagementType)
    : list string :=
  (Engagements.getContactAssociations contactId kind (tokenOf rt) (baseUrlOf rt) rt []).1.

Definition fetchedItem (rt : Runtime) (kind : Engagements.EngagementType) (engId : string)
    : option Engagements.Item.t :=
  Engagements.extractEngagementInfo kind <$>
    (Engagements.getEngagementDetails kind engId (tokenOf rt) (baseUrlOf rt) rt []).1.

(** Whether the schema of a tool with an optional [email] lets it through. *)
Definition acceptedBy (rt : Runtime) (email : option string) : bool :=
  match email with
  | Some address => zod_email rt address
  | None => true
  end.

(** The library envelope inside the envelope of the summary tool. *)
Definition envelopeOf (r : SkillTools.GetContactActivitySummaryTool.Result.t)
    : Engagements.ContactActivitySummaryResult.t :=
  {| Engagements.ContactActivitySummaryResult.ok :=
       SkillTools.GetContactActivitySummaryTool.Result.ok r;
     Engagements.ContactActivitySummaryResult.contactId :=
       SkillTools.GetContactActivitySummaryTool.Result.contactId r;
     Engagements.ContactActivitySummaryResult.contactName :=
       SkillTools.GetContactActivitySummaryTool.Result.contactName r;
     Engagements.ContactActivitySummaryResult.email :=
       SkillTools.GetContactActivitySummaryTool.Result.email r;
     Engagements.ContactActivitySummaryResult.summary :=
       SkillTools.GetContactActivitySummaryTool.Result.summary r;
     Engagements.ContactActivitySummaryResult.error :=
       SkillTools.GetContactActivitySummaryTool.Result.error r |}.

(** A chat tool result with the HTTP status forgotten. *)
Definition withoutStatus (r : Completion ChatResult.t) : Completion ChatResult.t :=
  match r with
  | Returned r =>
      Returned {| ChatResult.ok := ChatResult.ok r;
                  ChatResult.alreadyExists := ChatResult.alreadyExists r;
                  ChatResult.contactId := ChatResult.contactId r;
                  ChatResult.message := ChatResult.message r;
                  ChatResult.contact := ChatResult.contact r;
                  ChatResult.id := ChatResult.id r;
                  ChatResult.properties := ChatResult.properties r;
                  ChatResult.error := ChatResult.error r;
                  ChatResult.status := None;
                  ChatResult.chatSummary := ChatResult.chatSummary r |}
  | ZodError => ZodError
  end.

(** The request both versions of the chat tool send to create the visitor. *)
Definition chatCreateRequest (rt : Runtime) (parsed : ChatInput.t) : Request :=
  CreateContact.createRequest
    (CreateContact.collectProperties (Some (ChatInput.email parsed)) (ChatInput.firstname parsed)
       (ChatInput.lastname parsed) (ChatInput.phone parsed) (ChatInput.company parsed))
    (tokenOf rt) (baseUrlOf rt).

Module More.

(** A remote that accepts every write and knows nothing else. *)
Definition accepting : Runtime :=
  Scenario.runtime (Some "token")
    [(Scenario.base +:+ "/crm/v3/objects/contacts",
      Scenario.ok200 (Scenario.object (Some "78") None None));
     (Scenario.base +:+ "/crm/v3/objects/contacts/42",
      Scenario.ok200 (Scenario.object (Some "42") None None))].

(** The same remote behind a base URL written with trailing slashes. *)
Definition slashed : Runtime :=
  {| env := fun name =>
       if String.eqb name "HUBSPOT_API_BASE_URL" then Some "https://api.hubapi.com//"
       else env accepting name;
     remote := remote accepting;
     Date_getTime := Scenario.clock;
     zod_email := Scenario.at_inside;
     nullRead := Scenario.nullReadV8 |}.

Definition newContact : CreateContact.Input.t :=
  {| CreateContact.Input.email := Some "ada@example.com";
     CreateContact.Input.firstname := Some "Ada";
     CreateContact.Input.lastname := Some EmptyString;
     CreateContact.Input.phone := None;
     CreateContact.Input.company := Some "Analytical Engines" |}.

Definition phoneUpdate (contactId : string) : CreateContact.UpdateInput.t :=
  {| CreateContact.UpdateInput.contactId := contactId;
     CreateContact.UpdateInput.email := None;
     CreateContact.UpdateInput.firstname := None;
     CreateContact.UpdateInput.lastname := None;
     CreateContact.UpdateInput.phone := Some "555-1234";
     CreateContact.UpdateInput.company := None |}.

Definition stageChange (dealId dealstage : string) (notes : option string)
    : Deals.UpdateDealStageInput.t :=
  {| Deals.UpdateDealStageInput.dealId := dealId;
     Deals.UpdateDealStageInput.dealstage := dealstage;
     Deals.UpdateDealStageInput.notes := notes |}.

(** Jane, findable by her address, with nothing associated. *)
Definition janeByEmail : Runtime :=
  Scenario.runtime (Some "token")
    [(Scenario.base +:+ "/crm/v3/objects/contacts/search",
      Scenario.ok200
        (Scenario.object None None
           (Some [Scenario.found "42" {[ "email" := "jane@example.com" ]}])));
     Scenario.jane].

(** A remote that answers the lookup of contact 42 with the JSON value
    [null]. *)
Definition nullContact : Runtime :=
  Scenario.runtime (Some "token")
    [(Engagements.contactUrl Scenario.base "42", Scenario.ok200 Json.Null)].

Definition summaryInput (contactId email : option string)
    : SkillTools.GetContactActivitySummaryTool.Input.t :=
  {| SkillTools.GetContactActivitySummaryTool.Input.contactId := contactId;
     SkillTools.GetContactActivitySummaryTool.Input.email := email |}.

End More.

(** * Properties *)

(** ** Running computations *)

Lemma run_bind {A B : Type} (c : Net A) (k : A -> Net B) rt trace :
  (c ≫= k) rt trace = k (c rt trace).1 rt (c rt trace).2.
Proof. unfold mbind, Net_bind. by destruct (c rt trace). Qed.

Lemma run_ret {A : Type} (a : A) rt trace : (mret a : Net A) rt trace = (a, trace).
Proof. reflexivity. Qed.

Lemma run_fetch req rt trace : fetch req rt trace = (remote rt trace req, trace ++ [req]).
Proof. reflexivity. Qed.

Lemma run_TOKEN rt trace : TOKEN rt trace = (env rt "HUBSPOT_PRIVATE_APP_TOKEN", trace).
Proof. reflexivity. Qed.

Lemma run_HUBSPOT_BASE_value rt trace : HUBSPOT_BASE rt trace = (baseUrlOf rt, trace).
Proof. reflexivity. Qed.

Lemma run_typeError name rt trace : typeError name rt trace = (nullRead rt name, trace).
Proof. reflexivity. Qed.

(** The cases of a parsed body: [null] or not, truthy or not, and whether
    one of its results is [null]. *)
Ltac parsed_cases parsed :=
  destruct (Json.nullish parsed), (Json.truthy parsed); cbn zeta;
  try destruct (existsb Json.isNull (default [] (Json.results parsed)));
  done.

Ltac run :=
  repeat first
    [ rewrite run_bind
    | rewrite run_ret
    | rewrite run_fetch
    | rewrite run_TOKEN
    | rewrite run_HUBSPOT_BASE_value
    | rewrite run_typeError ];
  cbn [fst snd].

Lemma falsy_cases (s : option string) :
  Js.truthy s = false -> s = None \/ s = Some EmptyString.
Proof. destruct s as [[|c s]|]; cbn; intros H; try discriminate; auto. Qed.

(** ** C6: a missing credential short-circuits every entry point *)

(** C6. When [HUBSPOT_PRIVATE_APP_TOKEN] is not configured (unset or empty),
    each of getContactActivitySummary, createContact, updateContact,
    updateDealStage, getDealPipelines and searchContactByEmail returns an
    envelope with [ok = false] whose error is the missing-token message, and
    the trace of requests is left as it was: no network call is made. *)
Theorem missing_token_short_circuits (rt : Runtime) (trace : list Request) :
  Js.truthy (env rt "HUBSPOT_PRIVATE_APP_TOKEN") = false ->
  let message := Some "Missing HUBSPOT_PRIVATE_APP_TOKEN in environment." in
  (forall contactId,
     let r := Engagements.getContactActivitySummary contactId rt trace in
     Engagements.ContactActivitySummaryResult.ok r.1 = false /\
     Engagements.ContactActivitySummaryResult.error r.1 = message /\ r.2 = trace) /\
  (forall input,
     let r := CreateContact.createContact input rt trace in
     CreateContact.Result.ok r.1 = false /\
     CreateContact.Result.error r.1 = message /\ r.2 = trace) /\
  (forall input,
     let r := CreateContact.updateContact input rt trace in
     CreateContact.Result.ok r.1 = false /\
     CreateContact.Result.error r.1 = message /\ r.2 = trace) /\
  (forall input,
     let r := Deals.updateDealStage input rt trace in
     Deals.UpdateDealStageResult.ok r.1 = false /\
     Deals.UpdateDealStageResult.error r.1 = message /\ r.2 = trace) /\
  (let r := Deals.getDealPipelines rt trace in
   Deals.GetPipelinesResult.ok r.1 = false /\
   Deals.GetPipelinesResult.error r.1 = message /\ r.2 = trace) /\
  (forall email,
     let r := Engagements.searchContactByEmail email rt trace in
     Engagements.SearchResult.ok r.1 = false /\
     Engagements.SearchResult.error r.1 = message /\ r.2 = trace).
Proof.
  intros Hfalsy message.
  unfold Engagements.getContactActivitySummary, CreateContact.createContact,
    CreateContact.updateContact, Deals.updateDealStage, Deals.getDealPipelines,
    Engagements.searchContactByEmail.
  repeat split; intros; run;
    destruct (falsy_cases _ Hfalsy) as [-> | ->]; reflexivity.
Qed.

(** ** C7: normalisation *)

(** C7. [extractEngagementInfo] is a total function of the kind and the raw
    record: the identifier is the record's [id] or the empty string, and
    [createdAt] is the [hs_createdate] property when there is one, whether or
    not the record carries a property bag.  On a record whose only property
    is [hs_createdate] the result has [createdAt] set and subject, body,
    status and direction unset, for every kind; with no property bag at all
    every optional field is unset; and a note never receives a subject. *)
Theorem extractEngagementInfo_total :
  (forall type data,
     exists info, Engagements.extractEngagementInfo type data = info /\
       Engagements.Item.id info = default EmptyString (Json.id data) /\
       Engagements.Item.createdAt info =
         (default ∅ (Json.properties data) : gmap string string) !! "hs_createdate") /\
  (forall type text id message results created,
     Engagements.extractEngagementInfo type
       {| Json.text := text; Json.id := id; Json.message := message;
          Json.properties := Some {[ "hs_createdate" := created ]};
          Json.results := results |} =
     {| Engagements.Item.id := default EmptyString id;
        Engagements.Item.createdAt := Some created;
        Engagements.Item.subject := None;
        Engagements.Item.body := None;
        Engagements.Item.status := None;
        Engagements.Item.direction := None |}) /\
  (forall type text id message results,
     Engagements.extractEngagementInfo type
       {| Json.text := text; Json.id := id; Json.message := message;
          Json.properties := None; Json.results := results |} =
     {| Engagements.Item.id := default EmptyString id;
        Engagements.Item.createdAt := None;
        Engagements.Item.subject := None;
        Engagements.Item.body := None;
        Engagements.Item.status := None;
        Engagements.Item.direction := None |}) /\
  (forall data,
     Engagements.Item.subject (Engagements.extractEngagementInfo Engagements.notes data) = None).
Proof.
  repeat split.
  - intros type data. eexists; split; [reflexivity|]. by destruct type.
  - intros [] *; reflexivity.
  - intros [] *; reflexivity.
Qed.

(** ** The two loops of [getContactActivitySummary] *)

Lemma entry_eta (e : Engagements.EngagementSummary.t) :
  {| Engagements.EngagementSummary.type := Engagements.EngagementSummary.type e;
     Engagements.EngagementSummary.count := Engagements.EngagementSummary.count e;
     Engagements.EngagementSummary.items := Engagements.EngagementSummary.items e ++ [] |} = e.
Proof. destruct e; cbn. by rewrite app_nil_r. Qed.

Lemma run_getContactAssociations contactId kind token baseUrl rt trace :
  (Engagements.getContactAssociations contactId kind token baseUrl rt trace).2 =
  trace ++ [Engagements.associationsRequest contactId kind token baseUrl].
Proof.
  unfold Engagements.getContactAssociations. run.
  destruct (remote rt trace _) as [res|]; [|reflexivity].
  destruct (negb (Response.ok res)); [reflexivity|].
  destruct (Response.json res) as [parsed|]; [|reflexivity].
  destruct (Json.nullish parsed); [done|]. cbn zeta.
  by destruct (existsb Json.isNull _).
Qed.

Lemma run_getEngagementDetails kind engId token baseUrl rt trace :
  (Engagements.getEngagementDetails kind engId token baseUrl rt trace).2 =
  trace ++ [Engagements.detailsRequest kind engId token baseUrl].
Proof.
  unfold Engagements.getEngagementDetails. run.
  destruct (remote rt trace _) as [res|]; [|reflexivity].
  destruct (negb (Response.ok res)); [reflexivity|].
  destruct (Response.json res) as [data|]; [|reflexivity].
  by destruct (Json.truthy data).
Qed.

(** The inner loop appends some fetched items, at most one per identifier,
    to the entry of its kind and to [allItems], and touches nothing else. *)
Lemma inner_loop kind token baseUrl ids (st : Engagements.Collected) rt trace :
  exists new : list Engagements.Item.t,
    let r := forOf ids (Engagements.collectOne kind token baseUrl) st rt trace in
    length new <= length ids /\
    (forall k, r.1.1 k =
       if decide (k = kind) then
         {| Engagements.EngagementSummary.type := Engagements.EngagementSummary.type (st.1 kind);
            Engagements.EngagementSummary.count := Engagements.EngagementSummary.count (st.1 kind);
            Engagements.EngagementSummary.items :=
              Engagements.EngagementSummary.items (st.1 kind) ++ new |}
       else st.1 k) /\
    r.1.2 = st.2 ++ map (tagged kind) new /\
    trace `prefix_of` r.2.
Proof.
  revert st trace. induction ids as [|engId ids IH]; intros st trace.
  - exists []. cbn. repeat split; [lia| |by rewrite app_nil_r|done].
    intros k. case_decide as Hk; [subst k; by rewrite entry_eta|done].
  - cbn [forOf]. rewrite run_bind.
    set (step := Engagements.collectOne kind token baseUrl st engId rt trace).
    destruct (IH step.1 step.2) as (new & Hlen & Hsum & Hall & Htr).
    assert (Hstep_tr : trace `prefix_of` step.2).
    { subst step. unfold Engagements.collectOne. rewrite run_bind.
      pose proof (run_getEngagementDetails kind engId token baseUrl rt trace) as Htr'.
      destruct (Engagements.getEngagementDetails kind engId token baseUrl rt trace) as [[d|] tr'];
        cbn in *; subst tr'; by apply prefix_app_r. }
    subst step. unfold Engagements.collectOne in *. rewrite run_bind in *.
    destruct (Engagements.getEngagementDetails kind engId token baseUrl rt trace)
      as [[details|] tr'] eqn:Hd; cbn [fst snd] in *; rewrite run_ret in *; cbn [fst snd] in *.
    + exists (Engagements.extractEngagementInfo kind details :: new).
      repeat split.
      * cbn. lia.
      * intros k. rewrite Hsum. unfold Engagements.pushItem.
        case_decide; [|done]. rewrite decide_True by done. cbn.
        by rewrite <- app_assoc.
      * rewrite Hall. cbn. by rewrite <- app_assoc.
      * by etrans.
    + exists new. repeat split; [cbn; lia|done|done|by etrans].
Qed.

(** One round of the outer loop: the entry of the kind gets the length of
    the association list as its count and the sampled items; the other
    entries are untouched. *)
Lemma outer_step contactId token baseUrl (st : Engagements.Collected) kind rt trace :
  exists new : list Engagements.Item.t,
    let fetched := Engagements.getContactAssociations contactId kind token baseUrl rt trace in
    let r := Engagements.collectType contactId token baseUrl st kind rt trace in
    length new <= 5 /\ length new <= length fetched.1 /\
    (fetched.1 = [] -> new = []) /\
    (forall k, r.1.1 k =
       if decide (k = kind) then
         {| Engagements.EngagementSummary.type := Engagements.EngagementSummary.type (st.1 kind);
            Engagements.EngagementSummary.count := length fetched.1;
            Engagements.EngagementSummary.items :=
              Engagements.EngagementSummary.items (st.1 kind) ++ new |}
       else st.1 k) /\
    r.1.2 = st.2 ++ map (tagged kind) new /\
    fetched.2 `prefix_of` r.2.
Proof.
  unfold Engagements.collectType. rewrite run_bind.
  set (fetched := Engagements.getContactAssociations contactId kind token baseUrl rt trace).
  destruct (inner_loop kind token baseUrl (take 5 fetched.1) st rt fetched.2)
    as (new & Hlen & Hsum & Hall & Htr).
  exists new. cbn zeta. rewrite run_bind, run_ret. cbn [fst snd].
  rewrite length_take in Hlen.
  repeat split; [lia|lia| | |done|done].
  - intros Hnil. rewrite Hnil in Hlen. destruct new; [done|cbn in Hlen; lia].
  - intros k. unfold Engagements.setCount. rewrite Hsum.
    case_decide; [|done]. done.
Qed.

Lemma sampled_start rt contactId start start' final kind entry :
  start `prefix_of` start' ->
  sampled rt contactId start' final kind entry -> sampled rt contactId start final kind entry.
Proof.
  intros Hpre (before & H1 & H2). exists before. split; [by etrans|done].
Qed.

(** The outer loop over a duplicate-free list of kinds whose entries are
    still the initial ones. *)
Lemma outer_loop rt contactId kinds (st : Engagements.Collected) trace :
  NoDup kinds ->
  (forall k, k ∈ kinds -> st.1 k = Engagements.summaries0 k) ->
  let r := forOf kinds (Engagements.collectType contactId (tokenOf rt) (baseUrlOf rt))
             st rt trace in
  trace `prefix_of` r.2 /\
  (forall k, k ∉ kinds -> r.1.1 k = st.1 k) /\
  (forall k, k ∈ kinds -> sampled rt contactId trace r.2 k (r.1.1 k)) /\
  r.1.2 = st.2 ++ itemsInOrder r.1.1 kinds.
Proof.
  revert st trace. induction kinds as [|kind kinds IH]; intros st trace Hnd Hinit.
  - cbn. repeat split; [done| |by rewrite app_nil_r].
    intros k Hk. by apply elem_of_nil in Hk.
  - apply NoDup_cons in Hnd as [Hfresh Hnd].
    cbn [forOf]. rewrite run_bind.
    destruct (outer_step contactId (tokenOf rt) (baseUrlOf rt) st kind rt trace)
      as (new & Hfive & Hcount & _ & Hsum & Hall & Htr).
    set (fetched := Engagements.getContactAssociations contactId kind (tokenOf rt)
                      (baseUrlOf rt) rt trace) in *.
    set (step := Engagements.collectType contactId (tokenOf rt) (baseUrlOf rt)
                   st kind rt trace) in *.
    cbn zeta in Hsum, Hall, Htr, Hcount.
    assert (Hfetched : trace `prefix_of` fetched.2).
    { subst fetched. rewrite run_getContactAssociations. by apply prefix_app_r. }
    destruct (IH step.1 step.2 Hnd) as (Hpre & Hout & Hin & Hitems).
    { intros k Hk. rewrite Hsum. rewrite decide_False; [by apply Hinit; right|].
      intros ->. done. }
    cbn zeta in Hpre, Hout, Hin, Hitems.
    set (r := forOf kinds _ step.1 rt step.2) in *.
    assert (Hkind : r.1.1 kind =
      {| Engagements.EngagementSummary.type := kind;
         Engagements.EngagementSummary.count := length fetched.1;
         Engagements.EngagementSummary.items := new |}).
    { rewrite Hout by done. rewrite Hsum, decide_True by done.
      rewrite (Hinit kind) by left. done. }
    repeat split.
    + etrans; [exact Hfetched|]. etrans; [exact Htr|done].
    + intros k Hk. apply not_elem_of_cons in Hk as [Hne Hk].
      rewrite Hout by done. rewrite Hsum. by rewrite decide_False.
    + intros k Hk. apply elem_of_cons in Hk as [->|Hk].
      * exists trace. fold fetched. rewrite Hkind. cbn.
        repeat split; [done|by etrans|done|done].
      * eapply sampled_start; [|by apply Hin].
        by etrans.
    + rewrite Hitems, Hall. unfold itemsInOrder. cbn [flat_map].
      rewrite Hkind. cbn. by rewrite <- app_assoc.
Qed.

(** A successful run: the envelope carries a summary whose entries are the
    loop's, whose total is the sum of the five counts and whose marker is
    read off the head of the sorted [allItems]. *)
Lemma summary_run rt contactId start :
  let r := Engagements.getContactActivitySummary contactId rt start in
  Engagements.ContactActivitySummaryResult.ok r.1 = true ->
  exists summary,
    Engagements.ContactActivitySummaryResult.summary r.1 = Some summary /\
    Engagements.ContactActivitySummaryResult.error r.1 = None /\
    (forall kind, sampled rt contactId start r.2 kind (entryOf summary kind)) /\
    Engagements.Summary.totalEngagements summary =
      Engagements.EngagementSummary.count (Engagements.Summary.calls summary) +
      Engagements.EngagementSummary.count (Engagements.Summary.emails summary) +
      Engagements.EngagementSummary.count (Engagements.Summary.notes summary) +
      Engagements.EngagementSummary.count (Engagements.Summary.tasks summary) +
      Engagements.EngagementSummary.count (Engagements.Summary.meetings summary) /\
    Engagements.Summary.recentActivity summary =
      Engagements.recentActivityOf (mergedItems rt summary).
Proof.
  cbn zeta. unfold Engagements.getContactActivitySummary. run.
  fold (baseUrlOf rt).
  destruct (env rt "HUBSPOT_PRIVATE_APP_TOKEN") as [[|c s]|] eqn:Htoken;
    try (cbn; discriminate).
  assert (Htok : tokenOf rt = String c s) by (unfold tokenOf; by rewrite Htoken).
  rewrite <- Htok.
  destruct contactId as [|c0 s0]; [cbn; discriminate|].
  run.
  set (contactId := String c0 s0).
  set (request := Engagements.contactRequest _ _ _).
  destruct (remote rt start request) as [res|]; [|cbn; discriminate].
  destruct (negb (Response.ok res)).
  { destruct (Response.json res); cbn; discriminate. }
  destruct (Response.json res) as [contactData|]; [|cbn; discriminate].
  run. destruct (Json.nullish contactData); [run; cbn; discriminate|].
  run. intros _.
  destruct (outer_loop rt contactId Engagements.engagementTypes
              (Engagements.summaries0, []) (start ++ [request]))
    as (Hpre & _ & Hin & Hitems); [compute_done|done|].
  cbn zeta in Hpre, Hin, Hitems.
  set (loop := forOf _ _ _ rt _) in *.
  unfold getDate. cbn [fst snd].
  eexists. split; [reflexivity|]. split; [reflexivity|].
  cbn [Engagements.assemble Engagements.Summary.totalEngagements
       Engagements.Summary.recentActivity Engagements.Summary.calls
       Engagements.Summary.emails Engagements.Summary.notes Engagements.Summary.tasks
       Engagements.Summary.meetings].
  repeat split.
  - intros kind.
    assert (Hk : kind ∈ Engagements.engagementTypes) by (destruct kind; compute_done).
    specialize (Hin kind Hk).
    eapply sampled_start; [by apply prefix_app_r|].
    destruct kind; exact Hin.
  - unfold mergedItems, allItemsOf. cbn [fst snd].
    rewrite Hitems. cbn [app]. f_equal.
Qed.

(** ** C1: counts are true totals, items are bounded samples *)

(** C1. In every run of getContactActivitySummary that returns a summary,
    and for every engagement kind, the kind's count is the length of the
    identifier list that the association fetch of that kind returned during
    the run, and the kind's items list holds at most 5 entries and at most
    count entries. *)
Theorem count_is_total_items_are_sampled (rt : Runtime) (contactId : string)
    (start : list Request) :
  let r := Engagements.getContactActivitySummary contactId rt start in
  Engagements.ContactActivitySummaryResult.ok r.1 = true ->
  exists summary,
    Engagements.ContactActivitySummaryResult.summary r.1 = Some summary /\
    forall kind, exists before : list Request,
      let fetched :=
        Engagements.getContactAssociations contactId kind (tokenOf rt) (baseUrlOf rt)
          rt before in
      let entry := entryOf summary kind in
      start `prefix_of` before /\
      fetched.2 `prefix_of` r.2 /\
      Engagements.EngagementSummary.count entry = length fetched.1 /\
      length (Engagements.EngagementSummary.items entry) <= 5 /\
      length (Engagements.EngagementSummary.items entry) <=
        Engagements.EngagementSummary.count entry.
Proof.
  intros r Hok.
  destruct (summary_run rt contactId start Hok) as (summary & Hsum & _ & Hsampled & _).
  exists summary. split; [done|].
  intros kind. destruct (Hsampled kind) as (before & H1 & H2 & _ & H3 & H4 & H5).
  exists before. cbn zeta. done.
Qed.

(** ** C2: the total is the sum of the counts *)

(** C2. In every run of getContactActivitySummary that returns a summary,
    totalEngagements is calls.count + emails.count + notes.count +
    tasks.count + meetings.count, whatever the number of items that were
    detail-fetched; when the association fetch returns no identifier for any
    kind, totalEngagements is 0. *)
Theorem totalEngagements_is_sum_of_counts (rt : Runtime) (contactId : string)
    (start : list Request) :
  let r := Engagements.getContactActivitySummary contactId rt start in
  Engagements.ContactActivitySummaryResult.ok r.1 = true ->
  exists summary,
    Engagements.ContactActivitySummaryResult.summary r.1 = Some summary /\
    Engagements.Summary.totalEngagements summary =
      Engagements.EngagementSummary.count (Engagements.Summary.calls summary) +
      Engagements.EngagementSummary.count (Engagements.Summary.emails summary) +
      Engagements.EngagementSummary.count (Engagements.Summary.notes summary) +
      Engagements.EngagementSummary.count (Engagements.Summary.tasks summary) +
      Engagements.EngagementSummary.count (Engagements.Summary.meetings summary) /\
    ((forall kind before,
        (Engagements.getContactAssociations contactId kind (tokenOf rt) (baseUrlOf rt)
           rt before).1 = []) ->
     Engagements.Summary.totalEngagements summary = 0).
Proof.
  intros r Hok.
  destruct (summary_run rt contactId start Hok) as (summary & Hsum & _ & Hsampled & Htotal & _).
  exists summary. split; [done|]. split; [done|].
  intros Hnone. rewrite Htotal.
  assert (Hzero : forall kind, Engagements.EngagementSummary.count (entryOf summary kind) = 0).
  { intros kind. destruct (Hsampled kind) as (before & _ & _ & _ & Hcount & _).
    cbn zeta in Hcount. by rewrite Hcount, Hnone. }
  pose proof (Hzero Engagements.calls). pose proof (Hzero Engagements.emails).
  pose proof (Hzero Engagements.notes). pose proof (Hzero Engagements.tasks).
  pose proof (Hzero Engagements.meetings). cbn [entryOf] in *. lia.
Qed.

(** ** [Array.prototype.sort]: a permutation, and with a comparator that
    subtracts keys the stable sort *)

Lemma filter_none {A : Type} (P : A -> Prop) `{!forall x, Decision (P x)} (xs : list A) :
  Forall (fun x => ~ P x) xs -> filter P xs = [].
Proof.
  induction 1 as [|x xs Hx _ IH]; [done|]. by rewrite filter_cons_False.
Qed.

Section SortByKey.
Context {A : Type} (comparefn : A -> A -> option Z) (key : A -> Z) (good : A -> Prop).
Hypothesis comparefn_key :
  forall x y, good x -> good y -> comparefn x y = Some (key y - key x)%Z.

Local Abbreviation later_first := (StronglySorted (fun a b => (key b <= key a)%Z)).

Lemma SortCompare_key (x y : A) :
  good x -> good y -> Js.SortCompare comparefn x y = (key y - key x)%Z.
Proof. intros Hx Hy. unfold Js.SortCompare. by rewrite comparefn_key. Qed.

Lemma insert_Permutation (x : A) (xs : list A) :
  Permutation (xs ++ [x]) (Js.insert comparefn x xs).
Proof.
  induction xs as [|y xs IH]; cbn [Js.insert]; [done|].
  destruct (Js.SortCompare comparefn x y <? 0)%Z.
  - symmetry. apply (Permutation_cons_append (y :: xs) x).
  - cbn. by constructor.
Qed.

Lemma insert_Forall (P : A -> Prop) (x : A) (xs : list A) :
  P x -> Forall P xs -> Forall P (Js.insert comparefn x xs).
Proof.
  intros Hx Hxs. eapply Permutation_Forall; [apply insert_Permutation|].
  apply Forall_app; auto.
Qed.

Lemma insert_sorted (x : A) (xs : list A) :
  good x -> Forall good xs -> later_first xs -> later_first (Js.insert comparefn x xs).
Proof.
  intros Hx Hgood Hsorted. induction Hsorted as [|y xs Hsorted IH Hy]; cbn.
  - repeat constructor.
  - apply Forall_cons in Hgood as [Hgy Hgood].
    rewrite SortCompare_key by done.
    destruct (Z.ltb_spec (key y - key x) 0).
    + constructor; [by constructor|].
      constructor; [lia|]. eapply Forall_impl; [exact Hy|]. cbn. intros; lia.
    + constructor; [by apply IH|].
      apply insert_Forall; [lia|done].
Qed.

(** Stability of one insertion: among the elements of a given key the new
    one comes last. *)
Lemma insert_stable (x : A) (xs : list A) (t : Z) :
  good x -> Forall good xs -> later_first xs ->
  filter (fun y => key y = t) (Js.insert comparefn x xs) =
  filter (fun y => key y = t) (xs ++ [x]).
Proof.
  intros Hx Hgood Hsorted.
  induction Hsorted as [|y xs Hsorted IH Hy]; cbn [Js.insert]; [done|].
  apply Forall_cons in Hgood as [Hgy Hgood].
  rewrite SortCompare_key by done.
  destruct (Z.ltb_spec (key y - key x) 0).
  - rewrite filter_app, (filter_cons _ x), (filter_cons _ x []), filter_nil.
    destruct (decide (key x = t)) as [Hxt|Hxt]; [|by rewrite app_nil_r].
    assert (Hnone : filter (fun y => key y = t) (y :: xs) = []).
    { apply filter_none. constructor; [lia|].
      eapply Forall_impl; [exact Hy|]. cbn. intros; lia. }
    by rewrite Hnone.
  - rewrite <- app_comm_cons, !(filter_cons _ y), IH by done. done.
Qed.

Lemma sort_from (acc xs : list A) :
  Forall good acc -> Forall good xs -> later_first acc ->
  let sorted := fold_left (fun acc x => Js.insert comparefn x acc) xs acc in
  later_first sorted /\
  forall t, filter (fun y => key y = t) sorted = filter (fun y => key y = t) (acc ++ xs).
Proof.
  revert acc. induction xs as [|x xs IH]; intros acc Hacc Hxs Hsorted; cbn.
  - split; [done|]. intros t. by rewrite app_nil_r.
  - apply Forall_cons in Hxs as [Hx Hxs].
    destruct (IH (Js.insert comparefn x acc)) as [Hs Hf];
      [by apply insert_Forall|done|by apply insert_sorted|].
    split; [done|]. intros t. rewrite Hf, !filter_app, insert_stable by done.
    rewrite filter_app, <- app_assoc, (filter_cons _ x xs), (filter_cons _ x []), filter_nil.
    by destruct (decide (key x = t)).
Qed.

(** Any place is as good as another for a permutation. *)
Lemma BinaryInsertion_Permutation (run : list A) (pivot : A) :
  Permutation (run ++ [pivot]) (Js.BinaryInsertion comparefn run pivot).
Proof.
  unfold Js.BinaryInsertion. set (left := Js.insertionPoint _ _ _ _ _ _).
  rewrite <- (take_drop left run) at 1. rewrite <- app_assoc.
  apply Permutation_app_head. symmetry. apply Permutation_cons_append.
Qed.

Lemma CountAndMakeRun_Permutation (xs : list A) :
  Permutation xs ((Js.CountAndMakeRun comparefn xs).1 ++ (Js.CountAndMakeRun comparefn xs).2).
Proof.
  destruct xs as [|high [|low rest]]; cbn [Js.CountAndMakeRun fst snd]; [done|done|].
  set (n := 2 + _).
  destruct (_ <? 0)%Z; cbn [fst snd].
  - rewrite reverse_Permutation, take_drop. done.
  - by rewrite take_drop.
Qed.

Lemma Array_sort_Permutation (xs : list A) : Permutation xs (Js.Array_sort comparefn xs).
Proof.
  unfold Js.Array_sort. rewrite (CountAndMakeRun_Permutation xs) at 1.
  destruct (Js.CountAndMakeRun comparefn xs) as [run rest]. cbn [fst snd].
  revert run. induction rest as [|x rest IH]; intros run; cbn; [by rewrite app_nil_r|].
  rewrite <- IH, <- BinaryInsertion_Permutation, <- app_assoc. done.
Qed.

(** The fuel of the binary search is enough: more of it changes nothing. *)
Lemma insertionPoint_fuel (fuel fuel' : nat) (pivot : A) (run : list A) (left right : nat) :
  right - left <= fuel -> right - left <= fuel' ->
  Js.insertionPoint comparefn fuel pivot run left right =
  Js.insertionPoint comparefn fuel' pivot run left right.
Proof.
  revert fuel' left right. induction fuel as [|fuel IH]; intros fuel' left right Hf Hf'.
  - destruct fuel' as [|fuel']; [done|]. cbn [Js.insertionPoint].
    rewrite bool_decide_eq_false_2; [done|lia].
  - destruct fuel' as [|fuel'].
    + cbn [Js.insertionPoint]. rewrite bool_decide_eq_false_2; [done|lia].
    + cbn [Js.insertionPoint]. case_bool_decide as Hlt; [|done].
      assert (Hdiv : Nat.div2 (right - left) < right - left).
      { apply Nat.lt_div2. lia. }
      destruct (run !! _); [|done].
      revert Hdiv. generalize (Nat.div2 (right - left)) as half. intros half Hdiv.
      destruct (_ <? 0)%Z; apply IH; lia.
Qed.

(** The binary search on a sorted run finds the end of the elements that
    the pivot does not have to precede. *)
Lemma insertionPoint_sorted (pivot : A) (front back : list A) :
  good pivot -> Forall good front -> Forall good back ->
  Forall (fun y => (key pivot <= key y)%Z) front ->
  Forall (fun y => (key y < key pivot)%Z) back ->
  forall fuel left right,
    left <= length front <= right -> right <= length (front ++ back) ->
    right - left <= fuel ->
    Js.insertionPoint comparefn fuel pivot (front ++ back) left right = length front.
Proof.
  intros Hpivot Hgf Hgb Hfront Hback.
  induction fuel as [|fuel IH]; intros left right Hbounds Hright Hfuel.
  - cbn. lia.
  - cbn [Js.insertionPoint]. case_bool_decide as Hlt; [|lia].
    assert (Hdiv : Nat.div2 (right - left) < right - left) by (apply Nat.lt_div2; lia).
    revert Hdiv. generalize (Nat.div2 (right - left)) as half. intros half Hdiv.
    set (mid := left + half) in *.
    destruct (decide (mid < length front)) as [Hmid|Hmid].
    + rewrite lookup_app_l by done.
      destruct (lookup_lt_is_Some_2 front mid Hmid) as [y Hy]. rewrite Hy.
      rewrite SortCompare_key;
        [|done|by eapply Forall_lookup_1 in Hgf].
      eapply Forall_lookup_1 in Hfront; [|exact Hy]. cbn in Hfront.
      destruct (Z.ltb_spec (key y - key pivot) 0); [lia|].
      apply IH; lia.
    + rewrite lookup_app_r by lia.
      rewrite length_app in Hright.
      destruct (lookup_lt_is_Some_2 back (mid - length front)) as [y Hy]; [lia|].
      rewrite Hy.
      rewrite SortCompare_key;
        [|done|by eapply Forall_lookup_1 in Hgb].
      eapply Forall_lookup_1 in Hback; [|exact Hy]. cbn in Hback.
      destruct (Z.ltb_spec (key y - key pivot) 0); [|lia].
      apply IH; [lia|rewrite length_app; lia|lia].
Qed.

Lemma insert_split (pivot : A) (front back : list A) :
  good pivot -> Forall good front -> Forall good back ->
  Forall (fun y => (key pivot <= key y)%Z) front ->
  Forall (fun y => (key y < key pivot)%Z) back ->
  Js.insert comparefn pivot (front ++ back) = front ++ pivot :: back.
Proof.
  intros Hpivot Hgf Hgb Hfront Hback.
  induction front as [|y front IH]; cbn [app Js.insert].
  - destruct back as [|y back]; [done|]. cbn [Js.insert].
    apply Forall_cons in Hgb as [Hy _]. apply Forall_cons in Hback as [Hlt _].
    rewrite SortCompare_key by done.
    destruct (Z.ltb_spec (key y - key pivot) 0); [done|lia].
  - apply Forall_cons in Hgf as [Hy Hgf]. apply Forall_cons in Hfront as [Hle Hfront].
    rewrite SortCompare_key by done.
    destruct (Z.ltb_spec (key y - key pivot) 0); [lia|].
    by rewrite IH.
Qed.

(** A sorted list splits at any key. *)
Lemma sorted_split (pivot : A) (run : list A) :
  later_first run ->
  exists front back,
    run = front ++ back /\
    Forall (fun y => (key pivot <= key y)%Z) front /\
    Forall (fun y => (key y < key pivot)%Z) back.
Proof.
  induction 1 as [|y run Hsorted (front & back & -> & Hfront & Hback) Hy].
  - exists [], []. by repeat constructor.
  - destruct (decide (key pivot <= key y)%Z) as [Hle|Hgt].
    + exists (y :: front), back. split; [done|]. split; [by constructor|done].
    + exists [], (y :: front ++ back). split; [done|]. split; [constructor|].
      constructor; [lia|]. eapply Forall_impl; [exact Hy|]. cbn. intros; lia.
Qed.

Lemma BinaryInsertion_insert (run : list A) (pivot : A) :
  good pivot -> Forall good run -> later_first run ->
  Js.BinaryInsertion comparefn run pivot = Js.insert comparefn pivot run.
Proof.
  intros Hpivot Hgood Hsorted.
  destruct (sorted_split pivot run Hsorted) as (front & back & -> & Hfront & Hback).
  apply Forall_app in Hgood as [Hgf Hgb].
  unfold Js.BinaryInsertion.
  rewrite (insertionPoint_sorted pivot front back) by (try done; rewrite ?length_app; lia).
  rewrite insert_split by done.
  by rewrite take_app_length, drop_app_length.
Qed.

Lemma BinaryInsertionSort_insert (run rest : list A) :
  Forall good run -> Forall good rest -> later_first run ->
  fold_left (Js.BinaryInsertion comparefn) rest run =
  fold_left (fun acc x => Js.insert comparefn x acc) rest run.
Proof.
  revert run. induction rest as [|x rest IH]; intros run Hrun Hrest Hsorted; [done|].
  apply Forall_cons in Hrest as [Hx Hrest]. cbn [fold_left].
  rewrite BinaryInsertion_insert by done.
  apply IH; [by apply insert_Forall|done|by apply insert_sorted].
Qed.

(** The run [CountAndMakeRun] makes is in order, and it holds the elements
    of each key in their original order. *)
Lemma extendRun_ascending (previous : A) (rest : list A) :
  good previous -> Forall good rest ->
  let n := Js.extendRun comparefn false previous rest in
  later_first (previous :: take n rest).
Proof.
  revert previous. induction rest as [|current rest IH]; intros previous Hp Hrest; cbn.
  - repeat constructor.
  - apply Forall_cons in Hrest as [Hc Hrest].
    rewrite SortCompare_key by done.
    destruct (Z.ltb_spec (key previous - key current) 0); cbn [take].
    + repeat constructor.
    + specialize (IH current Hc Hrest). cbn zeta in IH.
      constructor; [done|].
      apply StronglySorted_inv in IH as [_ Hall].
      constructor; [lia|]. eapply Forall_impl; [exact Hall|]. cbn. intros; lia.
Qed.

Lemma extendRun_descending (previous : A) (rest : list A) :
  good previous -> Forall good rest ->
  let n := Js.extendRun comparefn true previous rest in
  StronglySorted (fun a b => (key a < key b)%Z) (previous :: take n rest).
Proof.
  revert previous. induction rest as [|current rest IH]; intros previous Hp Hrest; cbn.
  - repeat constructor.
  - apply Forall_cons in Hrest as [Hc Hrest].
    rewrite SortCompare_key by done.
    destruct (Z.leb_spec 0 (key previous - key current)); cbn [take].
    + repeat constructor.
    + specialize (IH current Hc Hrest). cbn zeta in IH.
      constructor; [done|].
      apply StronglySorted_inv in IH as [_ Hall].
      constructor; [lia|]. eapply Forall_impl; [exact Hall|]. cbn. intros; lia.
Qed.

Lemma reverse_strict (xs : list A) (t : Z) :
  StronglySorted (fun a b => (key a < key b)%Z) xs ->
  later_first (reverse xs) /\
  filter (fun y => key y = t) (reverse xs) = filter (fun y => key y = t) xs.
Proof.
  induction 1 as [|x xs Hsorted [IHs IHf] Hx]; [by split; [constructor|]|].
  rewrite reverse_cons. split.
  - clear IHf. revert IHs.
    assert (Hall : Forall (fun y => (key x <= key y)%Z) (reverse xs)).
    { rewrite Forall_forall in Hx. apply Forall_forall. intros y Hy.
      rewrite elem_of_reverse in Hy. specialize (Hx y Hy). cbn in Hx. lia. }
    revert Hall. generalize (reverse xs) as ys.
    induction ys as [|y ys IH]; intros Hall Hys; cbn.
    + repeat constructor.
    + apply Forall_cons in Hall as [Hy Hall].
      apply StronglySorted_inv in Hys as [Hys Hyall].
      constructor; [by apply IH|].
      apply Forall_app. split; [done|]. by repeat constructor.
  - rewrite filter_app, IHf, (filter_cons _ x xs), (filter_cons _ x []), filter_nil.
    destruct (decide (key x = t)) as [Hxt|Hxt]; [|by rewrite app_nil_r].
    assert (Hnone : filter (fun y => key y = t) xs = []).
    { apply filter_none. eapply Forall_impl; [exact Hx|]. cbn. intros; lia. }
    by rewrite Hnone.
Qed.

Lemma CountAndMakeRun_sorted (xs : list A) :
  Forall good xs ->
  let made := Js.CountAndMakeRun comparefn xs in
  Forall good made.1 /\ Forall good made.2 /\ later_first made.1 /\
  forall t, filter (fun y => key y = t) (made.1 ++ made.2) = filter (fun y => key y = t) xs.
Proof.
  intros Hxs. cbn zeta.
  destruct xs as [|high [|low rest]]; cbn [Js.CountAndMakeRun fst snd].
  - by repeat split; try constructor.
  - split; [done|]. split; [done|]. split; [by repeat constructor|done].
  - pose proof Hxs as Hgood.
    apply Forall_cons in Hxs as [Hhigh Hxs]. apply Forall_cons in Hxs as [Hlow Hrest].
    set (order := Js.SortCompare comparefn low high).
    assert (Horder : order = (key high - key low)%Z) by (by apply SortCompare_key).
    set (n := 2 + _).
    assert (Htake : Forall good (take n (high :: low :: rest))) by by apply Forall_take.
    assert (Hdrop : Forall good (drop n (high :: low :: rest))) by by apply Forall_drop.
    destruct (Z.ltb_spec order 0) as [Hdesc|Hasc]; cbn [fst snd].
    + assert (Hstrict : StronglySorted (fun a b => (key a < key b)%Z)
                          (take n (high :: low :: rest))).
      { subst n. cbn [take Nat.add].
        pose proof (extendRun_descending low rest Hlow Hrest) as Hrun. cbn zeta in Hrun.
        constructor; [done|].
        apply StronglySorted_inv in Hrun as [_ Hall].
        constructor; [lia|]. eapply Forall_impl; [exact Hall|]. cbn. intros; lia. }
      split; [by apply Forall_reverse|]. split; [done|].
      split; [by apply (reverse_strict _ 0%Z)|].
      intros t. rewrite filter_app.
      destruct (reverse_strict _ t Hstrict) as [_ ->].
      by rewrite <- filter_app, take_drop.
    + split; [done|]. split; [done|]. split.
      * subst n. cbn [take Nat.add].
        pose proof (extendRun_ascending low rest Hlow Hrest) as Hrun. cbn zeta in Hrun.
        constructor; [done|].
        apply StronglySorted_inv in Hrun as [_ Hall].
        constructor; [lia|]. eapply Forall_impl; [exact Hall|]. cbn. intros; lia.
      * intros t. by rewrite take_drop.
Qed.

Lemma Array_sort_insert (xs : list A) :
  Forall good xs ->
  let made := Js.CountAndMakeRun comparefn xs in
  Js.Array_sort comparefn xs =
  fold_left (fun acc x => Js.insert comparefn x acc) made.2 made.1.
Proof.
  intros Hxs. cbn zeta. unfold Js.Array_sort.
  destruct (CountAndMakeRun_sorted xs Hxs) as (Hrun & Hrest & Hsorted & _).
  cbn zeta in *. destruct (Js.CountAndMakeRun comparefn xs) as [run rest].
  cbn [fst snd] in *. by apply BinaryInsertionSort_insert.
Qed.

Lemma Array_sort_sorted (xs : list A) :
  Forall good xs -> later_first (Js.Array_sort comparefn xs).
Proof.
  intros Hxs. rewrite Array_sort_insert by done.
  destruct (CountAndMakeRun_sorted xs Hxs) as (Hrun & Hrest & Hsorted & _).
  by apply sort_from.
Qed.

Lemma Array_sort_stable (xs : list A) (t : Z) :
  Forall good xs ->
  filter (fun y => key y = t) (Js.Array_sort comparefn xs) = filter (fun y => key y = t) xs.
Proof.
  intros Hxs. rewrite Array_sort_insert by done.
  destruct (CountAndMakeRun_sorted xs Hxs) as (Hrun & Hrest & Hsorted & Hkeys).
  cbn zeta in *. rewrite <- Hkeys. by apply sort_from.
Qed.

End SortByKey.

Lemma compareItems_key getTime (x y : Engagements.Tagged.t) :
  parses getTime x -> parses getTime y ->
  Engagements.compareItems getTime x y = Some (timeKey getTime y - timeKey getTime x)%Z.
Proof.
  unfold parses, timeKey, Engagements.compareItems.
  intros [a ->] [b ->]. reflexivity.
Qed.

Lemma undated_key getTime (x : Engagements.Tagged.t) :
  Js.truthy (Engagements.Tagged.createdAt x) = false ->
  parses getTime x /\ timeKey getTime x = 0%Z.
Proof.
  unfold parses, timeKey. intros H.
  destruct (falsy_cases _ H) as [-> | ->]; cbn; eauto.
Qed.

Lemma summary_ok rt contactId start summary :
  let r := Engagements.getContactActivitySummary contactId rt start in
  Engagements.ContactActivitySummaryResult.summary r.1 = Some summary ->
  Engagements.ContactActivitySummaryResult.ok r.1 = true.
Proof.
  cbn zeta. unfold Engagements.getContactActivitySummary. run.
  destruct (env rt "HUBSPOT_PRIVATE_APP_TOKEN") as [[|c s]|]; try (cbn; discriminate).
  destruct contactId as [|c0 s0]; [cbn; discriminate|].
  run.
  destruct (remote rt start _) as [res|]; [|cbn; discriminate].
  destruct (negb (Response.ok res)).
  { destruct (Response.json res); cbn; discriminate. }
  destruct (Response.json res) as [contactData|]; [|cbn; discriminate].
  run. destruct (Json.nullish contactData); run; [cbn; discriminate|done].
Qed.

Lemma summary_run_of rt contactId start summary :
  let r := Engagements.getContactActivitySummary contactId rt start in
  Engagements.ContactActivitySummaryResult.summary r.1 = Some summary ->
  (forall kind, sampled rt contactId start r.2 kind (entryOf summary kind)) /\
  Engagements.Summary.recentActivity summary =
    Engagements.recentActivityOf (mergedItems rt summary).
Proof.
  intros r Hsummary.
  destruct (summary_run rt contactId start (summary_ok _ _ _ _ Hsummary))
    as (summary' & Hsummary' & _ & Hsampled & _ & Hrecent).
  fold r in Hsummary'. rewrite Hsummary in Hsummary'. by simplify_eq.
Qed.

(** The list the program sorts has at most 25 elements, five for each
    kind: the engine sorts it as a short array. *)
Lemma allItems_short rt contactId start summary :
  let r := Engagements.getContactActivitySummary contactId rt start in
  Engagements.ContactActivitySummaryResult.summary r.1 = Some summary ->
  length (allItemsOf summary) <= 25.
Proof.
  intros r Hsummary.
  destruct (summary_run_of rt contactId start summary Hsummary) as [Hsampled _].
  unfold allItemsOf, itemsInOrder, Engagements.engagementTypes. cbn [flat_map].
  rewrite !length_app, !length_fmap. cbn [length].
  destruct (Hsampled Engagements.calls) as (? & _ & _ & _ & _ & Hcalls & _).
  destruct (Hsampled Engagements.emails) as (? & _ & _ & _ & _ & Hemails & _).
  destruct (Hsampled Engagements.notes) as (? & _ & _ & _ & _ & Hnotes & _).
  destruct (Hsampled Engagements.tasks) as (? & _ & _ & _ & _ & Htasks & _).
  destruct (Hsampled Engagements.meetings) as (? & _ & _ & _ & _ & Hmeetings & _).
  cbn [entryOf] in *. lia.
Qed.

(** ** C3: the merged list *)

(** C3 (amended). In a run of getContactActivitySummary that returns a
    summary, the list the marker is read from is the concatenation of the
    items of calls, emails, notes, tasks and meetings, in this order, sorted
    by [Array.prototype.sort].  Provided every createdAt that is present and
    not empty is a date the host can read, the sorted list is a permutation
    of that concatenation in descending order of time, where an item whose
    createdAt is absent or empty counts as dated at the epoch (time 0), and
    the sort is stable: the items of any one time keep the order they had in
    the concatenation. *)
Theorem merged_items_sorted_stable (rt : Runtime) (contactId : string)
    (start : list Request) (summary : Engagements.Summary.t) :
  let r := Engagements.getContactActivitySummary contactId rt start in
  let items kind := map (tagged kind) (Engagements.EngagementSummary.items (entryOf summary kind)) in
  let merged := mergedItems rt summary in
  Engagements.ContactActivitySummaryResult.summary r.1 = Some summary ->
  Forall (parses (Date_getTime rt)) (allItemsOf summary) ->
  Engagements.Summary.recentActivity summary = Engagements.recentActivityOf merged /\
  allItemsOf summary =
    items Engagements.calls ++ items Engagements.emails ++ items Engagements.notes ++
    items Engagements.tasks ++ items Engagements.meetings /\
  merged = Js.Array_sort (Engagements.compareItems (Date_getTime rt)) (allItemsOf summary) /\
  Permutation (allItemsOf summary) merged /\
  descending (Date_getTime rt) merged /\
  (forall x, x ∈ merged -> Js.truthy (Engagements.Tagged.createdAt x) = false ->
     timeKey (Date_getTime rt) x = 0%Z) /\
  (forall t, atTime (Date_getTime rt) t merged = atTime (Date_getTime rt) t (allItemsOf summary)).
Proof.
  intros r items merged Hsummary Hparses.
  destruct (summary_run_of rt contactId start summary Hsummary) as [_ Hrecent].
  split; [done|]. split.
  { unfold allItemsOf, itemsInOrder, Engagements.engagementTypes. cbn [flat_map].
    by rewrite app_nil_r. }
  split; [done|]. split; [apply Array_sort_Permutation|].
  split; [|split].
  - apply (Array_sort_sorted _ (timeKey (Date_getTime rt)) (parses (Date_getTime rt)));
      [apply compareItems_key|done].
  - intros x _ Hx. by apply undated_key.
  - intros t.
    apply (Array_sort_stable _ (timeKey (Date_getTime rt)) (parses (Date_getTime rt)));
      [apply compareItems_key|done].
Qed.

(** C3 as worded fails on the code.  With one call whose createdAt is not
    a date and one email that has a date, the comparator yields NaN, which
    counts as 0: the two items compare as equal, a stable sort leaves them as
    they are, and the call without a usable date comes first.  With one call
    without createdAt and one email from before 1970, the call counts as
    dated at the epoch and again comes first. *)
Lemma merged_undated_not_last :
  (exists summary,
     Scenario.summaryOf Scenario.garbledCall = Some summary /\
     mergedItems Scenario.garbledCall summary =
       [ {| Engagements.Tagged.type := Engagements.calls;
            Engagements.Tagged.createdAt := Some "not-a-date" |};
         {| Engagements.Tagged.type := Engagements.emails;
            Engagements.Tagged.createdAt := Some "2024-01-01T00:00:00.000Z" |} ] /\
     ~ undated_sort_last Scenario.clock (mergedItems Scenario.garbledCall summary)) /\
  (exists summary,
     Scenario.summaryOf Scenario.oldEmail = Some summary /\
     mergedItems Scenario.oldEmail summary =
       [ {| Engagements.Tagged.type := Engagements.calls;
            Engagements.Tagged.createdAt := None |};
         {| Engagements.Tagged.type := Engagements.emails;
            Engagements.Tagged.createdAt := Some "1969-12-31T00:00:00.000Z" |} ] /\
     ~ undated_sort_last Scenario.clock (mergedItems Scenario.oldEmail summary)).
Proof.
  split.
  - eexists. split; [vm_compute; reflexivity|]. split; [vm_compute; reflexivity|].
    intros Hlast.
    assert (H : 1 < 0); [|lia].
    eapply (Hlast 0 1); [vm_compute; reflexivity|vm_compute; reflexivity| |].
    + vm_compute. reflexivity.
    + vm_compute. discriminate.
  - eexists. split; [vm_compute; reflexivity|]. split; [vm_compute; reflexivity|].
    intros Hlast.
    assert (H : 1 < 0); [|lia].
    eapply (Hlast 0 1); [vm_compute; reflexivity|vm_compute; reflexivity| |].
    + vm_compute. exact I.
    + vm_compute. discriminate.
Qed.

(** The statement of C3 at a concrete run: a call on the 2nd, notes on the
    1st and the 2nd and a meeting on the 3rd come out as meeting, call, note
    of the 2nd, note of the 1st. *)
Lemma merged_items_sorted_stable_witness :
  exists summary,
    Scenario.summaryOf Scenario.threeDays = Some summary /\
    map Engagements.Tagged.type (mergedItems Scenario.threeDays summary) =
      [Engagements.meetings; Engagements.calls; Engagements.notes; Engagements.notes] /\
    descending Scenario.clock (mergedItems Scenario.threeDays summary) /\
    (forall t, atTime Scenario.clock t (mergedItems Scenario.threeDays summary) =
               atTime Scenario.clock t (allItemsOf summary)).
Proof.
  eexists. split; [vm_compute; reflexivity|]. split; [vm_compute; reflexivity|].
  edestruct (merged_items_sorted_stable Scenario.threeDays "42" [])
    as (_ & _ & _ & _ & Hsorted & _ & Hstable);
    [vm_compute; reflexivity|repeat constructor; vm_compute; eauto|].
  split; [exact Hsorted|exact Hstable].
Defined.

(** ** C4: the most-recent marker *)

Lemma allItemsOf_nil summary :
  allItemsOf summary = [] <->
  forall kind, Engagements.EngagementSummary.items (entryOf summary kind) = [].
Proof.
  unfold allItemsOf, itemsInOrder, Engagements.engagementTypes. cbn [flat_map].
  split.
  - intros H.
    repeat (apply app_eq_nil in H as [?%fmap_nil_inv H]).
    intros []; done.
  - intros H.
    rewrite (H Engagements.calls), (H Engagements.emails), (H Engagements.notes),
      (H Engagements.tasks), (H Engagements.meetings). done.
Qed.

(** C4 (amended). In a run of getContactActivitySummary that returns a
    summary, the marker is the "no activity" sentinel exactly when the
    combined list is empty, that is, when no item of any kind was fetched.
    Otherwise it names the kind and the createdAt, or "unknown date" when
    there is none, of one of the fetched items, whatever the dates look like.
    Provided every createdAt that is present and not empty is a date the
    host can read, the item it names is the head of the sorted combined list:
    no fetched item has a later time, an absent or empty createdAt counting
    as the epoch, and among the fetched items of that time it is the first
    in the order calls, emails, notes, tasks, meetings. *)
Theorem recentActivity_is_head (rt : Runtime) (contactId : string)
    (start : list Request) (summary : Engagements.Summary.t) :
  let r := Engagements.getContactActivitySummary contactId rt start in
  let merged := mergedItems rt summary in
  let naming (x : Engagements.Tagged.t) :=
    "Most recent: " +:+ Engagements.typeName (Engagements.Tagged.type x) +:+ " on "
      +:+ default "unknown date" (Engagements.Tagged.createdAt x) in
  Engagements.ContactActivitySummaryResult.summary r.1 = Some summary ->
  (Engagements.Summary.recentActivity summary = "No recent activity found" <->
   allItemsOf summary = []) /\
  (allItemsOf summary = [] <->
   forall kind, Engagements.EngagementSummary.items (entryOf summary kind) = []) /\
  (allItemsOf summary <> [] ->
   exists x, x ∈ allItemsOf summary /\
     Engagements.Summary.recentActivity summary = naming x) /\
  (Forall (parses (Date_getTime rt)) (allItemsOf summary) ->
   allItemsOf summary <> [] ->
   exists head rest,
     merged = head :: rest /\
     Engagements.Summary.recentActivity summary = naming head /\
     head ∈ allItemsOf summary /\
     (forall x, x ∈ allItemsOf summary ->
        (timeKey (Date_getTime rt) x <= timeKey (Date_getTime rt) head)%Z) /\
     exists others,
       atTime (Date_getTime rt) (timeKey (Date_getTime rt) head) (allItemsOf summary) =
       head :: others).
Proof.
  intros r merged naming Hsummary.
  destruct (summary_run_of rt contactId start summary Hsummary) as [_ Hrecent].
  fold merged in Hrecent.
  pose proof (Array_sort_Permutation (Engagements.compareItems (Date_getTime rt))
                (allItemsOf summary)) as Hperm.
  fold (mergedItems rt summary) in Hperm. fold merged in Hperm.
  assert (Hhead : allItemsOf summary <> [] ->
            exists head rest, merged = head :: rest /\
              Engagements.Summary.recentActivity summary = naming head /\
              head ∈ allItemsOf summary).
  { intros Hitems. destruct merged as [|head rest] eqn:Hmerged.
    - by apply Permutation_nil_r in Hperm.
    - exists head, rest. split; [done|]. split; [exact Hrecent|]. rewrite Hperm. left. }
  split; [|split; [apply allItemsOf_nil|split]].
  - rewrite Hrecent. split.
    + destruct merged as [|head rest]; [|cbn; discriminate].
      intros _. by apply Permutation_nil_r.
    + intros Hnil. rewrite Hnil in Hperm. apply Permutation_nil_l in Hperm.
      by destruct merged.
  - intros Hitems. destruct (Hhead Hitems) as (head & rest & _ & Hnames & Hin).
    by exists head.
  - intros Hparses Hitems.
    destruct (Hhead Hitems) as (head & rest & Hmerged & Hnames & Hin).
    exists head, rest. split; [done|]. split; [done|]. split; [done|].
    assert (Hsorted : descending (Date_getTime rt) merged).
    { apply (Array_sort_sorted _ (timeKey (Date_getTime rt)) (parses (Date_getTime rt)));
        [apply compareItems_key|done]. }
    pose proof (Array_sort_stable _ (timeKey (Date_getTime rt)) (parses (Date_getTime rt))
                  (compareItems_key (Date_getTime rt)) (allItemsOf summary)
                  (timeKey (Date_getTime rt) head) Hparses) as Hstable.
    fold (mergedItems rt summary) in Hstable. fold merged in Hstable.
    rewrite Hmerged in Hsorted, Hperm, Hstable.
    apply StronglySorted_inv in Hsorted as [_ Hrest].
    split.
    + intros x Hx. rewrite Hperm in Hx. apply elem_of_cons in Hx.
      destruct Hx as [Heq|Hx]; [rewrite Heq; lia|].
      rewrite Forall_forall in Hrest. by apply Hrest.
    + unfold atTime. rewrite <- Hstable, filter_cons, decide_True by done. eauto.
Qed.

(** C4 as worded fails on the code.  With one call that was fetched and has
    no createdAt, no item has a parseable timestamp, yet the combined list is
    not empty and the marker names the call with an unknown date. *)
Lemma recentActivity_not_sentinel :
  exists summary,
    Scenario.summaryOf Scenario.undatedCall = Some summary /\
    Forall (undated Scenario.clock) (allItemsOf summary) /\
    Engagements.Summary.recentActivity summary = "Most recent: calls on unknown date" /\
    ~ sentinel_iff_no_timestamp Scenario.clock summary.
Proof.
  eexists. split; [vm_compute; reflexivity|].
  assert (Hundated : Forall (undated Scenario.clock)
            [{| Engagements.Tagged.type := Engagements.calls;
                Engagements.Tagged.createdAt := None |}]).
  { repeat constructor. }
  split; [exact Hundated|]. split; [vm_compute; reflexivity|].
  intros [_ Hiff]. specialize (Hiff Hundated). vm_compute in Hiff. discriminate.
Qed.

(** The statement of C4 at a concrete run: with a call on the 2nd, notes on
    the 1st and the 2nd and a meeting on the 3rd the marker names the
    meeting, the head of the sorted list, and no item is later. *)
Lemma recentActivity_is_head_witness :
  exists summary,
    Scenario.summaryOf Scenario.threeDays = Some summary /\
    Engagements.Summary.recentActivity summary =
      "Most recent: meetings on 2024-01-03T00:00:00.000Z" /\
    (Engagements.Summary.recentActivity summary = "No recent activity found" <->
     allItemsOf summary = []) /\
    exists head rest,
      mergedItems Scenario.threeDays summary = head :: rest /\
      Engagements.Tagged.type head = Engagements.meetings /\
      forall x, x ∈ allItemsOf summary ->
        (timeKey Scenario.clock x <= timeKey Scenario.clock head)%Z.
Proof.
  eexists. split; [vm_compute; reflexivity|]. split; [vm_compute; reflexivity|].
  edestruct (recentActivity_is_head Scenario.threeDays "42" []) as (Hiff & _ & _ & Hhead);
    [vm_compute; reflexivity|].
  split; [exact Hiff|].
  destruct Hhead as (head & rest & Hmerged & _ & _ & Hlatest & _);
    [repeat constructor; vm_compute; eauto|vm_compute; discriminate|].
  exists head, rest. split; [exact Hmerged|]. split; [|exact Hlatest].
  vm_compute in Hmerged. by injection Hmerged as <- _.
Defined.

(** ** C5: fail-soft association fetch *)

Lemma append_inj_l (s a b : string) : s +:+ a = s +:+ b -> a = b.
Proof. induction s as [|c s IH]; cbn; [done|]. intros [=]. auto. Qed.

Lemma typeName_inj j k : Engagements.typeName j = Engagements.typeName k -> j = k.
Proof. destruct j, k; cbn; intros H; try discriminate H; reflexivity. Qed.

Lemma associationsUrl_inj baseUrl contactId j k :
  Engagements.associationsUrl baseUrl contactId j =
  Engagements.associationsUrl baseUrl contactId k -> j = k.
Proof.
  unfold Engagements.associationsUrl. intros H.
  do 4 (apply append_inj_l in H; cbn in H; try injection H as H).
  by apply typeName_inj.
Qed.

Lemma detailsUrl_ne baseUrl kind engId contactId k :
  Engagements.detailsUrl baseUrl kind engId <> Engagements.associationsUrl baseUrl contactId k.
Proof.
  unfold Engagements.detailsUrl, Engagements.associationsUrl. intros H.
  apply append_inj_l in H. cbn in H. discriminate H.
Qed.

Lemma contactUrl_ne baseUrl contactId contactId' k :
  Engagements.contactUrl baseUrl contactId <> Engagements.associationsUrl baseUrl contactId' k.
Proof.
  unfold Engagements.contactUrl, Engagements.associationsUrl. intros H.
  apply append_inj_l in H. cbn in H. discriminate H.
Qed.

(** The association fetcher never propagates a failure. *)
Lemma getContactAssociations_fail_soft contactId kind token baseUrl rt trace :
  fetch_fails (remote rt trace (Engagements.associationsRequest contactId kind token baseUrl)) ->
  Engagements.getContactAssociations contactId kind token baseUrl rt trace =
  ([], trace ++ [Engagements.associationsRequest contactId kind token baseUrl]).
Proof.
  unfold Engagements.getContactAssociations. run.
  destruct (remote rt trace _) as [res|]; cbn; [|done].
  by intros ->.
Qed.

(** A run whose contact lookup succeeds goes through the loop and returns
    the assembled summary. *)
Lemma run_success rt contactId start res contactData :
  Js.truthy (env rt "HUBSPOT_PRIVATE_APP_TOKEN") = true ->
  contactId <> EmptyString ->
  remote rt start (Engagements.contactRequest contactId (tokenOf rt) (baseUrlOf rt)) =
    Responds res ->
  Response.ok res = true ->
  Response.json res = JsonValue contactData ->
  Json.nullish contactData = false ->
  let loop :=
    forOf Engagements.engagementTypes
      (Engagements.collectType contactId (tokenOf rt) (baseUrlOf rt))
      (Engagements.summaries0, [])
      rt (start ++ [Engagements.contactRequest contactId (tokenOf rt) (baseUrlOf rt)]) in
  Engagements.getContactActivitySummary contactId rt start =
  (Engagements.assemble (Date_getTime rt) contactData loop.1, loop.2).
Proof.
  intros Htruthy Hid Hres Hok Hjson Hobject loop. subst loop.
  unfold Engagements.getContactActivitySummary. run. fold (baseUrlOf rt).
  destruct (env rt "HUBSPOT_PRIVATE_APP_TOKEN") as [[|c s]|] eqn:Htoken;
    try (cbn in Htruthy; discriminate).
  assert (Htok : tokenOf rt = String c s) by (unfold tokenOf; by rewrite Htoken).
  rewrite <- Htok.
  destruct contactId as [|c0 s0]; [done|].
  run. rewrite Hres, Hok, Hjson. cbn [negb]. run. rewrite Hobject. run.
  unfold getDate. cbn [fst snd]. by destruct (forOf _ _ _ rt _).
Qed.

Lemma run_inversion rt contactId start :
  Engagements.ContactActivitySummaryResult.ok
    (Engagements.getContactActivitySummary contactId rt start).1 = true ->
  exists res contactData,
    Js.truthy (env rt "HUBSPOT_PRIVATE_APP_TOKEN") = true /\
    contactId <> EmptyString /\
    remote rt start (Engagements.contactRequest contactId (tokenOf rt) (baseUrlOf rt)) =
      Responds res /\
    Response.ok res = true /\
    Response.json res = JsonValue contactData /\
    Json.nullish contactData = false.
Proof.
  unfold Engagements.getContactActivitySummary. run. fold (baseUrlOf rt).
  destruct (env rt "HUBSPOT_PRIVATE_APP_TOKEN") as [[|c s]|] eqn:Htoken;
    try (cbn; discriminate).
  assert (Htok : tokenOf rt = String c s) by (unfold tokenOf; by rewrite Htoken).
  rewrite <- Htok.
  destruct contactId as [|c0 s0]; [cbn; discriminate|].
  run.
  destruct (remote rt start _) as [res|]; [|cbn; discriminate].
  destruct (Response.ok res) eqn:Hok; cbn [negb].
  - destruct (Response.json res) as [contactData|] eqn:Hjson; [|cbn; discriminate].
    run. destruct (Json.nullish contactData) eqn:Hobject; run; [cbn; discriminate|].
    intros _. exists res, contactData. rewrite Htok. done.
  - destruct (Response.json res); cbn; discriminate.
Qed.

Section Isolation.
Context (rt1 rt2 : Runtime) (contactId token baseUrl : string)
  (down : Engagements.EngagementType).
Hypothesis agree : agree_off rt1 rt2 (Engagements.associationsUrl baseUrl contactId down).

Lemma details_agree kind engId trace1 trace2 :
  (Engagements.getEngagementDetails kind engId token baseUrl rt1 trace1).1 =
  (Engagements.getEngagementDetails kind engId token baseUrl rt2 trace2).1.
Proof.
  unfold Engagements.getEngagementDetails. run.
  rewrite (agree trace1 trace2) by apply detailsUrl_ne.
  destruct (remote rt2 trace2 _) as [res|]; [|done].
  destruct (negb (Response.ok res)); [done|].
  destruct (Response.json res) as [data|]; [|done]. by destruct (Json.truthy data).
Qed.

Lemma associations_agree kind trace1 trace2 :
  kind <> down ->
  (Engagements.getContactAssociations contactId kind token baseUrl rt1 trace1).1 =
  (Engagements.getContactAssociations contactId kind token baseUrl rt2 trace2).1.
Proof.
  intros Hkind. unfold Engagements.getContactAssociations. run.
  rewrite (agree trace1 trace2).
  - destruct (remote rt2 trace2 _) as [res|]; [|done].
    destruct (negb (Response.ok res)); [done|]. destruct (Response.json res) as [parsed|]; [|done];
    parsed_cases parsed.
  - cbn. intros H. by apply associationsUrl_inj in H.
Qed.

Lemma inner_agree kind ids (st1 st2 : Engagements.Collected) trace1 trace2 :
  st1.1 kind = st2.1 kind ->
  (forOf ids (Engagements.collectOne kind token baseUrl) st1 rt1 trace1).1.1 kind =
  (forOf ids (Engagements.collectOne kind token baseUrl) st2 rt2 trace2).1.1 kind.
Proof.
  revert st1 st2 trace1 trace2.
  induction ids as [|engId ids IH]; intros st1 st2 trace1 trace2 Hst; [done|].
  cbn [forOf]. rewrite !run_bind. apply IH.
  unfold Engagements.collectOne. rewrite !run_bind.
  rewrite (details_agree kind engId trace1 trace2).
  destruct (Engagements.getEngagementDetails kind engId token baseUrl rt2 trace2).1
    as [details|]; rewrite !run_ret; cbn [fst snd]; [|done].
  unfold Engagements.pushItem. rewrite !decide_True by done. by rewrite Hst.
Qed.

Lemma collectType_agree kind (st1 st2 : Engagements.Collected) trace1 trace2 :
  kind <> down ->
  st1.1 kind = st2.1 kind ->
  (Engagements.collectType contactId token baseUrl st1 kind rt1 trace1).1.1 kind =
  (Engagements.collectType contactId token baseUrl st2 kind rt2 trace2).1.1 kind.
Proof.
  intros Hkind Hst. unfold Engagements.collectType. rewrite !run_bind, !run_ret.
  cbn [fst snd]. unfold Engagements.setCount. rewrite !decide_True by done.
  rewrite (associations_agree kind trace1 trace2 Hkind).
  by rewrite (inner_agree kind _ st1 st2 _
                (Engagements.getContactAssociations contactId kind token baseUrl rt2 trace2).2
                Hst).
Qed.

Lemma collectType_other rt kind k (st : Engagements.Collected) trace :
  k <> kind ->
  (Engagements.collectType contactId token baseUrl st kind rt trace).1.1 k = st.1 k.
Proof.
  intros Hk.
  destruct (outer_step contactId token baseUrl st kind rt trace)
    as (new & _ & _ & _ & Hsum & _).
  cbn zeta in Hsum. rewrite Hsum. by rewrite decide_False.
Qed.

(** Whatever happens to the association fetch of one kind, the loop builds
    the same entries for the other kinds. *)
Lemma loop_agree kinds (st1 st2 : Engagements.Collected) trace1 trace2 :
  (forall k, k <> down -> st1.1 k = st2.1 k) ->
  forall k, k <> down ->
    (forOf kinds (Engagements.collectType contactId token baseUrl) st1 rt1 trace1).1.1 k =
    (forOf kinds (Engagements.collectType contactId token baseUrl) st2 rt2 trace2).1.1 k.
Proof.
  revert st1 st2 trace1 trace2.
  induction kinds as [|kind kinds IH]; intros st1 st2 trace1 trace2 Hst; [done|].
  cbn [forOf]. rewrite !run_bind. apply IH.
  intros k Hk. destruct (decide (k = kind)) as [->|Hne].
  - apply collectType_agree; auto.
  - rewrite !collectType_other by done. auto.
Qed.

End Isolation.

(** C5. When the association fetch of a kind meets a transport failure or a
    non-success status, [getContactAssociations] returns the empty list and
    throws nothing.  A run whose credential, contact identifier and contact
    lookup are in order (the lookup answers with success and a body that is
    not JSON null) then still returns a summary, in which a kind whose
    association fetch fails has count 0 and no items.  And the entries of
    the other kinds do not depend on what the remote answers on that kind's
    association URL: two remotes that agree on every other URL give the same
    entries for the four other kinds. *)
Theorem association_failure_is_absorbed :
  (forall rt contactId kind token baseUrl trace,
     fetch_fails
       (remote rt trace (Engagements.associationsRequest contactId kind token baseUrl)) ->
     Engagements.getContactAssociations contactId kind token baseUrl rt trace =
     ([], trace ++ [Engagements.associationsRequest contactId kind token baseUrl])) /\
  (forall rt contactId start res contactData kind,
     Js.truthy (env rt "HUBSPOT_PRIVATE_APP_TOKEN") = true ->
     contactId <> EmptyString ->
     remote rt start (Engagements.contactRequest contactId (tokenOf rt) (baseUrlOf rt)) =
       Responds res ->
     Response.ok res = true ->
     Response.json res = JsonValue contactData ->
     contactData <> Json.Null ->
     (forall before,
        fetch_fails
          (remote rt before
             (Engagements.associationsRequest contactId kind (tokenOf rt) (baseUrlOf rt)))) ->
     let r := Engagements.getContactActivitySummary contactId rt start in
     Engagements.ContactActivitySummaryResult.ok r.1 = true /\
     exists summary,
       Engagements.ContactActivitySummaryResult.summary r.1 = Some summary /\
       entryOf summary kind =
         {| Engagements.EngagementSummary.type := kind;
            Engagements.EngagementSummary.count := 0;
            Engagements.EngagementSummary.items := [] |}) /\
  (forall rt1 rt2 contactId start1 start2 kind summary1,
     (forall name, env rt2 name = env rt1 name) ->
     agree_off rt1 rt2
       (Engagements.associationsUrl (baseUrlOf rt1) contactId kind) ->
     let r1 := Engagements.getContactActivitySummary contactId rt1 start1 in
     let r2 := Engagements.getContactActivitySummary contactId rt2 start2 in
     Engagements.ContactActivitySummaryResult.summary r1.1 = Some summary1 ->
     exists summary2,
       Engagements.ContactActivitySummaryResult.summary r2.1 = Some summary2 /\
       forall other, other <> kind -> entryOf summary2 other = entryOf summary1 other).
Proof.
  split; [|split].
  - intros. by apply getContactAssociations_fail_soft.
  - intros rt contactId start res contactData kind Htoken Hid Hres Hok Hjson Hobject Hdown r.
    assert (Hrun : Engagements.ContactActivitySummaryResult.ok r.1 = true).
    { subst r. rewrite (run_success rt contactId start res contactData); try done.
      by destruct contactData. }
    split; [done|].
    destruct (summary_run rt contactId start Hrun) as (summary & Hsum & _ & Hsampled & _).
    exists summary. split; [done|].
    destruct (Hsampled kind) as (before & _ & _ & Htype & Hcount & _ & Hitems).
    cbn zeta in Hcount. rewrite getContactAssociations_fail_soft in Hcount by apply Hdown.
    cbn in Hcount. rewrite Hcount in Hitems.
    destruct (entryOf summary kind) as [type count items]. cbn in *.
    destruct items; [|cbn in Hitems; lia]. by subst.
  - intros rt1 rt2 contactId start1 start2 kind summary1 Henv Hagree r1 r2 Hsummary1.
    pose proof (summary_ok _ _ _ _ Hsummary1) as Hok1.
    destruct (run_inversion rt1 contactId start1 Hok1)
      as (res & contactData & Htoken & Hid & Hres & Hok & Hjson & Hobject).
    assert (Htok : tokenOf rt2 = tokenOf rt1) by (unfold tokenOf; by rewrite Henv).
    assert (Hbase : baseUrlOf rt2 = baseUrlOf rt1) by (unfold baseUrlOf; by rewrite Henv).
    subst r1 r2.
    rewrite (run_success rt1 contactId start1 res contactData) in Hsummary1 by done.
    rewrite (run_success rt2 contactId start2 res contactData); try done.
    + rewrite Htok, Hbase.
      assert (Hloop : forall other, other <> kind ->
        (forOf Engagements.engagementTypes
           (Engagements.collectType contactId (tokenOf rt1) (baseUrlOf rt1))
           (Engagements.summaries0, []) rt2
           (start2 ++ [Engagements.contactRequest contactId (tokenOf rt1) (baseUrlOf rt1)])).1.1
          other =
        (forOf Engagements.engagementTypes
           (Engagements.collectType contactId (tokenOf rt1) (baseUrlOf rt1))
           (Engagements.summaries0, []) rt1
           (start1 ++ [Engagements.contactRequest contactId (tokenOf rt1) (baseUrlOf rt1)])).1.1
          other).
      { intros other Hother. symmetry.
        by apply (loop_agree rt1 rt2 contactId _ _ kind Hagree). }
      set (loop1 := forOf _ _ _ rt1 _) in *. set (loop2 := forOf _ _ _ rt2 _) in *.
      clearbody loop1 loop2.
      eexists. split; [reflexivity|].
      cbn [fst Engagements.assemble Engagements.ContactActivitySummaryResult.summary]
        in Hsummary1.
      injection Hsummary1 as <-.
      intros other Hother.
      destruct other; cbn [entryOf Engagements.Summary.calls Engagements.Summary.emails
        Engagements.Summary.notes Engagements.Summary.tasks Engagements.Summary.meetings fst];
        by apply Hloop.
    + by rewrite Henv.
    + rewrite Htok, Hbase. rewrite <- Hres. symmetry. apply Hagree. apply contactUrl_ne.
Qed.

(** ** The statements at concrete runs *)

(** Twelve associated calls, sample cap five: count 12, five items. *)
Lemma count_is_total_items_are_sampled_witness :
  exists summary,
    Scenario.summaryOf Scenario.twelveCalls = Some summary /\
    Engagements.EngagementSummary.count (Engagements.Summary.calls summary) = 12 /\
    length (Engagements.EngagementSummary.items (Engagements.Summary.calls summary)) = 5 /\
    forall kind,
      length (Engagements.EngagementSummary.items (entryOf summary kind)) <= 5 /\
      length (Engagements.EngagementSummary.items (entryOf summary kind)) <=
        Engagements.EngagementSummary.count (entryOf summary kind).
Proof.
  destruct (count_is_total_items_are_sampled Scenario.twelveCalls "42" [])
    as (summary & Hsummary & Hkinds); [vm_compute; reflexivity|].
  exists summary. split; [exact Hsummary|].
  split; [|split].
  - vm_compute in Hsummary. injection Hsummary as <-. reflexivity.
  - vm_compute in Hsummary. injection Hsummary as <-. reflexivity.
  - intros kind. destruct (Hkinds kind) as (before & _ & _ & _ & Hfive & Hcount).
    split; [exact Hfive|exact Hcount].
Defined.

(** No association of any kind: the total is 0. *)
Lemma totalEngagements_is_sum_of_counts_witness :
  exists summary,
    Scenario.summaryOf Scenario.quiet = Some summary /\
    Engagements.Summary.totalEngagements summary = 0.
Proof.
  destruct (totalEngagements_is_sum_of_counts Scenario.quiet "42" [])
    as (summary & Hsummary & _ & Hzero); [vm_compute; reflexivity|].
  exists summary. split; [exact Hsummary|].
  apply Hzero. intros [] before; vm_compute; reflexivity.
Defined.

(** Without a token the summary call fails at once and sends nothing. *)
Lemma missing_token_short_circuits_witness :
  let r := Engagements.getContactActivitySummary "42" Scenario.unconfigured [] in
  Engagements.ContactActivitySummaryResult.ok r.1 = false /\
  Engagements.ContactActivitySummaryResult.error r.1 =
    Some "Missing HUBSPOT_PRIVATE_APP_TOKEN in environment." /\
  r.2 = [].
Proof.
  destruct (missing_token_short_circuits Scenario.unconfigured []) as [Hsummary _];
    [vm_compute; reflexivity|].
  exact (Hsummary "42").
Defined.

(** The meetings index is down: the run succeeds, meetings has count 0 and
    no items, and the other kinds are as they are when the index is up. *)
Lemma association_failure_is_absorbed_witness :
  (Engagements.ContactActivitySummaryResult.ok
     (Engagements.getContactActivitySummary "42" Scenario.meetingsDown []).1 = true /\
   exists summary,
     Scenario.summaryOf Scenario.meetingsDown = Some summary /\
     entryOf summary Engagements.meetings =
       {| Engagements.EngagementSummary.type := Engagements.meetings;
          Engagements.EngagementSummary.count := 0;
          Engagements.EngagementSummary.items := [] |}) /\
  (exists up down,
     Scenario.summaryOf Scenario.threeDays = Some up /\
     Scenario.summaryOf Scenario.meetingsDown = Some down /\
     Engagements.EngagementSummary.count (Engagements.Summary.notes up) = 2 /\
     forall other, other <> Engagements.meetings -> entryOf down other = entryOf up other).
Proof.
  destruct association_failure_is_absorbed as (_ & Hdegraded & Hothers).
  split.
  - eapply (Hdegraded Scenario.meetingsDown "42" []).
    + vm_compute; reflexivity.
    + discriminate.
    + vm_compute; reflexivity.
    + vm_compute; reflexivity.
    + vm_compute; reflexivity.
    + discriminate.
    + intros before. vm_compute. exact I.
  - eexists. 
    edestruct (Hothers Scenario.threeDays Scenario.meetingsDown "42" [] [] Engagements.meetings)
      as (down & Hdown & Hsame).
    + intros name. reflexivity.
    + intros trace1 trace2 req Hurl. cbn.
      destruct (String.eqb_spec (url req)
                  (Engagements.associationsUrl Scenario.base "42" Engagements.meetings))
        as [Heq|_]; [|reflexivity].
      contradiction.
    + vm_compute; reflexivity.
    + exists down. split; [reflexivity|]. split; [exact Hdown|].
      split; [reflexivity|exact Hsame].
Defined.

(** ** C8: the text report *)

Lemma pushEach_map n render items lines :
  Skill.pushEach n render items lines = lines ++ map render (take n items).
Proof.
  unfold Skill.pushEach. generalize (take n items) as shown. intros shown.
  revert lines. induction shown as [|item shown IH]; intros lines; cbn.
  - by rewrite app_nil_r.
  - rewrite IH. unfold Skill.push. by rewrite <- app_assoc.
Qed.

Lemma substring0_length n s : String.length (Js.substring0 n s) <= n.
Proof.
  unfold Js.substring0. revert s. induction n as [|n IH]; intros [|c s]; cbn; try lia.
  specialize (IH s). lia.
Qed.

Lemma substring0_prefix n s :
  exists rest, s = Js.substring0 n s +:+ rest /\
    (rest = EmptyString <-> String.length s <= n).
Proof.
  unfold Js.substring0. revert s. induction n as [|n IH]; intros [|c s]; cbn.
  - exists EmptyString. split; [done|]. split; [lia|done].
  - exists (String c s). split; [done|]. split; [discriminate|cbn; lia].
  - exists EmptyString. split; [done|]. split; [lia|done].
  - destruct (IH s) as (rest & Hs & Hrest). exists rest.
    split; [rewrite Hs at 1; reflexivity|]. rewrite Hrest. lia.
Qed.

Lemma substring0_min n s : String.length (Js.substring0 n s) = n `min` String.length s.
Proof.
  unfold Js.substring0. revert s. induction n as [|n IH]; intros [|c s]; cbn; try lia.
  specialize (IH s). lia.
Qed.

Lemma join_concat sep lines : Js.join sep lines = String.concat sep lines.
Proof.
  induction lines as [|line lines IH]; [reflexivity|].
  cbn [Js.join String.concat]. destruct lines; [reflexivity|]. by rewrite IH.
Qed.

(** C8. For a result that carries a summary, generateActivitySummaryText
    returns, separated by single line feeds: a header line with the contact
    name and email, an empty line, the total-engagements line, the
    most-recent-activity line, an empty line, and then the sections of
    calls, emails, meetings, tasks and notes, in this order.  A kind whose
    count is 0 has no section; a kind whose count is positive has a heading
    and at most 3 item lines (calls, emails, meetings, tasks) or at most 2
    (notes).  A line of calls, emails or meetings shows the subject and the
    createdAt, a task line the subject and the status.  A note line shows
    the first 100 characters of the body, the whole body when it is shorter,
    followed by "..." exactly when the body is longer than 100 characters,
    and "No content" when there is no body.  The text depends on the
    contact name, the email and the summary of the result and on nothing
    else. *)
Theorem summary_text_layout (result : Engagements.ContactActivitySummaryResult.t)
    (summary : Engagements.Summary.t) :
  Engagements.ContactActivitySummaryResult.summary result = Some summary ->
  Skill.generateActivitySummaryText result =
    String.concat (String (ascii_of_nat 10) EmptyString)
      (["## Activity Summary for "
          +:+ Js.or_else (Engagements.ContactActivitySummaryResult.contactName result) "Unknown"
          +:+ " ("
          +:+ Js.or_else (Engagements.ContactActivitySummaryResult.email result) "no email"
          +:+ ")";
        EmptyString;
        "**Total Engagements:** " +:+ pretty (Engagements.Summary.totalEngagements summary);
        "**" +:+ Engagements.Summary.recentActivity summary +:+ "**";
        EmptyString]
       ++ kindSection "Calls" 3 (Skill.dated "Call") [EmptyString]
            (Engagements.Summary.calls summary)
       ++ kindSection "Emails" 3 (Skill.dated "Email") [EmptyString]
            (Engagements.Summary.emails summary)
       ++ kindSection "Meetings" 3 (Skill.dated "Meeting") [EmptyString]
            (Engagements.Summary.meetings summary)
       ++ kindSection "Tasks" 3 Skill.taskLine [EmptyString]
            (Engagements.Summary.tasks summary)
       ++ kindSection "Notes" 2 Skill.noteLine [] (Engagements.Summary.notes summary)) /\
  (forall title cap render closing entry,
     Engagements.EngagementSummary.count entry = 0 ->
     kindSection title cap render closing entry = []) /\
  (forall title cap render closing entry,
     0 < Engagements.EngagementSummary.count entry ->
     exists shown,
       kindSection title cap render closing entry =
         ("### " +:+ title +:+ " (" +:+ pretty (Engagements.EngagementSummary.count entry)
            +:+ " total)") :: map render shown ++ closing /\
       shown = take cap (Engagements.EngagementSummary.items entry) /\
       length shown <= cap) /\
  (forall fallback item,
     Skill.dated fallback item =
       "- " +:+ Js.or_else (Engagements.Item.subject item) fallback +:+ " ("
         +:+ Js.or_else (Engagements.Item.createdAt item) "unknown date" +:+ ")") /\
  (forall task,
     Skill.taskLine task =
       "- " +:+ Js.or_else (Engagements.Item.subject task) "Task" +:+ " - "
         +:+ Js.or_else (Engagements.Item.status task) "unknown status") /\
  (forall note,
     exists preview ellipsis,
       Skill.noteLine note = "- " +:+ preview +:+ ellipsis /\
       String.length preview <= 100 /\
       match Engagements.Item.body note with
       | Some (String c s) =>
           (exists rest, String c s = preview +:+ rest) /\
           String.length preview = 100 `min` String.length (String c s) /\
           ellipsis = (if bool_decide (100 < String.length (String c s)) then "..."
                       else EmptyString)
       | _ => preview = "No content" /\ ellipsis = EmptyString
       end) /\
  (forall result',
     Engagements.ContactActivitySummaryResult.contactName result' =
       Engagements.ContactActivitySummaryResult.contactName result ->
     Engagements.ContactActivitySummaryResult.email result' =
       Engagements.ContactActivitySummaryResult.email result ->
     Engagements.ContactActivitySummaryResult.summary result' =
       Engagements.ContactActivitySummaryResult.summary result ->
     Skill.generateActivitySummaryText result' = Skill.generateActivitySummaryText result).
Proof.
  intros Hsummary. split; [|split; [|split; [|split; [|split; [|split]]]]].
  - unfold Skill.generateActivitySummaryText. rewrite Hsummary, join_concat.
    fold Skill.newline. f_equal.
    unfold Skill.summaryLines, kindSection, Skill.push. rewrite !pushEach_map.
    repeat case_bool_decide; cbn [app]; rewrite <- ?app_assoc; cbn [app];
      rewrite ?app_nil_r; reflexivity.
  - intros title cap render closing entry Hzero. unfold kindSection.
    rewrite bool_decide_eq_false_2; [done|lia].
  - intros title cap render closing entry Hpos. unfold kindSection.
    rewrite bool_decide_eq_true_2 by done.
    eexists. split; [reflexivity|]. split; [reflexivity|].
    rewrite length_take. lia.
  - reflexivity.
  - reflexivity.
  - intros note. unfold Skill.noteLine.
    destruct (Engagements.Item.body note) as [[|c s]|]; cbn [fmap option_fmap option_map].
    + exists "No content", EmptyString. cbn. split; [done|]. split; [lia|done].
    + destruct (substring0_prefix 100 (String c s)) as (rest & Hrest & _).
      pose proof (substring0_length 100 (String c s)) as Hlen.
      pose proof (substring0_min 100 (String c s)) as Hmin.
      destruct (Js.substring0 100 (String c s)) as [|c' s'] eqn:Hsub; [cbn in Hsub; discriminate|].
      exists (String c' s'), (if bool_decide (100 < String.length (String c s)) then "..."
                              else EmptyString).
      split; [done|]. split; [done|]. split; [by exists rest|]. split; [done|done].
    + exists "No content", EmptyString. cbn. split; [done|]. split; [lia|done].
  - intros result' Hname Hemail Hsame. unfold Skill.generateActivitySummaryText.
    by rewrite Hname, Hemail, Hsame.
Qed.

(** Two calls and a long note for Jane Doe. *)
Lemma summary_text_layout_witness :
  Skill.generateActivitySummaryText Scenario.janeResult =
  String.concat (String (ascii_of_nat 10) EmptyString)
    ["## Activity Summary for Jane Doe (jane@example.com)";
     EmptyString;
     "**Total Engagements:** 3";
     "**Most recent: notes on 2024-01-03T00:00:00.000Z**";
     EmptyString;
     "### Calls (2 total)";
     "- Intro call (2024-01-02T00:00:00.000Z)";
     "- Follow-up (2024-01-01T00:00:00.000Z)";
     EmptyString;
     "### Notes (1 total)";
     "- Discussed renewal terms, pricing for the enterprise tier, the migration timeline and "
       +:+ "open support ti..."].
Proof.
  destruct (summary_text_layout Scenario.janeResult Scenario.janeSummary) as [Htext _];
    [reflexivity|].
  rewrite Htext. vm_compute. reflexivity.
Defined.

(** ** C9: the deal is looked up before its stage is touched *)

Lemma run_lookup dealId token baseUrl rt trace :
  (Deals.lookup dealId token baseUrl rt trace).2 =
    trace ++ [Deals.dealRequest dealId token baseUrl] /\
  (fetch_fails (remote rt trace (Deals.dealRequest dealId token baseUrl)) ->
   Deals.DealResult.ok (Deals.lookup dealId token baseUrl rt trace).1 = false) /\
  (Deals.DealResult.ok (Deals.lookup dealId token baseUrl rt trace).1 = true ->
   exists res deal,
     remote rt trace (Deals.dealRequest dealId token baseUrl) = Responds res /\
     Response.ok res = true /\ Response.json res = JsonValue deal /\
     Deals.DealResult.deal (Deals.lookup dealId token baseUrl rt trace).1 = Some deal).
Proof.
  unfold Deals.lookup. run.
  destruct (remote rt trace _) as [res|]; cbn [fetch_fails]; [|done].
  destruct (Response.json res) as [body|] eqn:Hjson; [|done].
  destruct (Response.ok res) eqn:Hok; cbn [negb]; run; [|done].
  split; [done|]. split; [done|]. intros _. by exists res, body.
Qed.

Lemma run_updateDealStage input rt trace :
  exists sent,
    (Deals.updateDealStage input rt trace).2 = trace ++ sent /\
    (sent = [] \/
     sent = [Deals.patchRequest (Deals.UpdateDealStageInput.dealId input)
               (Deals.UpdateDealStageInput.dealstage input) (tokenOf rt) (baseUrlOf rt)]).
Proof.
  unfold Deals.updateDealStage. run. fold (baseUrlOf rt).
  destruct (env rt "HUBSPOT_PRIVATE_APP_TOKEN") as [[|c s]|] eqn:Htoken;
    try (exists []; rewrite app_nil_r; by auto).
  assert (Htok : tokenOf rt = String c s) by (unfold tokenOf; by rewrite Htoken).
  rewrite <- Htok.
  destruct (Deals.UpdateDealStageInput.dealId input) as [|c1 s1];
    [exists []; rewrite app_nil_r; by auto|].
  destruct (Deals.UpdateDealStageInput.dealstage input) as [|c2 s2];
    [exists []; rewrite app_nil_r; by auto|].
  run. eexists. split; [|right; reflexivity].
  destruct (remote rt trace _) as [res|]; [|done].
  destruct (Response.json res); [|done].
  by destruct (negb (Response.ok res)).
Qed.

(** C9. The updateDealStage tool, in the skill file and in its stand-alone
    file, starts with the lookup of the deal by its identifier.  When the
    lookup does not succeed (the deal is not found, the remote fails, or, in
    the skill file, the credential is missing), the tool returns [ok = false]
    with the error "Could not find deal with ID <dealId>: <reason>"; apart
    from the lookup's GET nothing is sent, so no PATCH is.  When the tool
    returns [ok = true], its previousDeal is the body the lookup received
    before the PATCH. *)
Theorem updateDealStage_tool_resolves_first :
  (forall rt trace input,
     let dealId := Deals.UpdateDealStageInput.dealId input in
     let found := Deals.getDealById dealId rt trace in
     let r := Skill.UpdateDealStageTool.execute input rt trace in
     found.2 `prefix_of` r.2 /\
     (exists sent, found.2 = trace ++ sent /\ Forall (fun req => method req = GET) sent) /\
     (Deals.DealResult.ok found.1 = false ->
      DealToolResult.ok r.1 = false /\
      DealToolResult.error r.1 =
        Some ("Could not find deal with ID " +:+ dealId +:+ ": "
                +:+ templated (Deals.DealResult.error found.1)) /\
      r.2 = found.2 /\
      Forall (fun req => method req <> PATCH) (drop (length trace) r.2)) /\
     (DealToolResult.ok r.1 = true ->
      Deals.DealResult.ok found.1 = true /\
      exists res deal,
        remote rt trace (Deals.dealRequest dealId (tokenOf rt) (baseUrlOf rt)) = Responds res /\
        Response.ok res = true /\ Response.json res = JsonValue deal /\
        DealToolResult.previousDeal r.1 = Some deal)) /\
  (forall rt trace input,
     Js.truthy (env rt "HUBSPOT_PRIVATE_APP_TOKEN") = true ->
     let dealId := Deals.UpdateDealStageInput.dealId input in
     let found :=
       UpdateDealStageToolFile.getDealById dealId (tokenOf rt) (baseUrlOf rt) rt trace in
     let r := UpdateDealStageToolFile.execute input rt trace in
     found.2 `prefix_of` r.2 /\
     found.2 = trace ++ [Deals.dealRequest dealId (tokenOf rt) (baseUrlOf rt)] /\
     (Deals.DealResult.ok found.1 = false ->
      DealToolResult.ok r.1 = false /\
      DealToolResult.error r.1 =
        Some ("Could not find deal with ID " +:+ dealId +:+ ": "
                +:+ templated (Deals.DealResult.error found.1)) /\
      r.2 = found.2 /\
      Forall (fun req => method req <> PATCH) (drop (length trace) r.2)) /\
     (DealToolResult.ok r.1 = true ->
      Deals.DealResult.ok found.1 = true /\
      exists res deal,
        remote rt trace (Deals.dealRequest dealId (tokenOf rt) (baseUrlOf rt)) = Responds res /\
        Response.ok res = true /\ Response.json res = JsonValue deal /\
        DealToolResult.previousDeal r.1 = Some deal)) /\
  (forall rt trace dealId,
     fetch_fails (remote rt trace (Deals.dealRequest dealId (tokenOf rt) (baseUrlOf rt))) ->
     Deals.DealResult.ok (Deals.getDealById dealId rt trace).1 = false /\
     Deals.DealResult.ok
       (UpdateDealStageToolFile.getDealById dealId (tokenOf rt) (baseUrlOf rt) rt trace).1 =
       false).
Proof.
  split; [|split].
  - intros rt trace input dealId found r.
    assert (Hfound : (exists sent, found.2 = trace ++ sent /\
                        Forall (fun req => method req = GET) sent) /\
              (Deals.DealResult.ok found.1 = true ->
               exists res deal,
                 remote rt trace (Deals.dealRequest dealId (tokenOf rt) (baseUrlOf rt)) =
                   Responds res /\
                 Response.ok res = true /\ Response.json res = JsonValue deal /\
                 Deals.DealResult.deal found.1 = Some deal)).
    { subst found. unfold Deals.getDealById. run. fold (baseUrlOf rt).
      destruct (env rt "HUBSPOT_PRIVATE_APP_TOKEN") as [[|c s]|] eqn:Htoken;
        try (split; [exists []; by rewrite app_nil_r|cbn; discriminate]).
      assert (Htok : tokenOf rt = String c s) by (unfold tokenOf; by rewrite Htoken).
      rewrite <- Htok.
      destruct (run_lookup dealId (tokenOf rt) (baseUrlOf rt) rt trace) as (Htr & _ & Hdeal).
      split; [|done]. eexists. split; [exact Htr|]. by repeat constructor. }
    destruct Hfound as [(sent & Hsent & Hget) Hdeal].
    subst r. unfold Skill.UpdateDealStageTool.execute. cbn zeta. rewrite run_bind.
    fold dealId. fold found.
    destruct (Deals.DealResult.ok found.1) eqn:Hok; cbn [negb].
    + rewrite run_bind.
      set (input' := {| Deals.UpdateDealStageInput.dealId := dealId |}).
      destruct (run_updateDealStage input' rt found.2) as (patched & Hpatched & _).
      set (result := Deals.updateDealStage input' rt found.2) in *.
      assert (Hpre : found.2 `prefix_of` result.2) by (rewrite Hpatched; by apply prefix_app_r).
      destruct (Deals.UpdateDealStageResult.ok result.1) eqn:Hresult; run.
      * split; [done|]. split; [eauto|]. split; [done|]. intros _. split; [done|].
        destruct (Hdeal eq_refl) as (res & deal & H1 & H2 & H3 & H4).
        exists res, deal. cbn. by rewrite H4.
      * split; [done|]. split; [eauto|]. split; [done|]. cbn. discriminate.
    + run. split; [done|]. split; [eauto|]. split; [|cbn; discriminate]. intros _.
      repeat split. rewrite Hsent, drop_app_length.
      eapply Forall_impl; [exact Hget|]. cbn. intros req ->. discriminate.
  - intros rt trace input Htruthy dealId found r.
    destruct (env rt "HUBSPOT_PRIVATE_APP_TOKEN") as [[|c s]|] eqn:Htoken;
      try (cbn in Htruthy; discriminate).
    assert (Htok : tokenOf rt = String c s) by (unfold tokenOf; by rewrite Htoken).
    subst found.
    change (UpdateDealStageToolFile.getDealById dealId (tokenOf rt) (baseUrlOf rt) rt trace)
      with (Deals.lookup dealId (tokenOf rt) (baseUrlOf rt) rt trace).
    destruct (run_lookup dealId (tokenOf rt) (baseUrlOf rt) rt trace) as (Htr & _ & Hdeal).
    subst r. unfold UpdateDealStageToolFile.execute. cbn zeta. run. fold (baseUrlOf rt).
    rewrite Htoken, <- Htok. run. fold dealId.
    change (UpdateDealStageToolFile.getDealById dealId (tokenOf rt) (baseUrlOf rt) rt trace)
      with (Deals.lookup dealId (tokenOf rt) (baseUrlOf rt) rt trace).
    set (found := Deals.lookup dealId (tokenOf rt) (baseUrlOf rt) rt trace) in *.
    destruct (Deals.DealResult.ok found.1) eqn:Hok; cbn [negb].
    + run. set (patch := Deals.patchRequest _ _ _ _).
      assert (Hpre : found.2 `prefix_of` found.2 ++ [patch]) by by apply prefix_app_r.
      destruct (Hdeal eq_refl) as (res & deal & H1 & H2 & H3 & H4).
      destruct (remote rt found.2 patch) as [patched|]; [|by repeat split].
      destruct (Response.json patched) as [body|]; [|by repeat split].
      destruct (negb (Response.ok patched)); [by repeat split|].
      split; [done|]. split; [done|]. split; [done|]. intros _. split; [done|].
      exists res, deal. cbn. by rewrite H4.
    + run. split; [done|]. split; [done|]. split; [|cbn; discriminate]. intros _.
      repeat split. rewrite Htr, drop_app_length. by repeat constructor.
  - intros rt trace dealId Hfails.
    destruct (run_lookup dealId (tokenOf rt) (baseUrlOf rt) rt trace) as (_ & Hlookup & _).
    split; [|exact (Hlookup Hfails)].
    unfold Deals.getDealById. run. fold (baseUrlOf rt).
    destruct (env rt "HUBSPOT_PRIVATE_APP_TOKEN") as [[|c s]|] eqn:Htoken; try done.
    assert (Htok : tokenOf rt = String c s) by (unfold tokenOf; by rewrite Htoken).
    rewrite <- Htok. auto.
Qed.

(** An unknown deal is reported and not patched; a known deal is patched and
    its earlier state returned. *)
Lemma updateDealStage_tool_resolves_first_witness :
  (let r := Skill.UpdateDealStageTool.execute Scenario.dealInput Scenario.dealUnknown [] in
   DealToolResult.ok r.1 = false /\
   DealToolResult.error r.1 = Some "Could not find deal with ID 900: resource not found" /\
   Forall (fun req => method req <> PATCH) r.2) /\
  (let r := UpdateDealStageToolFile.execute Scenario.dealInput Scenario.dealKnown [] in
   DealToolResult.ok r.1 = true /\
   DealToolResult.previousDeal r.1 = Some Scenario.qualifiedDeal).
Proof.
  destruct updateDealStage_tool_resolves_first as (Hskill & Hfile & _).
  split.
  - destruct (Hskill Scenario.dealUnknown [] Scenario.dealInput) as (_ & _ & Hfailed & _).
    destruct Hfailed as (Hok & Herror & _ & Hpatch); [vm_compute; reflexivity|].
    cbn zeta. split; [exact Hok|]. split; [|exact Hpatch].
    rewrite Herror. vm_compute. reflexivity.
  - destruct (Hfile Scenario.dealKnown [] Scenario.dealInput) as (_ & _ & _ & Hdone);
      [vm_compute; reflexivity|].
    destruct Hdone as (_ & res & deal & Hres & _ & Hjson & Hprevious); [vm_compute; reflexivity|].
    cbn zeta. split; [vm_compute; reflexivity|].
    rewrite Hprevious. f_equal.
    vm_compute in Hres. injection Hres as <-.
    vm_compute in Hjson. injection Hjson as <-.
    vm_compute. reflexivity.
Defined.

(** ** C10: duplicate-checked contact creation from chat *)

Lemma setIf_cons name value entry properties :
  CreateContact.setIf name value (entry :: properties) =
  entry :: CreateContact.setIf name value properties.
Proof. by destruct value as [[|c s]|]. Qed.

Lemma collectProperties_email c s firstname lastname phone company :
  exists others,
    CreateContact.collectProperties (Some (String c s)) firstname lastname phone company =
    ("email", String c s) :: others.
Proof.
  unfold CreateContact.collectProperties. cbn [CreateContact.setIf app].
  rewrite !setIf_cons. eauto.
Qed.

Lemma run_send req rt trace : (CreateContact.send req rt trace).2 = trace ++ [req].
Proof.
  unfold CreateContact.send. run.
  destruct (remote rt trace req) as [res|]; [|done].
  destruct (Response.json res); [|done]. by destruct (negb (Response.ok res)).
Qed.

Lemma run_toolFile_createContact properties token baseUrl rt trace :
  (CreateContactFromChatToolFile.createContact properties token baseUrl rt trace).2 =
  trace ++ [CreateContact.createRequest properties token baseUrl].
Proof.
  unfold CreateContactFromChatToolFile.createContact. run.
  destruct (remote rt trace _) as [res|]; [|done].
  destruct (Response.json res); [|done]. by destruct (negb (Response.ok res)).
Qed.

(** What the two search functions return, given a credential. *)
Section Search.
Context (rt : Runtime) (trace : list Request) (email : string).
Hypothesis configured : Js.truthy (env rt "HUBSPOT_PRIVATE_APP_TOKEN") = true.

Local Abbreviation search := (Engagements.searchRequest email (tokenOf rt) (baseUrlOf rt)).
Local Abbreviation viaSkill := (Engagements.searchContactByEmail email rt trace).
Local Abbreviation viaFile :=
  (CreateContactFromChatToolFile.searchContactByEmail email (tokenOf rt) (baseUrlOf rt)
     rt trace).

Lemma env_token : env rt "HUBSPOT_PRIVATE_APP_TOKEN" = Some (tokenOf rt).
Proof.
  unfold tokenOf. by destruct (env rt "HUBSPOT_PRIVATE_APP_TOKEN") as [[|c s]|].
Qed.

Lemma token_nonempty : exists c s, tokenOf rt = String c s.
Proof.
  unfold tokenOf. destruct (env rt "HUBSPOT_PRIVATE_APP_TOKEN") as [[|c s]|]; try done.
  cbn. eauto.
Qed.

Lemma searchContactByEmail_unfold :
  viaSkill =
  (let res := remote rt trace search in
   match res with
   | FetchThrows message => Engagements.searchFailure message
   | Responds res =>
       match Response.json res with
       | JsonThrows message => Engagements.searchFailure message
       | JsonValue body =>
           if negb (Response.ok res) then
             Engagements.searchFailure (default (Json.text body) (Json.message body))
           else if Json.nullish body then
             Engagements.searchFailure (nullRead rt "results")
           else
             match Json.results body with
             | Some (first :: _) =>
                 if Json.isNull first then
                   Engagements.searchFailure (nullRead rt "id")
                 else
                   {| Engagements.SearchResult.ok := true;
                      Engagements.SearchResult.contactId := Json.entry_id first;
                      Engagements.SearchResult.contact := Some (Json.fields first);
                      Engagements.SearchResult.error := None |}
             | _ =>
                 {| Engagements.SearchResult.ok := true;
                    Engagements.SearchResult.contactId := None;
                    Engagements.SearchResult.contact := None;
                    Engagements.SearchResult.error := None |}
             end
       end
   end, trace ++ [search]).
Proof.
  unfold Engagements.searchContactByEmail. run. fold (baseUrlOf rt).
  rewrite env_token. destruct token_nonempty as (c & s & Htok). rewrite Htok. run.
  destruct (remote rt trace _) as [res|]; [|done].
  destruct (Response.json res) as [parsed|]; [|done].
  destruct (negb (Response.ok res)); [done|].
  destruct (Json.nullish parsed); [by run|].
  destruct (Json.results parsed) as [[|entry rest]|]; try done.
  destruct (Json.isNull entry); by run.
Qed.

Lemma toolFile_searchContactByEmail_trace : viaFile.2 = trace ++ [search].
Proof.
  unfold CreateContactFromChatToolFile.searchContactByEmail. run.
  destruct (remote rt trace _) as [res|]; [|done].
  destruct (Response.json res) as [parsed|]; [|done].
  destruct (Response.ok res); [|done].
  destruct (Json.nullish parsed); [by run|]. cbn [andb].
  destruct (Json.results parsed) as [[|entry rest]|]; try done.
  destruct (Json.isNull entry); by run.
Qed.

Lemma results_not_null (parsed : Json.value) entries :
  Json.results parsed = Some entries -> Json.nullish parsed = false.
Proof. by destruct parsed. Qed.

Lemma search_found res body (entry : Json.element) rest :
  remote rt trace search = Responds res ->
  Response.ok res = true ->
  Response.json res = JsonValue body ->
  Json.results body = Some (entry :: rest) ->
  Json.isNull entry = false ->
  let found :=
    {| Engagements.SearchResult.ok := true;
       Engagements.SearchResult.contactId := Json.entry_id entry;
       Engagements.SearchResult.contact := Some (Json.fields entry);
       Engagements.SearchResult.error := None |} in
  viaSkill.1 = found /\ viaFile.1 = found.
Proof.
  intros Hres Hok Hjson Hresults Hentry found.
  pose proof (results_not_null _ _ Hresults) as Hobject. split.
  - rewrite searchContactByEmail_unfold. cbn [fst].
    by rewrite Hres, Hjson, Hok, Hobject, Hresults, Hentry.
  - unfold CreateContactFromChatToolFile.searchContactByEmail. run.
    rewrite Hres, Hjson, Hok, Hobject, Hresults, Hentry. by run.
Qed.

Lemma search_nullFirst res body rest :
  remote rt trace search = Responds res ->
  Response.ok res = true ->
  Response.json res = JsonValue body ->
  Json.results body = Some (Json.NullElement :: rest) ->
  viaSkill.1 = Engagements.searchFailure (nullRead rt "id") /\
  viaFile.1 = Engagements.searchFailure (nullRead rt "id").
Proof.
  intros Hres Hok Hjson Hresults.
  pose proof (results_not_null _ _ Hresults) as Hobject. split.
  - rewrite searchContactByEmail_unfold. cbn [fst].
    by rewrite Hres, Hjson, Hok, Hobject, Hresults.
  - unfold CreateContactFromChatToolFile.searchContactByEmail. run.
    rewrite Hres, Hjson, Hok, Hobject, Hresults. by run.
Qed.

Lemma search_empty res body :
  remote rt trace search = Responds res ->
  Response.ok res = true ->
  Response.json res = JsonValue body ->
  Json.nullish body = false ->
  Json.results body = None \/ Json.results body = Some [] ->
  let nobody :=
    {| Engagements.SearchResult.ok := true;
       Engagements.SearchResult.contactId := None;
       Engagements.SearchResult.contact := None;
       Engagements.SearchResult.error := None |} in
  viaSkill.1 = nobody /\ viaFile.1 = nobody.
Proof.
  intros Hres Hok Hjson Hobject Hresults nobody. split.
  - rewrite searchContactByEmail_unfold. cbn [fst]. rewrite Hres, Hjson, Hok, Hobject.
    by destruct Hresults as [-> | ->].
  - unfold CreateContactFromChatToolFile.searchContactByEmail. run.
    rewrite Hres, Hjson, Hok, Hobject. by destruct Hresults as [-> | ->].
Qed.

Lemma search_null res :
  remote rt trace search = Responds res ->
  Response.ok res = true ->
  Response.json res = JsonValue Json.Null ->
  viaSkill.1 = Engagements.searchFailure (nullRead rt "results") /\
  viaFile.1 = Engagements.searchFailure (nullRead rt "results").
Proof.
  intros Hres Hok Hjson. split.
  - rewrite searchContactByEmail_unfold. cbn [fst]. by rewrite Hres, Hjson, Hok.
  - unfold CreateContactFromChatToolFile.searchContactByEmail. run.
    rewrite Hres, Hjson, Hok. by run.
Qed.

End Search.

(** What follows the search in the two versions of the tool. *)
Section AfterSearch.
Context (rt : Runtime) (trace : list Request) (parsed : ChatInput.t).
Hypothesis configured : Js.truthy (env rt "HUBSPOT_PRIVATE_APP_TOKEN") = true.
Hypothesis nonempty : ChatInput.email parsed <> EmptyString.

Local Abbreviation viaSkill := (Skill.CreateContactFromChatTool.afterSearch parsed).
Local Abbreviation viaFile :=
  (CreateContactFromChatToolFile.afterSearch parsed (tokenOf rt) (baseUrlOf rt)).

Lemma afterSearch_exists found c s :
  Engagements.SearchResult.ok found = true ->
  Engagements.SearchResult.contactId found = Some (String c s) ->
  let answer :=
    (Returned (chatExists (ChatInput.email parsed) (String c s)
                 (Engagements.SearchResult.contact found)), trace) in
  viaSkill found rt trace = answer /\ viaFile found rt trace = answer.
Proof.
  intros Hok Hid. unfold Skill.CreateContactFromChatTool.afterSearch,
    CreateContactFromChatToolFile.afterSearch.
  by rewrite Hok, Hid.
Qed.

Lemma afterSearch_creates found :
  Engagements.SearchResult.ok found &&
    Js.truthy (Engagements.SearchResult.contactId found) = false ->
  exists others,
    let create :=
      CreateContact.createRequest (("email", ChatInput.email parsed) :: others)
        (tokenOf rt) (baseUrlOf rt) in
    (viaSkill found rt trace).2 = trace ++ [create] /\
    (viaFile found rt trace).2 = trace ++ [create].
Proof.
  intros Hnew.
  destruct (ChatInput.email parsed) as [|c s] eqn:Hmail; [done|].
  destruct (collectProperties_email c s (ChatInput.firstname parsed)
              (ChatInput.lastname parsed) (ChatInput.phone parsed) (ChatInput.company parsed))
    as (others & Hothers).
  exists others. cbn zeta.
  unfold Skill.CreateContactFromChatTool.afterSearch,
    CreateContactFromChatToolFile.afterSearch.
  rewrite Hmail. split.
  - assert (Hcreated : forall K : CreateContact.Result.t -> Net (Completion ChatResult.t),
      (forall result sent, (K result rt sent).2 = sent) ->
      ((CreateContact.createContact
          {| CreateContact.Input.email := Some (String c s);
             CreateContact.Input.firstname := ChatInput.firstname parsed;
             CreateContact.Input.lastname := ChatInput.lastname parsed;
             CreateContact.Input.phone := ChatInput.phone parsed;
             CreateContact.Input.company := ChatInput.company parsed |} ≫= K) rt trace).2 =
      trace ++ [CreateContact.createRequest (("email", String c s) :: others)
                  (tokenOf rt) (baseUrlOf rt)]).
    { intros K HK. rewrite run_bind, HK.
      unfold CreateContact.createContact. run. fold (baseUrlOf rt).
      rewrite (env_token rt configured).
      destruct (token_nonempty rt configured) as (c0 & s0 & Htok). rewrite Htok.
      cbn [CreateContact.Input.email CreateContact.Input.firstname
        CreateContact.Input.lastname CreateContact.Input.phone CreateContact.Input.company].
      rewrite Hothers. by rewrite run_send. }
    destruct (Engagements.SearchResult.ok found),
      (Engagements.SearchResult.contactId found) as [[|c1 s1]|];
      try (cbn in Hnew; discriminate);
      apply Hcreated; intros result sent; by destruct (CreateContact.Result.ok result).
  - cbn zeta.
    assert (Hprops :
      CreateContact.setIf "company" (ChatInput.company parsed)
        (CreateContact.setIf "phone" (ChatInput.phone parsed)
           (CreateContact.setIf "lastname" (ChatInput.lastname parsed)
              (CreateContact.setIf "firstname" (ChatInput.firstname parsed)
                 [("email", String c s)]))) = ("email", String c s) :: others).
    { rewrite <- Hothers. reflexivity. }
    rewrite Hprops.
    assert (Hcreated : forall K : CreateContact.Result.t -> Net (Completion ChatResult.t),
      (forall result sent, (K result rt sent).2 = sent) ->
      ((CreateContactFromChatToolFile.createContact (("email", String c s) :: others)
          (tokenOf rt) (baseUrlOf rt) ≫= K) rt trace).2 =
      trace ++ [CreateContact.createRequest (("email", String c s) :: others)
                  (tokenOf rt) (baseUrlOf rt)]).
    { intros K HK. by rewrite run_bind, HK, run_toolFile_createContact. }
    destruct (Engagements.SearchResult.ok found),
      (Engagements.SearchResult.contactId found) as [[|c1 s1]|];
      try (cbn in Hnew; discriminate);
      apply Hcreated; intros result sent; by destruct (CreateContact.Result.ok result).
Qed.

Lemma afterSearch_trace found :
  trace `prefix_of` (viaSkill found rt trace).2 /\
  trace `prefix_of` (viaFile found rt trace).2.
Proof.
  destruct (Engagements.SearchResult.ok found &&
              Js.truthy (Engagements.SearchResult.contactId found)) eqn:Hnew.
  - apply andb_true_iff in Hnew as [Hok Hid].
    destruct (Engagements.SearchResult.contactId found) as [[|c s]|] eqn:Hfound;
      try (cbn in Hid; discriminate).
    destruct (afterSearch_exists found c s Hok Hfound) as [-> ->]. done.
  - destruct (afterSearch_creates found Hnew) as (others & Hs & Hf). cbn zeta in *.
    rewrite Hs, Hf. split; by apply prefix_app_r.
Qed.

End AfterSearch.

(** C10. The createContactFromChat tool, in the skill file and in its
    stand-alone file, on an input that passes the schema and with a
    credential configured: the first request is the search for contacts whose
    email equals the given one.  When the search answers with success and a
    first result that has an identifier, the tool returns [ok = true],
    [alreadyExists = true] and that identifier, and the search is the only
    request sent.  When the search answers with success and a body other
    than JSON null that holds no result, the search itself reports
    [ok = true] without a contact, and the tool goes on to send the create
    request, whose properties start with the email.  When the body is JSON
    null, reading its results throws: the search reports the failure, and the
    tool sends the same create request all the same. *)
Theorem createContactFromChat_checks_first (rt : Runtime) (trace : list Request)
    (input : ChatInput.t) :
  zod_email rt EmptyString = false ->
  zod_email rt (ChatInput.email input) = true ->
  Js.truthy (env rt "HUBSPOT_PRIVATE_APP_TOKEN") = true ->
  let email := ChatInput.email input in
  let search := Engagements.searchRequest email (tokenOf rt) (baseUrlOf rt) in
  let existing id entry :=
    Returned
      {| ChatResult.ok := true;
         ChatResult.alreadyExists := Some true;
         ChatResult.contactId := Some id;
         ChatResult.message :=
           Some ("Contact with email " +:+ email +:+ " already exists in HubSpot");
         ChatResult.contact := Some entry;
         ChatResult.id := None;
         ChatResult.properties := None;
         ChatResult.error := None;
         ChatResult.status := None;
         ChatResult.chatSummary := None |} in
  let skill := Skill.CreateContactFromChatTool.execute input rt trace in
  let file := CreateContactFromChatToolFile.execute input rt trace in
  search = {| method := POST;
              url := baseUrlOf rt +:+ "/crm/v3/objects/contacts/search";
              headers := jsonHeaders (tokenOf rt);
              body := SearchPayload "email" "EQ" email
                        ["email"; "firstname"; "lastname"; "phone"; "company"] |} /\
  (trace ++ [search]) `prefix_of` skill.2 /\
  (trace ++ [search]) `prefix_of` file.2 /\
  (forall res body entry rest c s,
     remote rt trace search = Responds res ->
     Response.ok res = true ->
     Response.json res = JsonValue body ->
     Json.results body = Some (entry :: rest) ->
     Json.entry_id entry = Some (String c s) ->
     skill = (existing (String c s) entry, trace ++ [search]) /\
     file = (existing (String c s) entry, trace ++ [search])) /\
  (forall res body,
     remote rt trace search = Responds res ->
     Response.ok res = true ->
     Response.json res = JsonValue body ->
     body <> Json.Null ->
     Json.results body = None \/ Json.results body = Some [] ->
     (Engagements.searchContactByEmail email rt trace).1 =
       {| Engagements.SearchResult.ok := true;
          Engagements.SearchResult.contactId := None;
          Engagements.SearchResult.contact := None;
          Engagements.SearchResult.error := None |} /\
     exists others,
       let create :=
         CreateContact.createRequest (("email", email) :: others) (tokenOf rt) (baseUrlOf rt) in
       skill.2 = trace ++ [search; create] /\
       file.2 = trace ++ [search; create]) /\
  (forall res,
     remote rt trace search = Responds res ->
     Response.ok res = true ->
     Response.json res = JsonValue Json.Null ->
     (Engagements.searchContactByEmail email rt trace).1 =
       Engagements.searchFailure (nullRead rt "results") /\
     exists others,
       let create :=
         CreateContact.createRequest (("email", email) :: others) (tokenOf rt) (baseUrlOf rt) in
       skill.2 = trace ++ [search; create] /\
       file.2 = trace ++ [search; create]).
Proof.
  intros Hempty Hemail Htruthy email search existing skill file.
  assert (Hmail : email <> EmptyString) by (intros Heq; subst email; congruence).
  assert (Hskill : skill =
    Skill.CreateContactFromChatTool.afterSearch input
      (Engagements.searchContactByEmail email rt trace).1 rt (trace ++ [search])).
  { subst skill. unfold Skill.CreateContactFromChatTool.execute, parseChatInput.
    rewrite run_bind. cbn [fst snd]. rewrite Hemail, run_bind. fold email.
    by rewrite (searchContactByEmail_unfold rt trace email Htruthy). }
  assert (Hfile : file =
    CreateContactFromChatToolFile.afterSearch input (tokenOf rt) (baseUrlOf rt)
      (CreateContactFromChatToolFile.searchContactByEmail email (tokenOf rt) (baseUrlOf rt)
         rt trace).1 rt (trace ++ [search])).
  { subst file. unfold CreateContactFromChatToolFile.execute, parseChatInput.
    rewrite run_bind. cbn [fst snd]. rewrite Hemail. run. fold (baseUrlOf rt).
    rewrite (env_token rt Htruthy).
    destruct (token_nonempty rt Htruthy) as (c & s & Htok). rewrite Htok. run.
    rewrite <- Htok. fold email.
    by rewrite (toolFile_searchContactByEmail_trace rt trace email). }
  split; [reflexivity|]. split; [|split; [|split; [|split]]].
  - rewrite Hskill. by apply afterSearch_trace.
  - rewrite Hfile. by apply afterSearch_trace.
  - intros res body entry rest c s Hres Hok Hjson Hresults Hid.
    assert (Hentry : Json.isNull entry = false) by by destruct entry.
    destruct (search_found rt trace email Htruthy res body entry rest Hres Hok Hjson Hresults
                Hentry) as [Hs Hf].
    rewrite Hskill, Hfile, Hs, Hf.
    destruct (afterSearch_exists rt (trace ++ [search]) input
                {| Engagements.SearchResult.ok := true;
                   Engagements.SearchResult.contactId := Json.entry_id entry;
                   Engagements.SearchResult.contact := Some (Json.fields entry);
                   Engagements.SearchResult.error := None |} c s eq_refl Hid) as [-> ->].
    done.
  - intros res body Hres Hok Hjson Hobject Hresults.
    assert (Hnullish : Json.nullish body = false) by by destruct body.
    destruct (search_empty rt trace email Htruthy res body Hres Hok Hjson Hnullish Hresults)
      as [Hs Hf].
    split; [exact Hs|].
    rewrite Hskill, Hfile, Hs, Hf.
    destruct (afterSearch_creates rt (trace ++ [search]) input Htruthy Hmail
                {| Engagements.SearchResult.ok := true;
                   Engagements.SearchResult.contactId := None;
                   Engagements.SearchResult.contact := None;
                   Engagements.SearchResult.error := None |})
      as (others & Hcs & Hcf); [reflexivity|].
    exists others. cbn zeta in *. rewrite Hcs, Hcf, <- app_assoc. done.
  - intros res Hres Hok Hjson.
    destruct (search_null rt trace email Htruthy res Hres Hok Hjson) as [Hs Hf].
    split; [exact Hs|].
    rewrite Hskill, Hfile, Hs, Hf.
    destruct (afterSearch_creates rt (trace ++ [search]) input Htruthy Hmail
                (Engagements.searchFailure (nullRead rt "results")))
      as (others & Hcs & Hcf); [reflexivity|].
    exists others. cbn zeta in *. rewrite Hcs, Hcf, <- app_assoc. done.
Qed.

(** A known address is reported as existing and nothing is created; an
    unknown one is searched for and then created with its email. *)
Lemma createContactFromChat_checks_first_witness :
  (let r := Skill.CreateContactFromChatTool.execute Scenario.sarah Scenario.sarahKnown [] in
   exists result,
     r.1 = Returned result /\
     ChatResult.ok result = true /\
     ChatResult.alreadyExists result = Some true /\
     ChatResult.contactId result = Some "77" /\
     map method r.2 = [POST]) /\
  (let r := CreateContactFromChatToolFile.execute Scenario.sarah Scenario.sarahNew [] in
   exists others,
     map url r.2 = [Scenario.base +:+ "/crm/v3/objects/contacts/search";
                    Scenario.base +:+ "/crm/v3/objects/contacts"] /\
     map body (drop 1 r.2) =
       [PropertiesPayload (("email", "sarah@company.com") :: others)]).
Proof.
  split.
  - edestruct (createContactFromChat_checks_first Scenario.sarahKnown [] Scenario.sarah)
      as (_ & _ & _ & Hknown & _ & _);
      [vm_compute; reflexivity|vm_compute; reflexivity|vm_compute; reflexivity|].
    edestruct Hknown as [Hskill _];
      [vm_compute; reflexivity|vm_compute; reflexivity|vm_compute; reflexivity
      |vm_compute; reflexivity|vm_compute; reflexivity|].
    cbn zeta. rewrite Hskill. eexists. split; [reflexivity|].
    repeat split.
  - edestruct (createContactFromChat_checks_first Scenario.sarahNew [] Scenario.sarah)
      as (_ & _ & _ & _ & Hnew & _);
      [vm_compute; reflexivity|vm_compute; reflexivity|vm_compute; reflexivity|].
    edestruct Hnew as (_ & others & _ & Hfile);
      [vm_compute; reflexivity|vm_compute; reflexivity|vm_compute; reflexivity
      |discriminate|right; vm_compute; reflexivity|].
    exists others. cbn zeta in *. rewrite Hfile. split; reflexivity.
Defined.

(** * Further properties of the sources *)

(** ** The base URL *)

Lemma append_nil_l (s : string) : EmptyString +:+ s = s.
Proof. reflexivity. Qed.

Lemma append_cons (c : ascii) (s t : string) : String c s +:+ t = String c (s +:+ t).
Proof. reflexivity. Qed.

Lemma strip_decompose s : exists n, s = Js.strip_trailing_slashes s +:+ slashes n.
Proof.
  induction s as [|c rest [n IH]]; [by exists 0|].
  cbn [Js.strip_trailing_slashes].
  destruct (Js.strip_trailing_slashes rest) as [|k kept] eqn:Hrest.
  - rewrite append_nil_l in IH. subst rest. destruct (Ascii.eqb_spec c "/") as [->|Hc].
    + by exists (S n).
    + by exists n.
  - exists n. rewrite IH at 1. reflexivity.
Qed.

Lemma strip_no_trailing_slash s t : Js.strip_trailing_slashes s <> t +:+ "/".
Proof.
  revert t. induction s as [|c rest IH]; intros t; [by destruct t|].
  cbn [Js.strip_trailing_slashes].
  destruct (Js.strip_trailing_slashes rest) as [|k kept] eqn:Hrest.
  - destruct (Ascii.eqb_spec c "/") as [->|Hc]; [by destruct t|].
    destruct t as [|c' t]; rewrite ?append_nil_l, ?append_cons; [congruence|].
    intros [= -> Ht]. by destruct t.
  - destruct t as [|c' t]; rewrite ?append_nil_l, ?append_cons; [congruence|].
    intros [= -> Hkept]. by apply (IH t).
Qed.

Lemma strip_fixed s : (forall t, s <> t +:+ "/") -> Js.strip_trailing_slashes s = s.
Proof.
  induction s as [|c rest IH]; intros Hs; [done|].
  cbn [Js.strip_trailing_slashes].
  rewrite IH.
  - destruct rest as [|k kept]; [|done].
    destruct (Ascii.eqb_spec c "/") as [->|Hc]; [|done].
    by destruct (Hs EmptyString).
  - intros t ->. by apply (Hs (String c t)).
Qed.

Lemma strip_slash s : Js.strip_trailing_slashes (s +:+ "/") = Js.strip_trailing_slashes s.
Proof.
  induction s as [|c rest IH]; [done|].
  rewrite append_cons. cbn [Js.strip_trailing_slashes]. by rewrite IH.
Qed.

(** X1. [HUBSPOT_BASE], the base URL every entry point computes before it
    builds a request, reads the environment and sends nothing.  It is
    https://api.hubapi.com when [HUBSPOT_API_BASE_URL] is unset or empty, and
    otherwise the configured value with all its trailing slashes removed and
    nothing else: it never ends with a slash, and one more slash at the end
    of the configured value changes nothing.  The requests are built on it:
    with a credential configured, getDealPipelines, getDealById and
    searchContactByEmail send to that base followed by their path. *)
Theorem base_url_normalised (rt : Runtime) (trace : list Request) :
  let base := (HUBSPOT_BASE rt trace).1 in
  (HUBSPOT_BASE rt trace).2 = trace /\
  (Js.truthy (env rt "HUBSPOT_API_BASE_URL") = false -> base = "https://api.hubapi.com") /\
  (forall value,
     env rt "HUBSPOT_API_BASE_URL" = Some value -> value <> EmptyString ->
     (exists n, value = base +:+ slashes n) /\
     forall rt' trace',
       env rt' "HUBSPOT_API_BASE_URL" = Some (value +:+ "/") ->
       (HUBSPOT_BASE rt' trace').1 = base) /\
  (forall t, base <> t +:+ "/") /\
  (Js.truthy (env rt "HUBSPOT_PRIVATE_APP_TOKEN") = true ->
   map url (Deals.getDealPipelines rt trace).2 =
     map url trace ++ [base +:+ "/crm/v3/pipelines/deals"] /\
   (forall dealId,
      dealId <> EmptyString ->
      map url (Deals.getDealById dealId rt trace).2 =
        map url trace ++
        [base +:+ "/crm/v3/objects/deals/" +:+ dealId
           +:+ "?properties=dealname,dealstage,amount,closedate,pipeline"]) /\
   (forall email,
      map url (Engagements.searchContactByEmail email rt trace).2 =
        map url trace ++ [base +:+ "/crm/v3/objects/contacts/search"])).
Proof.
  cbn zeta. rewrite run_HUBSPOT_BASE_value. cbn [fst snd].
  split; [done|]. split; [|split; [|split]].
  - intros Hunset. unfold baseUrlOf.
    by destruct (falsy_cases _ Hunset) as [-> | ->].
  - intros value Hvalue Hnonempty. unfold baseUrlOf. rewrite Hvalue.
    destruct value as [|c s]; [done|]. cbn [Js.or_else]. split; [apply strip_decompose|].
    intros rt' trace' Hvalue'. rewrite run_HUBSPOT_BASE_value. cbn [fst].
    unfold baseUrlOf. rewrite Hvalue'. rewrite append_cons. cbn [Js.or_else].
    rewrite <- append_cons. apply strip_slash.
  - intros t. apply strip_no_trailing_slash.
  - intros Htoken.
    destruct (token_nonempty rt Htoken) as (c & s & Htok).
    split; [|split].
    + unfold Deals.getDealPipelines. run. rewrite (env_token rt Htoken), Htok. run.
      destruct (remote rt trace _) as [res|];
        [destruct (Response.json res); [destruct (negb (Response.ok res))|]|];
        run; by rewrite map_app.
    + intros dealId HdealId. unfold Deals.getDealById, Deals.lookup. run.
      rewrite (env_token rt Htoken), Htok. destruct dealId as [|c0 s0]; [done|]. run.
      destruct (remote rt trace _) as [res|];
        [destruct (Response.json res); [destruct (negb (Response.ok res))|]|];
        run; by rewrite map_app.
    + intros email. rewrite (searchContactByEmail_unfold rt trace email Htoken).
      cbn [snd]. by rewrite map_app.
Qed.

(** A base URL configured with two trailing slashes gives the request URLs
    of the default one. *)
Lemma base_url_normalised_witness :
  (HUBSPOT_BASE More.slashed []).1 = "https://api.hubapi.com" /\
  (HUBSPOT_BASE More.accepting []).1 = "https://api.hubapi.com" /\
  map url (Deals.getDealPipelines More.slashed []).2 =
    ["https://api.hubapi.com/crm/v3/pipelines/deals"].
Proof.
  split; [vm_compute; reflexivity|].
  destruct (base_url_normalised More.accepting []) as (_ & Hdefault & _).
  split; [apply Hdefault; vm_compute; reflexivity|].
  destruct (base_url_normalised More.slashed []) as (_ & _ & _ & _ & Hrequests).
  destruct Hrequests as (Hpipelines & _); [vm_compute; reflexivity|].
  rewrite Hpipelines. vm_compute. reflexivity.
Defined.

(** ** Contact and deal writes *)

Lemma setIf_elem name value properties (k v : string) :
  (k, v) ∈ CreateContact.setIf name value properties <->
  (k, v) ∈ properties \/ (k = name /\ value = Some v /\ v <> EmptyString).
Proof.
  destruct value as [[|c s]|]; cbn; rewrite ?elem_of_app, ?list_elem_of_singleton.
  - split; [auto|]. intros [H|(_ & H & Hv)]; [done|]. injection H as <-. done.
  - split.
    + intros [H|H]; [auto|]. injection H as -> ->. right. done.
    + intros [H|(-> & H & _)]; [auto|]. injection H as ->. auto.
  - split; [auto|]. intros [H|(_ & H & _)]; [done|discriminate H].
Qed.

Lemma collectProperties_fields email firstname lastname phone company k v :
  (k, v) ∈ CreateContact.collectProperties email firstname lastname phone company <->
  v <> EmptyString /\ (k, Some v) ∈ contactFields email firstname lastname phone company.
Proof.
  unfold CreateContact.collectProperties, contactFields.
  rewrite !setIf_elem, !elem_of_cons, elem_of_nil.
  split.
  - intros H. destruct H as [[[[[H|H]|H]|H]|H]|H]; [done|..];
      destruct H as (-> & -> & Hv); (split; [exact Hv|]);
      repeat first [left; reflexivity | right].
  - intros (Hv & H). destruct H as [H|[H|[H|[H|[H|H]]]]];
      [..|by apply elem_of_nil in H]; injection H as -> <-; auto 10.
Qed.

Lemma collectProperties_order email firstname lastname phone company :
  sublist (CreateContact.collectProperties email firstname lastname phone company).*1
    ["email"; "firstname"; "lastname"; "phone"; "company"].
Proof.
  unfold CreateContact.collectProperties.
  destruct email as [[|? ?]|], firstname as [[|? ?]|], lastname as [[|? ?]|],
    phone as [[|? ?]|], company as [[|? ?]|]; cbn;
    repeat first [apply sublist_nil | apply sublist_skip | apply sublist_cons].
Qed.

(** X2. With a credential configured, createContact sends the contact
    fields that are present and not empty, under their own names and in the
    order email, firstname, lastname, phone, company: a field that is absent
    or the empty string is left out.  When no field is left it returns
    "No properties provided." and sends nothing; otherwise it sends exactly
    one POST to /crm/v3/objects/contacts with those properties. *)
Theorem createContact_sends_present_fields (rt : Runtime) (trace : list Request)
    (input : CreateContact.Input.t) :
  Js.truthy (env rt "HUBSPOT_PRIVATE_APP_TOKEN") = true ->
  let fields :=
    contactFields (CreateContact.Input.email input) (CreateContact.Input.firstname input)
      (CreateContact.Input.lastname input) (CreateContact.Input.phone input)
      (CreateContact.Input.company input) in
  let r := CreateContact.createContact input rt trace in
  exists properties : list (string * string),
    (forall k v, (k, v) ∈ properties <-> v <> EmptyString /\ (k, Some v) ∈ fields) /\
    sublist properties.*1 ["email"; "firstname"; "lastname"; "phone"; "company"] /\
    (properties = [] ->
     r = (CreateContact.failure None "No properties provided.", trace)) /\
    (properties <> [] ->
     r.2 = trace ++ [{| method := POST;
                        url := baseUrlOf rt +:+ "/crm/v3/objects/contacts";
                        headers := jsonHeaders (tokenOf rt);
                        body := PropertiesPayload properties |}]).
Proof.
  intros Htoken fields r.
  exists (CreateContact.collectProperties (CreateContact.Input.email input)
            (CreateContact.Input.firstname input) (CreateContact.Input.lastname input)
            (CreateContact.Input.phone input) (CreateContact.Input.company input)).
  split; [intros k v; apply collectProperties_fields|].
  split; [apply collectProperties_order|].
  subst r. unfold CreateContact.createContact. run. fold (baseUrlOf rt).
  rewrite (env_token rt Htoken).
  destruct (token_nonempty rt Htoken) as (c & s & Htok). rewrite Htok.
  destruct (CreateContact.collectProperties _ _ _ _ _) as [|property properties].
  - split; [done|]. intros H. by destruct H.
  - split; [discriminate|]. intros _. by rewrite run_send.
Qed.

(** The empty last name and the missing phone of a new contact are not
    sent; its email is. *)
Lemma createContact_sends_present_fields_witness :
  exists properties,
    ("email", "ada@example.com") ∈ properties /\
    (forall v, ("lastname", v) ∉ properties) /\
    (CreateContact.createContact More.newContact More.accepting []).2 =
      [{| method := POST;
          url := "https://api.hubapi.com/crm/v3/objects/contacts";
          headers := jsonHeaders "token";
          body := PropertiesPayload properties |}].
Proof.
  destruct (createContact_sends_present_fields More.accepting [] More.newContact)
    as (properties & Hfields & _ & _ & Hsent); [vm_compute; reflexivity|].
  exists properties.
  assert (Hemail : ("email", "ada@example.com") ∈ properties).
  { apply Hfields. split; [discriminate|left]. }
  split; [exact Hemail|]. split.
  - intros v Hv. apply Hfields in Hv as [Hne Hin].
    unfold contactFields in Hin. cbn in Hin.
    repeat (apply elem_of_cons in Hin as [Hin|Hin]; [by simplify_eq|]).
    by apply elem_of_nil in Hin.
  - rewrite Hsent; [reflexivity|]. intros ->. by apply elem_of_nil in Hemail.
Defined.

(** X3. With a credential configured, updateContact checks the contact
    identifier before the properties and both before sending: an empty
    identifier gives "Contact ID is required." even when properties are
    given, an identifier without any non-empty field gives "No properties
    to update provided.", and in both cases nothing is sent.  Otherwise
    exactly one PATCH goes to /crm/v3/objects/contacts/<contactId> with the
    non-empty fields. *)
Theorem updateContact_validates_before_sending (rt : Runtime) (trace : list Request)
    (input : CreateContact.UpdateInput.t) :
  Js.truthy (env rt "HUBSPOT_PRIVATE_APP_TOKEN") = true ->
  let contactId := CreateContact.UpdateInput.contactId input in
  let properties :=
    CreateContact.collectProperties (CreateContact.UpdateInput.email input)
      (CreateContact.UpdateInput.firstname input) (CreateContact.UpdateInput.lastname input)
      (CreateContact.UpdateInput.phone input) (CreateContact.UpdateInput.company input) in
  let r := CreateContact.updateContact input rt trace in
  (contactId = EmptyString ->
   r = (CreateContact.failure None "Contact ID is required.", trace)) /\
  (contactId <> EmptyString -> properties = [] ->
   r = (CreateContact.failure None "No properties to update provided.", trace)) /\
  (contactId <> EmptyString -> properties <> [] ->
   r.2 = trace ++ [{| method := PATCH;
                      url := baseUrlOf rt +:+ "/crm/v3/objects/contacts/" +:+ contactId;
                      headers := jsonHeaders (tokenOf rt);
                      body := PropertiesPayload properties |}]) /\
  (forall k v,
     (k, v) ∈ properties <->
     v <> EmptyString /\
     (k, Some v) ∈ contactFields (CreateContact.UpdateInput.email input)
                     (CreateContact.UpdateInput.firstname input)
                     (CreateContact.UpdateInput.lastname input)
                     (CreateContact.UpdateInput.phone input)
                     (CreateContact.UpdateInput.company input)).
Proof.
  intros Htoken contactId properties r.
  assert (Hr : r =
    match contactId with
    | EmptyString => (CreateContact.failure None "Contact ID is required.", trace)
    | _ =>
        match properties with
        | [] => (CreateContact.failure None "No properties to update provided.", trace)
        | _ => CreateContact.send
                 (CreateContact.updateRequest contactId properties (tokenOf rt) (baseUrlOf rt))
                 rt trace
        end
    end).
  { subst r. unfold CreateContact.updateContact. run. fold (baseUrlOf rt).
    rewrite (env_token rt Htoken).
    destruct (token_nonempty rt Htoken) as (c & s & Htok). rewrite Htok.
    fold contactId. destruct contactId; [done|]. fold properties.
    by destruct properties. }
  rewrite Hr. split; [by intros ->|]. split; [|split].
  - intros Hid ->. by destruct contactId.
  - intros Hid Hproperties. destruct contactId; [done|].
    destruct properties; [done|]. by rewrite run_send.
  - intros k v. apply collectProperties_fields.
Qed.

(** A phone update without a contact identifier is refused; with one it is
    sent as a PATCH of the phone alone. *)
Lemma updateContact_validates_before_sending_witness :
  CreateContact.updateContact (More.phoneUpdate EmptyString) More.accepting [] =
    (CreateContact.failure None "Contact ID is required.", []) /\
  (CreateContact.updateContact (More.phoneUpdate "42") More.accepting []).2 =
    [{| method := PATCH;
        url := "https://api.hubapi.com/crm/v3/objects/contacts/42";
        headers := jsonHeaders "token";
        body := PropertiesPayload [("phone", "555-1234")] |}].
Proof.
  split.
  - destruct (updateContact_validates_before_sending More.accepting []
                (More.phoneUpdate EmptyString)) as (Hid & _); [vm_compute; reflexivity|].
    by apply Hid.
  - destruct (updateContact_validates_before_sending More.accepting [] (More.phoneUpdate "42"))
      as (_ & _ & Hsent & _); [vm_compute; reflexivity|].
    rewrite Hsent; [vm_compute; reflexivity|discriminate|discriminate].
Defined.

(** X4. With a credential configured, updateDealStage checks the deal
    identifier, then the stage, and sends nothing when either is empty.
    Otherwise it sends exactly one PATCH to /crm/v3/objects/deals/<dealId>
    whose only property is the stage.  The optional notes are never sent:
    neither the result nor the requests depend on them. *)
Theorem updateDealStage_sends_stage_only (rt : Runtime) (trace : list Request)
    (input : Deals.UpdateDealStageInput.t) :
  Js.truthy (env rt "HUBSPOT_PRIVATE_APP_TOKEN") = true ->
  let dealId := Deals.UpdateDealStageInput.dealId input in
  let dealstage := Deals.UpdateDealStageInput.dealstage input in
  let r := Deals.updateDealStage input rt trace in
  (dealId = EmptyString -> r = (Deals.failure None "Deal ID is required.", trace)) /\
  (dealId <> EmptyString -> dealstage = EmptyString ->
   r = (Deals.failure None "Deal stage is required.", trace)) /\
  (dealId <> EmptyString -> dealstage <> EmptyString ->
   r.2 = trace ++ [{| method := PATCH;
                      url := baseUrlOf rt +:+ "/crm/v3/objects/deals/" +:+ dealId;
                      headers := jsonHeaders (tokenOf rt);
                      body := PropertiesPayload [("dealstage", dealstage)] |}]) /\
  (forall notes,
     Deals.updateDealStage
       {| Deals.UpdateDealStageInput.dealId := dealId;
          Deals.UpdateDealStageInput.dealstage := dealstage;
          Deals.UpdateDealStageInput.notes := notes |} rt trace = r).
Proof.
  intros Htoken dealId dealstage r.
  split; [|split; [|split]].
  - intros Hid. subst r. unfold Deals.updateDealStage. run.
    rewrite (env_token rt Htoken).
    destruct (token_nonempty rt Htoken) as (c & s & ->).
    fold dealId. by rewrite Hid.
  - intros Hid Hstage. subst r. unfold Deals.updateDealStage. run.
    rewrite (env_token rt Htoken).
    destruct (token_nonempty rt Htoken) as (c & s & ->).
    fold dealId dealstage. rewrite Hstage. by destruct dealId.
  - intros Hid Hstage.
    destruct (run_updateDealStage input rt trace) as (sent & Hsent & Hcases).
    fold r in Hsent. rewrite Hsent. f_equal.
    destruct Hcases as [->| ->]; [|reflexivity].
    exfalso. subst r. unfold Deals.updateDealStage in Hsent. revert Hsent. run.
    rewrite (env_token rt Htoken).
    destruct (token_nonempty rt Htoken) as (c & s & ->).
    fold dealId dealstage. destruct dealId; [done|]. destruct dealstage; [done|].
    run. rewrite app_nil_r.
    set (request := Deals.patchRequest _ _ _ _).
    assert (Hlen : forall out : Deals.UpdateDealStageResult.t * list Request,
              out.2 = trace ++ [request] -> out.2 <> trace).
    { intros out -> H. apply (f_equal length) in H. rewrite length_app in H. cbn in H. lia. }
    intros H. eapply Hlen; [|exact H].
    destruct (remote rt trace request) as [res|]; [|done].
    destruct (Response.json res); [|done]. by destruct (negb (Response.ok res)).
  - intros notes. reflexivity.
Qed.

(** An empty stage is refused without a request; notes change nothing. *)
Lemma updateDealStage_sends_stage_only_witness :
  Deals.updateDealStage (More.stageChange "900" EmptyString None) More.accepting [] =
    (Deals.failure None "Deal stage is required.", []) /\
  map body (Deals.updateDealStage (More.stageChange "900" "closedwon" (Some "after the call"))
              More.accepting []).2 =
    [PropertiesPayload [("dealstage", "closedwon")]].
Proof.
  split.
  - destruct (updateDealStage_sends_stage_only More.accepting []
                (More.stageChange "900" EmptyString None)) as (_ & Hstage & _);
      [vm_compute; reflexivity|].
    apply Hstage; [discriminate|reflexivity].
  - destruct (updateDealStage_sends_stage_only More.accepting []
                (More.stageChange "900" "closedwon" (Some "after the call")))
      as (_ & _ & Hsent & _); [vm_compute; reflexivity|].
    rewrite Hsent; [reflexivity|discriminate|discriminate].
Defined.

Ltac branch :=
  match goal with
  | |- context [match env ?rt ?name with _ => _ end] =>
      destruct (env rt name) as [[|? ?]|] eqn:?
  | |- context [match remote ?rt ?trace ?req with _ => _ end] =>
      destruct (remote rt trace req) as [?res|?] eqn:?
  | |- context [match Response.json ?res with _ => _ end] =>
      destruct (Response.json res) as [?body|?] eqn:?
  | |- context [if Response.ok ?res && Json.nullish ?parsed then _ else _] =>
      destruct (Response.ok res) eqn:?, (Json.nullish parsed) eqn:?; cbn [andb]
  | |- context [if negb (Response.ok ?res) then _ else _] =>
      destruct (Response.ok res) eqn:?; cbn [negb]
  | |- context [if Json.nullish ?parsed then _ else _] =>
      destruct (Json.nullish parsed) eqn:?
  | |- context [if Json.isNull ?element then _ else _] =>
      destruct (Json.isNull element) eqn:?
  | |- context [match Json.results ?body with _ => _ end] =>
      destruct (Json.results body) as [[|? ?]|] eqn:?
  end.

Ltac branches := repeat (run; try branch).

Ltac settle :=
  cbn; repeat split; intros;
  repeat match goal with
         | H : is_Some None |- _ => destruct H as [? H]; discriminate H
         | H : _ = _ |- _ => discriminate H
         end;
  eauto.

(** ** Result envelopes *)

Lemma send_wf rt trace req :
    let r := (CreateContact.send req rt trace).1 in
    (CreateContact.Result.ok r = true <-> CreateContact.Result.error r = None) /\
    (CreateContact.Result.ok r = true <-> is_Some (CreateContact.Result.properties r)) /\
    (is_Some (CreateContact.Result.id r) -> CreateContact.Result.ok r = true) /\
    (is_Some (CreateContact.Result.status r) -> CreateContact.Result.ok r = false).
Proof. cbn zeta. unfold CreateContact.send. branches; settle. Qed.

Lemma failure_wf status message :
    let r := CreateContact.failure status message in
    (CreateContact.Result.ok r = true <-> CreateContact.Result.error r = None) /\
    (CreateContact.Result.ok r = true <-> is_Some (CreateContact.Result.properties r)) /\
    (is_Some (CreateContact.Result.id r) -> CreateContact.Result.ok r = true) /\
    (is_Some (CreateContact.Result.status r) -> CreateContact.Result.ok r = false).
Proof. settle. Qed.

Lemma summary_wf contactId rt trace :
  let r := (Engagements.getContactActivitySummary contactId rt trace).1 in
  (Engagements.ContactActivitySummaryResult.ok r = true <->
   Engagements.ContactActivitySummaryResult.error r = None) /\
  (Engagements.ContactActivitySummaryResult.ok r = true <->
   is_Some (Engagements.ContactActivitySummaryResult.summary r)).
Proof.
  cbn zeta. unfold Engagements.getContactActivitySummary.
  run. destruct (env rt "HUBSPOT_PRIVATE_APP_TOKEN") as [[|c s]|]; try solve [settle].
  destruct contactId; [settle|].
  branches; settle.
Qed.

(** X5. Every result envelope of the library is well formed, whatever the
    remote answers: [ok] is true exactly when there is no [error], a write
    or a lookup carries its payload ([properties], [pipelines], [deal],
    [summary]) exactly when [ok] is true, an [id] only comes with success and
    an HTTP [status] only with a failure; a search names a [contactId] only
    together with the [contact] it found. *)
Theorem envelopes_are_well_formed (rt : Runtime) (trace : list Request) :
  let write (r : CreateContact.Result.t) :=
    (CreateContact.Result.ok r = true <-> CreateContact.Result.error r = None) /\
    (CreateContact.Result.ok r = true <-> is_Some (CreateContact.Result.properties r)) /\
    (is_Some (CreateContact.Result.id r) -> CreateContact.Result.ok r = true) /\
    (is_Some (CreateContact.Result.status r) -> CreateContact.Result.ok r = false) in
  (forall input, write (CreateContact.createContact input rt trace).1) /\
  (forall input, write (CreateContact.updateContact input rt trace).1) /\
  (forall input,
     let r := (Deals.updateDealStage input rt trace).1 in
     (Deals.UpdateDealStageResult.ok r = true <-> Deals.UpdateDealStageResult.error r = None) /\
     (Deals.UpdateDealStageResult.ok r = true <->
      is_Some (Deals.UpdateDealStageResult.properties r)) /\
     (is_Some (Deals.UpdateDealStageResult.id r) -> Deals.UpdateDealStageResult.ok r = true) /\
     (is_Some (Deals.UpdateDealStageResult.status r) ->
      Deals.UpdateDealStageResult.ok r = false)) /\
  (let r := (Deals.getDealPipelines rt trace).1 in
   (Deals.GetPipelinesResult.ok r = true <-> Deals.GetPipelinesResult.error r = None) /\
   (Deals.GetPipelinesResult.ok r = true <-> is_Some (Deals.GetPipelinesResult.pipelines r))) /\
  (forall dealId,
     let r := (Deals.getDealById dealId rt trace).1 in
     (Deals.DealResult.ok r = true <-> Deals.DealResult.error r = None) /\
     (Deals.DealResult.ok r = true <-> is_Some (Deals.DealResult.deal r))) /\
  (forall email,
     let r := (Engagements.searchContactByEmail email rt trace).1 in
     (Engagements.SearchResult.ok r = true <-> Engagements.SearchResult.error r = None) /\
     (is_Some (Engagements.SearchResult.contact r) -> Engagements.SearchResult.ok r = true) /\
     (is_Some (Engagements.SearchResult.contactId r) ->
      is_Some (Engagements.SearchResult.contact r))) /\
  (forall contactId,
     let r := (Engagements.getContactActivitySummary contactId rt trace).1 in
     (Engagements.ContactActivitySummaryResult.ok r = true <->
      Engagements.ContactActivitySummaryResult.error r = None) /\
     (Engagements.ContactActivitySummaryResult.ok r = true <->
      is_Some (Engagements.ContactActivitySummaryResult.summary r))).
Proof.
  cbn zeta. split; [|split; [|split; [|split; [|split; [|split]]]]].
  - intros input. unfold CreateContact.createContact. branches;
      try apply failure_wf.
    destruct (CreateContact.collectProperties _ _ _ _ _);
      [apply failure_wf|apply send_wf].
  - intros input. unfold CreateContact.updateContact. branches;
      try apply failure_wf.
    destruct (CreateContact.UpdateInput.contactId input); [apply failure_wf|].
    destruct (CreateContact.collectProperties _ _ _ _ _);
      [apply failure_wf|apply send_wf].
  - intros input. unfold Deals.updateDealStage. branches; try solve [settle].
    destruct (Deals.UpdateDealStageInput.dealId input); [settle|].
    destruct (Deals.UpdateDealStageInput.dealstage input); [settle|].
    branches; settle.
  - unfold Deals.getDealPipelines. branches; settle.
  - intros dealId. unfold Deals.getDealById, Deals.lookup. branches; settle.
  - intros email. unfold Engagements.searchContactByEmail. branches; settle.
  - intros contactId. apply summary_wf.
Qed.

(** ** The requests the library sends *)

Lemma sends_nothing rt m budget trace : sends rt m budget trace trace.
Proof. exists []. rewrite app_nil_r. split; [done|]. split; [cbn; lia|constructor]. Qed.

Lemma sends_one rt m budget trace req :
  0 < budget -> authorised rt req -> method req = m -> sends rt m budget trace (trace ++ [req]).
Proof.
  intros Hbudget Hreq Hm. exists [req]. split; [done|]. split; [cbn; lia|].
  constructor; [by split|constructor].
Qed.

Lemma authorised_get rt path :
  Js.truthy (env rt "HUBSPOT_PRIVATE_APP_TOKEN") = true ->
  authorised rt {| method := GET; url := baseUrlOf rt +:+ path;
                   headers := authHeaders (tokenOf rt); body := NoPayload |}.
Proof.
  intros Htoken. split; [by exists path|]. split; [done|].
  unfold authHeaders. cbn. split; [left|]. split; [right; left|done].
Qed.

Lemma authorised_write rt m path payload :
  Js.truthy (env rt "HUBSPOT_PRIVATE_APP_TOKEN") = true ->
  m <> GET -> payload <> NoPayload ->
  authorised rt {| method := m; url := baseUrlOf rt +:+ path;
                   headers := jsonHeaders (tokenOf rt); body := payload |}.
Proof.
  intros Htoken Hm Hpayload. split; [by exists path|]. split; [done|].
  unfold jsonHeaders. cbn. split; [left|]. split; [right; right; left|done].
Qed.

Lemma send_sends rt m trace req :
  authorised rt req -> method req = m ->
  sends rt m 1 trace (CreateContact.send req rt trace).2.
Proof. intros Hreq Hm. rewrite run_send. apply sends_one; [lia|done|done]. Qed.

(** X6. Each single-call function of the library (createContact,
    updateContact, updateDealStage, getDealPipelines, getDealById,
    searchContactByEmail) adds at most one request to the trace, of its own
    method, and that request is authorised: it goes to a path under the
    normalised base URL, carries the configured non-empty token as bearer
    credential, asks for JSON, and has a body exactly when it is not a GET.
    In particular nothing is ever sent without a credential. *)
Theorem library_calls_send_one_authorised_request (rt : Runtime) (trace : list Request) :
  (forall input, sends rt POST 1 trace (CreateContact.createContact input rt trace).2) /\
  (forall input, sends rt PATCH 1 trace (CreateContact.updateContact input rt trace).2) /\
  (forall input, sends rt PATCH 1 trace (Deals.updateDealStage input rt trace).2) /\
  sends rt GET 1 trace (Deals.getDealPipelines rt trace).2 /\
  (forall dealId, sends rt GET 1 trace (Deals.getDealById dealId rt trace).2) /\
  (forall email, sends rt POST 1 trace (Engagements.searchContactByEmail email rt trace).2).
Proof.
  destruct (Js.truthy (env rt "HUBSPOT_PRIVATE_APP_TOKEN")) eqn:Htoken.
  - pose proof (env_token rt Htoken) as Henv.
    destruct (token_nonempty rt Htoken) as (c & s & Htok).
    split; [|split; [|split; [|split; [|split]]]].
    + intros input. unfold CreateContact.createContact. run. fold (baseUrlOf rt).
      rewrite Henv, Htok.
      destruct (CreateContact.collectProperties _ _ _ _ _); [apply sends_nothing|].
      rewrite <- Htok. apply send_sends; [|done]. by apply authorised_write.
    + intros input. unfold CreateContact.updateContact. run. fold (baseUrlOf rt).
      rewrite Henv, Htok.
      destruct (CreateContact.UpdateInput.contactId input) eqn:Hid; [apply sends_nothing|].
      destruct (CreateContact.collectProperties _ _ _ _ _); [apply sends_nothing|].
      rewrite <- Htok. apply send_sends; [|done].
      by apply (authorised_write rt PATCH ("/crm/v3/objects/contacts/" +:+ _)).
    + intros input.
      destruct (run_updateDealStage input rt trace) as (sent & -> & [-> | ->]).
      * rewrite app_nil_r. apply sends_nothing.
      * apply sends_one; [lia| |done].
        by apply (authorised_write rt PATCH ("/crm/v3/objects/deals/" +:+ _)).
    + unfold Deals.getDealPipelines. run. fold (baseUrlOf rt). rewrite Henv, Htok. run.
      rewrite <- Htok.
      assert (Hsent : sends rt GET 1 trace
                (trace ++ [Deals.pipelinesRequest (tokenOf rt) (baseUrlOf rt)])).
      { apply sends_one; [lia| |done]. by apply authorised_get. }
      branches; exact Hsent.
    + intros dealId. unfold Deals.getDealById. run. fold (baseUrlOf rt). rewrite Henv, Htok.
      rewrite <- Htok.
      destruct (run_lookup dealId (tokenOf rt) (baseUrlOf rt) rt trace) as (-> & _).
      apply sends_one; [lia| |done].
      by apply (authorised_get rt ("/crm/v3/objects/deals/" +:+ _)).
    + intros email. rewrite (searchContactByEmail_unfold rt trace email Htoken). cbn [snd].
      apply sends_one; [lia| |done]. by apply authorised_write.
  - unfold CreateContact.createContact, CreateContact.updateContact, Deals.updateDealStage,
      Deals.getDealPipelines, Deals.getDealById, Engagements.searchContactByEmail.
    repeat split; intros; run;
      destruct (falsy_cases _ Htoken) as [-> | ->]; apply sends_nothing.
Qed.

(** ** The requests of a summary *)

Lemma inner_sent kind token baseUrl ids (st : Engagements.Collected) rt trace :
  (forOf ids (Engagements.collectOne kind token baseUrl) st rt trace).2 =
  trace ++ map (fun engId => Engagements.detailsRequest kind engId token baseUrl) ids.
Proof.
  revert st trace. induction ids as [|engId ids IH]; intros st trace; cbn [forOf map].
  - by rewrite app_nil_r.
  - rewrite run_bind, IH. unfold Engagements.collectOne. rewrite run_bind.
    pose proof (run_getEngagementDetails kind engId token baseUrl rt trace) as Hsent.
    destruct (Engagements.getEngagementDetails kind engId token baseUrl rt trace)
      as [[details|] sent]; cbn [fst snd] in *; subst sent; rewrite run_ret; cbn [snd];
      by rewrite <- app_assoc.
Qed.

Lemma collectType_sent contactId token baseUrl (st : Engagements.Collected) kind rt trace :
  let ids := (Engagements.getContactAssociations contactId kind token baseUrl rt trace).1 in
  let r := Engagements.collectType contactId token baseUrl st kind rt trace in
  r.2 = trace ++ Engagements.associationsRequest contactId kind token baseUrl
                 :: map (fun engId => Engagements.detailsRequest kind engId token baseUrl)
                      (take 5 ids) /\
  Engagements.EngagementSummary.count (r.1.1 kind) = length ids.
Proof.
  cbn zeta. unfold Engagements.collectType. rewrite run_bind, run_bind, run_ret. cbn [fst snd].
  rewrite inner_sent, run_getContactAssociations, <- app_assoc. split; [done|].
  unfold Engagements.setCount. by rewrite decide_True.
Qed.

Lemma authorised_details rt kind engId :
  Js.truthy (env rt "HUBSPOT_PRIVATE_APP_TOKEN") = true ->
  authorised rt (Engagements.detailsRequest kind engId (tokenOf rt) (baseUrlOf rt)).
Proof. intros Htoken. by apply (authorised_get rt ("/crm/v3/objects/" +:+ _)). Qed.

Lemma authorised_associations rt contactId kind :
  Js.truthy (env rt "HUBSPOT_PRIVATE_APP_TOKEN") = true ->
  authorised rt (Engagements.associationsRequest contactId kind (tokenOf rt) (baseUrlOf rt)).
Proof. intros Htoken. by apply (authorised_get rt ("/crm/v4/objects/contacts/" +:+ _)). Qed.

Lemma outer_sent rt contactId kinds (st : Engagements.Collected) trace :
  Js.truthy (env rt "HUBSPOT_PRIVATE_APP_TOKEN") = true ->
  NoDup kinds ->
  let r := forOf kinds (Engagements.collectType contactId (tokenOf rt) (baseUrlOf rt))
             st rt trace in
  exists sent,
    r.2 = trace ++ sent /\
    Forall (fun req => authorised rt req /\ method req = GET) sent /\
    length sent = sampledCount r.1.1 kinds /\
    (forall k, k ∉ kinds -> r.1.1 k = st.1 k).
Proof.
  intros Htoken. revert st trace.
  induction kinds as [|kind kinds IH]; intros st trace Hnd; cbn [forOf].
  - exists []. rewrite app_nil_r. split; [done|]. split; [constructor|]. by split.
  - apply NoDup_cons in Hnd as [Hfresh Hnd]. rewrite run_bind.
    destruct (collectType_sent contactId (tokenOf rt) (baseUrlOf rt) st kind rt trace)
      as [Hsent Hcount]. cbn zeta in Hsent, Hcount.
    set (step := Engagements.collectType contactId (tokenOf rt) (baseUrlOf rt) st kind rt trace)
      in *.
    set (ids := (Engagements.getContactAssociations contactId kind (tokenOf rt) (baseUrlOf rt)
                   rt trace).1) in *.
    destruct (IH step.1 step.2 Hnd) as (sent & Htrace & Hall & Hlen & Hout).
    cbn zeta in Htrace, Hall, Hlen, Hout.
    set (r := forOf kinds _ step.1 rt step.2) in *.
    eexists. split; [rewrite Htrace, Hsent, <- app_assoc; reflexivity|].
    split; [|split].
    + cbn [app]. constructor; [split; [by apply authorised_associations|done]|].
      apply Forall_app. split; [|done].
      apply Forall_fmap, Forall_true. intros engId. cbn.
      split; [by apply authorised_details|done].
    + cbn [app length]. rewrite length_app, length_fmap, length_take, Hlen.
      unfold sampledCount. cbn [map sum_list]. rewrite (Hout kind Hfresh), Hcount.
      unfold id. lia.
    + intros k Hk. apply not_elem_of_cons in Hk as [Hne Hk].
      rewrite (Hout k Hk). subst step.
      by apply (collectType_other contactId (tokenOf rt) (baseUrlOf rt) rt kind k st trace).
Qed.

(** X7. getContactActivitySummary only reads: every request it sends is an
    authorised GET, and there are at most 31 of them however many
    engagements the contact has.  A run that returns a summary has sent one
    contact lookup and, for each of the five kinds, one association request
    plus one details request for each of the first five associations.  A run
    that fails has sent at most the contact lookup, with one exception: when
    the lookup answers with success and the body JSON null, the loops run
    before the read of the contact's properties throws. *)
Theorem summary_requests_are_bounded_reads (rt : Runtime) (contactId : string)
    (trace : list Request) :
  let request := Engagements.contactRequest contactId (tokenOf rt) (baseUrlOf rt) in
  let r := Engagements.getContactActivitySummary contactId rt trace in
  exists sent,
    r.2 = trace ++ sent /\
    Forall (fun req => authorised rt req /\ method req = GET) sent /\
    length sent <= 31 /\
    (forall summary,
       Engagements.ContactActivitySummaryResult.summary r.1 = Some summary ->
       length sent = 1 + sampledCount (entryOf summary) Engagements.engagementTypes) /\
    (Engagements.ContactActivitySummaryResult.ok r.1 = false ->
     length sent <= 1 \/
     exists res,
       remote rt trace request = Responds res /\
       Response.ok res = true /\
       Response.json res = JsonValue Json.Null).
Proof.
  cbn zeta. unfold Engagements.getContactActivitySummary. run. fold (baseUrlOf rt).
  destruct (Js.truthy (env rt "HUBSPOT_PRIVATE_APP_TOKEN")) eqn:Htoken.
  - rewrite (env_token rt Htoken).
    destruct (token_nonempty rt Htoken) as (c & s & Htok). rewrite Htok, <- Htok.
    destruct contactId as [|c0 s0].
    { exists []. rewrite app_nil_r. split; [done|]. split; [constructor|].
      split; [cbn; lia|]. split; [|intros _; left; cbn; lia].
      intros summary Hsummary. cbn in Hsummary. discriminate Hsummary. }
    set (contactId := String c0 s0). run.
    set (request := Engagements.contactRequest contactId (tokenOf rt) (baseUrlOf rt)).
    assert (Hrequest : authorised rt request /\ method request = GET).
    { split; [|done]. by apply (authorised_get rt ("/crm/v3/objects/contacts/" +:+ _)). }
    assert (Hfailed : forall message (lookup : Prop),
      exists sent,
        trace ++ [request] = trace ++ sent /\
        Forall (fun req => authorised rt req /\ method req = GET) sent /\
        length sent <= 31 /\
        (forall summary,
           Engagements.ContactActivitySummaryResult.summary (Engagements.failure message) =
             Some summary ->
           length sent = 1 + sampledCount (entryOf summary) Engagements.engagementTypes) /\
        (Engagements.ContactActivitySummaryResult.ok (Engagements.failure message) = false ->
         length sent <= 1 \/ lookup)).
    { intros message lookup. exists [request]. split; [done|].
      split; [constructor; [exact Hrequest|constructor]|]. split; [cbn; lia|].
      split; [|intros _; left; cbn; lia].
      intros summary Hsummary. cbn in Hsummary. discriminate Hsummary. }
    destruct (remote rt trace request) as [res|] eqn:Hres; [|run; apply Hfailed].
    destruct (Response.ok res) eqn:Hok; cbn [negb]; cycle 1.
    { destruct (Response.json res); run; apply Hfailed. }
    destruct (Response.json res) as [contactData|] eqn:Hjson; [|run; apply Hfailed].
    run.
    destruct (outer_sent rt contactId Engagements.engagementTypes
                (Engagements.summaries0, []) (trace ++ [request]) Htoken)
      as (sent & Htrace & Hall & Hlen & _); [compute_done|].
    cbn zeta in Htrace, Hall, Hlen.
    set (loop := forOf _ _ _ rt _) in *.
    assert (Hbound : length sent <= 30).
    { rewrite Hlen. clearbody loop.
      unfold sampledCount, Engagements.engagementTypes. cbn [map sum_list]. unfold id. lia. }
    exists (request :: sent).
    destruct contactData as [|truthy text|members]; cbn [Json.nullish]; run;
      unfold getDate; cbn [fst snd];
      (split; [by rewrite Htrace, <- app_assoc|]);
      (split; [by constructor|]); (split; [cbn [length]; lia|]).
    + split; [intros summary Hsummary; cbn in Hsummary; discriminate Hsummary|].
      intros _. right. by exists res.
    + split; [|cbn; discriminate].
      clearbody loop. intros summary Hsummary. cbn in Hsummary. injection Hsummary as <-.
      cbn [length]. by rewrite Hlen.
    + split; [|cbn; discriminate].
      clearbody loop. intros summary Hsummary. cbn in Hsummary. injection Hsummary as <-.
      cbn [length]. by rewrite Hlen.
  - destruct (falsy_cases _ Htoken) as [-> | ->];
      exists []; rewrite app_nil_r;
      (split; [done|]; split; [constructor|]; split; [cbn; lia|];
       split; [|intros _; left; cbn; lia];
       intros summary Hsummary; cbn in Hsummary; discriminate Hsummary).
Qed.

(** Twelve associated calls cost eleven requests: the contact, five
    association lists and the details of the first five calls. *)
Lemma summary_requests_are_bounded_reads_witness :
  exists sent,
    (Engagements.getContactActivitySummary "42" Scenario.twelveCalls []).2 = sent /\
    length sent = 11 /\
    Forall (fun req => method req = GET) sent.
Proof.
  destruct (summary_requests_are_bounded_reads Scenario.twelveCalls "42" [])
    as (sent & Hsent & Hall & _ & Hsummary & _).
  exists sent. split; [exact Hsent|]. split.
  - rewrite (Hsummary (default Scenario.janeSummary (Scenario.summaryOf Scenario.twelveCalls)));
      [vm_compute; reflexivity|vm_compute; reflexivity].
  - eapply Forall_impl; [exact Hall|]. by intros req [_ Hmethod].
Defined.

(** ** The contact lookup of a summary *)

(** X8. With a credential configured, what can fail
    getContactActivitySummary is its contact lookup and nothing in its loops.
    An empty contact identifier gives "Contact ID is required." without a
    request.  When the contact lookup fails (transport failure, non-success
    status, or a body that is not JSON), the run returns the failure after
    that one request, with the thrown message, the message of the error body
    or "Contact not found"; no association is requested.  When the lookup
    answers with success and the body JSON null, the loops run (five
    association requests at least) and the read of the contact's properties
    then throws: the run fails with the engine's message for that read.
    Conversely a run that is not [ok] had a failing contact lookup or a JSON
    null body. *)
Theorem summary_stops_at_contact_lookup (rt : Runtime) (contactId : string)
    (trace : list Request) :
  Js.truthy (env rt "HUBSPOT_PRIVATE_APP_TOKEN") = true ->
  let request := Engagements.contactRequest contactId (tokenOf rt) (baseUrlOf rt) in
  let r := Engagements.getContactActivitySummary contactId rt trace in
  let answersNull :=
    exists res,
      remote rt trace request = Responds res /\
      Response.ok res = true /\
      Response.json res = JsonValue Json.Null in
  (contactId = EmptyString ->
   r = (Engagements.failure "Contact ID is required.", trace)) /\
  (contactId <> EmptyString ->
   reply_fails (remote rt trace request) ->
   r = (Engagements.failure (lookupError (remote rt trace request)), trace ++ [request])) /\
  (contactId <> EmptyString ->
   answersNull ->
   r.1 = Engagements.failure (nullRead rt "properties") /\
   exists sent, r.2 = trace ++ request :: sent /\ 5 <= length sent <= 30) /\
  (contactId <> EmptyString ->
   Engagements.ContactActivitySummaryResult.ok r.1 = false ->
   reply_fails (remote rt trace request) \/ answersNull).
Proof.
  intros Htoken request r answersNull. subst r answersNull.
  unfold Engagements.getContactActivitySummary. run. fold (baseUrlOf rt).
  rewrite (env_token rt Htoken).
  destruct (token_nonempty rt Htoken) as (c & s & Htok). rewrite Htok, <- Htok.
  split; [by intros ->|].
  destruct contactId as [|c0 s0].
  { split; [|split]; intros Hid; by destruct Hid. }
  run. fold request.
  destruct (remote rt trace request) as [res|message] eqn:Hres; cbn [reply_fails lookupError].
  - destruct (Response.ok res) eqn:Hok; cbn [negb].
    + destruct (Response.json res) as [contactData|message] eqn:Hjson.
      * split; [intros _ [Hfalse|[message Hfalse]]; discriminate Hfalse|].
        run.
        destruct (outer_sent rt (String c0 s0) Engagements.engagementTypes
                    (Engagements.summaries0, []) (trace ++ [request]) Htoken)
          as (sent & Htrace & _ & Hlen & _); [compute_done|].
        cbn zeta in Htrace, Hlen.
        set (loop := forOf _ _ _ rt _) in *.
        assert (Hbound : 5 <= length sent <= 30).
        { rewrite Hlen. clearbody loop.
          unfold sampledCount, Engagements.engagementTypes. cbn [map sum_list]. unfold id.
          lia. }
        destruct contactData as [|truthy text|members]; cbn [Json.nullish]; run;
          unfold getDate; cbn [fst snd].
        -- split.
           ++ intros _ _. split; [done|]. exists sent.
              by rewrite Htrace, <- app_assoc.
           ++ intros _ _. right. by exists res.
        -- split; [|cbn; discriminate].
           intros _ (res' & Hres' & _ & Hnull). congruence.
        -- split; [|cbn; discriminate].
           intros _ (res' & Hres' & _ & Hnull). congruence.
      * split; [by intros _ _|]. split.
        -- intros _ (res' & Hres' & _ & Hnull). congruence.
        -- intros _ _. left. right. by exists message.
    + split; [|split; [|intros _ _; left; by left]].
      * intros _ _.
        destruct (Response.json res) as [parsed|]; [|done];
          parsed_cases parsed.
      * intros _ (res' & Hres' & Hok' & _). congruence.
  - split; [by intros _ _|]. split; [|intros _ _; by left].
    intros _ (res' & Hres' & _). discriminate Hres'.
Qed.

(** A contact the remote does not know: the run ends with the remote's
    message after the lookup.  A lookup answered with [null]: the run asks
    for the five association lists and then fails on the contact's
    properties. *)
Lemma summary_stops_at_contact_lookup_witness :
  Engagements.getContactActivitySummary "42" Scenario.dealUnknown [] =
    (Engagements.failure "resource not found",
     [Engagements.contactRequest "42" "token" "https://api.hubapi.com"]) /\
  (Engagements.getContactActivitySummary "42" More.nullContact []).1 =
    Engagements.failure "Cannot read properties of null (reading 'properties')" /\
  length (Engagements.getContactActivitySummary "42" More.nullContact []).2 = 6.
Proof.
  split.
  - destruct (summary_stops_at_contact_lookup Scenario.dealUnknown "42" [])
      as (_ & Hfails & _); [vm_compute; reflexivity|].
    rewrite Hfails; [vm_compute; reflexivity|discriminate|left; vm_compute; reflexivity].
  - destruct (summary_stops_at_contact_lookup More.nullContact "42" [])
      as (_ & _ & Hnull & _); [vm_compute; reflexivity|].
    destruct Hnull as [Hfailure _];
      [discriminate
      |eexists; split; [vm_compute; reflexivity|split; vm_compute; reflexivity]|].
    split; [rewrite Hfailure; vm_compute; reflexivity|vm_compute; reflexivity].
Defined.

Lemma fullName_nonempty firstname lastname : fullName firstname lastname <> EmptyString.
Proof.
  unfold fullName.
  destruct firstname as [[|c s]|], lastname as [[|c' s']|]; cbn; discriminate.
Qed.

Lemma assemble_contactName getTime contactData collected :
  Engagements.ContactActivitySummaryResult.contactName
    (Engagements.assemble getTime contactData collected) =
  Some (fullName (contactProperty contactData "firstname")
          (contactProperty contactData "lastname")).
Proof.
  unfold Engagements.assemble, fullName, contactProperty. cbn. f_equal.
  destruct (Json.properties contactData ≫= (.!! "firstname")) as [[|c s]|],
    (Json.properties contactData ≫= (.!! "lastname")) as [[|c' s']|]; reflexivity.
Qed.

(** X9. A successful getContactActivitySummary identifies the contact
    from the lookup's body, not from its argument: [contactId] is the body's
    [id], [email] its email property, and [contactName] the non-empty ones of
    first and last name separated by one space, or "Unknown" when both are
    absent or empty; the name is never the empty string. *)
Theorem summary_identifies_contact (rt : Runtime) (contactId : string)
    (trace : list Request) :
  let r := (Engagements.getContactActivitySummary contactId rt trace).1 in
  Engagements.ContactActivitySummaryResult.ok r = true ->
  exists res contactData,
    remote rt trace (Engagements.contactRequest contactId (tokenOf rt) (baseUrlOf rt)) =
      Responds res /\
    Response.json res = JsonValue contactData /\
    Engagements.ContactActivitySummaryResult.contactId r = Json.id contactData /\
    Engagements.ContactActivitySummaryResult.email r = contactProperty contactData "email" /\
    Engagements.ContactActivitySummaryResult.contactName r =
      Some (fullName (contactProperty contactData "firstname")
              (contactProperty contactData "lastname")) /\
    Engagements.ContactActivitySummaryResult.contactName r <> Some EmptyString.
Proof.
  intros r Hok. subst r.
  destruct (run_inversion rt contactId trace Hok)
    as (res & contactData & Htoken & Hid & Hres & Hresok & Hjson & Hobject).
  exists res, contactData.
  rewrite (run_success rt contactId trace res contactData Htoken Hid Hres Hresok Hjson
             Hobject).
  cbn [fst]. rewrite assemble_contactName.
  split; [done|]. split; [done|]. split; [done|]. split; [done|]. split; [done|].
  intros [= H]. by apply fullName_nonempty in H.
Qed.

(** Jane Doe is named by her two name parts. *)
Lemma summary_identifies_contact_witness :
  Engagements.ContactActivitySummaryResult.contactName
    (Engagements.getContactActivitySummary "42" Scenario.quiet []).1 = Some "Jane Doe".
Proof.
  destruct (summary_identifies_contact Scenario.quiet "42" [])
    as (res & contactData & Hres & Hjson & _ & _ & Hname & _); [vm_compute; reflexivity|].
  rewrite Hname. vm_compute in Hres. injection Hres as <-.
  vm_compute in Hjson. injection Hjson as <-. vm_compute. reflexivity.
Defined.

(** ** Requested and normalised properties *)


(** ** The summary against a stateless remote *)

Lemma details_stateless rt kind engId token baseUrl trace1 trace2 :
  stateless rt ->
  (Engagements.getEngagementDetails kind engId token baseUrl rt trace1).1 =
  (Engagements.getEngagementDetails kind engId token baseUrl rt trace2).1.
Proof.
  intros Hrt. unfold Engagements.getEngagementDetails. run.
  rewrite (Hrt trace1 trace2).
  destruct (remote rt trace2 _) as [res|]; [|reflexivity].
  destruct (negb (Response.ok res)); [reflexivity|].
  destruct (Response.json res) as [parsed|]; [|done];
    parsed_cases parsed.
Qed.

Lemma associations_stateless rt contactId kind token baseUrl trace1 trace2 :
  stateless rt ->
  (Engagements.getContactAssociations contactId kind token baseUrl rt trace1).1 =
  (Engagements.getContactAssociations contactId kind token baseUrl rt trace2).1.
Proof.
  intros Hrt. unfold Engagements.getContactAssociations. run.
  rewrite (Hrt trace1 trace2).
  destruct (remote rt trace2 _) as [res|]; [|reflexivity].
  destruct (negb (Response.ok res)); [reflexivity|].
  destruct (Response.json res) as [parsed|]; [|done];
    parsed_cases parsed.
Qed.

Lemma inner_items rt kind ids (st : Engagements.Collected) trace k :
  stateless rt ->
  (forOf ids (Engagements.collectOne kind (tokenOf rt) (baseUrlOf rt)) st rt trace).1.1 k =
  if decide (k = kind) then
    {| Engagements.EngagementSummary.type := Engagements.EngagementSummary.type (st.1 kind);
       Engagements.EngagementSummary.count := Engagements.EngagementSummary.count (st.1 kind);
       Engagements.EngagementSummary.items :=
         Engagements.EngagementSummary.items (st.1 kind) ++ omap (fetchedItem rt kind) ids |}
  else st.1 k.
Proof.
  intros Hrt. revert st trace. induction ids as [|engId ids IH]; intros st trace.
  - cbn. case_decide as Hk; [subst k; by rewrite entry_eta|done].
  - cbn [forOf]. rewrite run_bind, IH. unfold Engagements.collectOne. rewrite run_bind.
    cbn [omap list_omap]. unfold fetchedItem at 2.
    rewrite (details_stateless rt kind engId _ _ [] trace Hrt).
    destruct (Engagements.getEngagementDetails kind engId _ _ rt trace) as [[details|] sent];
      cbn [fst snd fmap option_fmap option_map]; rewrite run_ret; cbn [fst snd].
    + unfold Engagements.pushItem. case_decide as Hk; [|done].
      rewrite decide_True by done. cbn. by rewrite <- app_assoc.
    + done.
Qed.

Lemma collectType_items rt contactId kind (st : Engagements.Collected) trace k :
  stateless rt ->
  (Engagements.collectType contactId (tokenOf rt) (baseUrlOf rt) st kind rt trace).1.1 k =
  if decide (k = kind) then
    {| Engagements.EngagementSummary.type := Engagements.EngagementSummary.type (st.1 kind);
       Engagements.EngagementSummary.count := length (associatedIds rt contactId kind);
       Engagements.EngagementSummary.items :=
         Engagements.EngagementSummary.items (st.1 kind) ++
         omap (fetchedItem rt kind) (take 5 (associatedIds rt contactId kind)) |}
  else st.1 k.
Proof.
  intros Hrt. unfold Engagements.collectType. rewrite run_bind, run_bind, run_ret.
  cbn [fst snd]. unfold Engagements.setCount. rewrite inner_items by done.
  unfold associatedIds.
  rewrite (associations_stateless rt contactId kind _ _ [] trace Hrt).
  by case_decide.
Qed.

Lemma outer_items rt contactId kinds (st : Engagements.Collected) trace :
  stateless rt ->
  NoDup kinds ->
  (forall k, k ∈ kinds -> st.1 k = Engagements.summaries0 k) ->
  forall k, k ∈ kinds ->
    (forOf kinds (Engagements.collectType contactId (tokenOf rt) (baseUrlOf rt))
       st rt trace).1.1 k =
    {| Engagements.EngagementSummary.type := k;
       Engagements.EngagementSummary.count := length (associatedIds rt contactId k);
       Engagements.EngagementSummary.items :=
         omap (fetchedItem rt k) (take 5 (associatedIds rt contactId k)) |}.
Proof.
  intros Hrt. revert st trace.
  induction kinds as [|kind kinds IH]; intros st trace Hnd Hinit k Hk;
    [by apply elem_of_nil in Hk|].
  apply NoDup_cons in Hnd as [Hfresh Hnd]. cbn [forOf]. rewrite run_bind.
  set (step := Engagements.collectType contactId (tokenOf rt) (baseUrlOf rt) st kind rt trace).
  assert (Hstep : forall j, j ∈ kinds -> step.1.1 j = Engagements.summaries0 j).
  { intros j Hj. subst step. rewrite collectType_items by done.
    rewrite decide_False; [apply Hinit; by right|]. by intros ->. }
  apply elem_of_cons in Hk as [->|Hk]; [|by apply IH].
  destruct (outer_loop rt contactId kinds step.1 step.2 Hnd Hstep) as (_ & Hout & _).
  cbn zeta in Hout. rewrite (Hout kind Hfresh). subst step.
  rewrite collectType_items by done. rewrite decide_True by done.
  rewrite (Hinit kind) by left. reflexivity.
Qed.

(** X11. Against a remote whose answers do not depend on earlier requests,
    the summary is a function of what the remote holds: for each kind the
    count is the number of associated identifiers, and the items are the
    normalised details of the first five identifiers, in association order,
    leaving out exactly those whose details fetch fails. *)
Theorem summary_of_stateless_remote (rt : Runtime) (contactId : string)
    (trace : list Request) (summary : Engagements.Summary.t) :
  stateless rt ->
  Engagements.ContactActivitySummaryResult.summary
    (Engagements.getContactActivitySummary contactId rt trace).1 = Some summary ->
  forall kind,
    entryOf summary kind =
    {| Engagements.EngagementSummary.type := kind;
       Engagements.EngagementSummary.count := length (associatedIds rt contactId kind);
       Engagements.EngagementSummary.items :=
         omap (fetchedItem rt kind) (take 5 (associatedIds rt contactId kind)) |}.
Proof.
  intros Hrt Hsummary kind.
  pose proof (summary_ok rt contactId trace summary Hsummary) as Hok. cbn zeta in Hok.
  destruct (run_inversion rt contactId trace Hok)
    as (res & contactData & Htoken & Hid & Hres & Hresok & Hjson & Hobject).
  rewrite (run_success rt contactId trace res contactData Htoken Hid Hres Hresok Hjson
             Hobject) in Hsummary.
  cbn zeta in Hsummary. set (loop := forOf _ _ _ rt _) in Hsummary.
  unfold Engagements.assemble in Hsummary.
  cbn [fst Engagements.ContactActivitySummaryResult.summary] in Hsummary.
  injection Hsummary as <-. subst loop.
  destruct kind; cbn [entryOf Engagements.Summary.calls Engagements.Summary.emails
                      Engagements.Summary.notes Engagements.Summary.tasks
                      Engagements.Summary.meetings];
    apply outer_items; try done; compute_done.
Qed.

(** Of twelve associated calls, all twelve are counted and the first five
    are shown, in order. *)
Lemma summary_of_stateless_remote_witness :
  exists summary,
    Scenario.summaryOf Scenario.twelveCalls = Some summary /\
    Engagements.EngagementSummary.count (entryOf summary Engagements.calls) = 12 /\
    map Engagements.Item.id
      (Engagements.EngagementSummary.items (entryOf summary Engagements.calls)) =
      ["1"; "2"; "3"; "4"; "5"].
Proof.
  destruct (Scenario.summaryOf Scenario.twelveCalls) as [summary|] eqn:Hsummary;
    [|vm_compute in Hsummary; discriminate Hsummary].
  exists summary. split; [reflexivity|].
  rewrite (summary_of_stateless_remote Scenario.twelveCalls "42" [] summary);
    [|by intros trace1 trace2 req|exact Hsummary].
  split; vm_compute; reflexivity.
Defined.

(** ** The marker without assumptions on dates *)

(** X12. Whatever the dates look like, even unreadable ones, the marker of
    a returned summary is either the sentinel, and then no item of any kind
    was fetched, or it names the kind and the createdAt (or "unknown date")
    of an item that is in the summary under that kind. *)
Theorem recentActivity_names_a_fetched_item (rt : Runtime) (contactId : string)
    (trace : list Request) (summary : Engagements.Summary.t) :
  Engagements.ContactActivitySummaryResult.summary
    (Engagements.getContactActivitySummary contactId rt trace).1 = Some summary ->
  (Engagements.Summary.recentActivity summary = "No recent activity found" /\
   forall kind, Engagements.EngagementSummary.items (entryOf summary kind) = []) \/
  (exists kind item,
     item ∈ Engagements.EngagementSummary.items (entryOf summary kind) /\
     Engagements.Summary.recentActivity summary =
       "Most recent: " +:+ Engagements.typeName kind +:+ " on "
         +:+ default "unknown date" (Engagements.Item.createdAt item)).
Proof.
  intros Hsummary.
  destruct (summary_run_of rt contactId trace summary Hsummary) as [_ Hrecent].
  pose proof (Array_sort_Permutation (Engagements.compareItems (Date_getTime rt))
                (allItemsOf summary)) as Hperm.
  fold (mergedItems rt summary) in Hperm.
  destruct (mergedItems rt summary) as [|head rest] eqn:Hmerged.
  - left. split; [exact Hrecent|]. apply allItemsOf_nil. by apply Permutation_nil_r.
  - right. assert (Hhead : head ∈ allItemsOf summary) by (rewrite Hperm; left).
    unfold allItemsOf, itemsInOrder in Hhead.
    apply list_elem_of_In, in_flat_map in Hhead as (kind & _ & Hin).
    apply list_elem_of_In, list_elem_of_fmap in Hin as (item & -> & Hitem).
    exists kind, item. split; [exact Hitem|]. exact Hrecent.
Qed.

(** A single call without a date is what the marker names. *)
Lemma recentActivity_names_a_fetched_item_witness :
  exists summary,
    Scenario.summaryOf Scenario.undatedCall = Some summary /\
    exists item,
      item ∈ Engagements.EngagementSummary.items (entryOf summary Engagements.calls) /\
      Engagements.Summary.recentActivity summary = "Most recent: calls on unknown date".
Proof.
  destruct (Scenario.summaryOf Scenario.undatedCall) as [summary|] eqn:Hsummary;
    [|vm_compute in Hsummary; discriminate Hsummary].
  exists summary. split; [reflexivity|].
  destruct (recentActivity_names_a_fetched_item Scenario.undatedCall "42" [] summary Hsummary)
    as [[Hnone _]|(kind & item & Hitem & Hrecent)];
    vm_compute in Hsummary; injection Hsummary as <-.
  - vm_compute in Hnone. discriminate Hnone.
  - destruct kind; vm_compute in Hitem;
      try (by apply elem_of_nil in Hitem).
    exists item. split; [exact Hitem|]. vm_compute. reflexivity.
Defined.

(** ** Errors of the remote *)

Lemma sent_none {A} (trace : list A) (req : A) : trace <> trace ++ [req].
Proof.
  intros H. apply (f_equal length) in H. rewrite length_app in H. cbn in H. lia.
Qed.

Lemma sent_one {A} (trace : list A) (a b : A) : trace ++ [a] = trace ++ [b] -> a = b.
Proof. intros H. apply app_inv_head in H. by injection H. Qed.

Lemma send_reports req rt trace :
  let r := CreateContact.send req rt trace in
  r.2 = trace ++ [req] /\
  CreateContact.Result.error r.1 = errorOf (remote rt trace req) /\
  CreateContact.Result.status r.1 = statusOf (remote rt trace req).
Proof.
  cbn zeta. unfold CreateContact.send. run. unfold errorOf, statusOf.
  destruct (remote rt trace req) as [res|]; [|done].
  destruct (Response.json res); [|done]. by destruct (Response.ok res).
Qed.

(** X13. The single-call functions report the remote's failure and
    nothing else.  Whenever one of them has sent a request, its [error] is
    the message thrown by the transport or by the JSON parser, or, for a
    non-success status, the [message] of the body or else the body as JSON
    text, and it is absent on success; a write reports the HTTP status
    exactly for a non-success answer with a JSON body.  The search, which
    reads the results of a success body and the id of the first result
    without a guard, has failures of its own: on a success whose body is
    JSON null, or whose first result is, its [error] is the engine's message
    for that read. *)
Theorem remote_errors_are_reported (rt : Runtime) (trace : list Request) (req : Request) :
  let answer := remote rt trace req in
  (forall input,
     let r := CreateContact.createContact input rt trace in
     r.2 = trace ++ [req] ->
     CreateContact.Result.error r.1 = errorOf answer /\
     CreateContact.Result.status r.1 = statusOf answer) /\
  (forall input,
     let r := CreateContact.updateContact input rt trace in
     r.2 = trace ++ [req] ->
     CreateContact.Result.error r.1 = errorOf answer /\
     CreateContact.Result.status r.1 = statusOf answer) /\
  (forall input,
     let r := Deals.updateDealStage input rt trace in
     r.2 = trace ++ [req] ->
     Deals.UpdateDealStageResult.error r.1 = errorOf answer /\
     Deals.UpdateDealStageResult.status r.1 = statusOf answer) /\
  (let r := Deals.getDealPipelines rt trace in
   r.2 = trace ++ [req] -> Deals.GetPipelinesResult.error r.1 = errorOf answer) /\
  (forall dealId,
     let r := Deals.getDealById dealId rt trace in
     r.2 = trace ++ [req] -> Deals.DealResult.error r.1 = errorOf answer) /\
  (forall email,
     let r := Engagements.searchContactByEmail email rt trace in
     r.2 = trace ++ [req] ->
     Engagements.SearchResult.error r.1 =
       match searchThrows rt answer with
       | Some message => Some message
       | None => errorOf answer
       end).
Proof.
  cbn zeta. split; [|split; [|split; [|split; [|split]]]].
  - intros input. unfold CreateContact.createContact. run.
    destruct (env rt "HUBSPOT_PRIVATE_APP_TOKEN") as [[|c s]|];
      try (intros H; by apply sent_none in H).
    destruct (CreateContact.collectProperties _ _ _ _ _) as [|property properties];
      [intros H; by apply sent_none in H|].
    set (request := CreateContact.createRequest _ _ _).
    destruct (send_reports request rt trace) as (Hsent & Herror & Hstatus).
    cbn zeta in *. rewrite Hsent. intros <-%sent_one. by split.
  - intros input. unfold CreateContact.updateContact. run.
    destruct (env rt "HUBSPOT_PRIVATE_APP_TOKEN") as [[|c s]|];
      try (intros H; by apply sent_none in H).
    destruct (CreateContact.UpdateInput.contactId input) as [|c0 s0];
      [intros H; by apply sent_none in H|].
    destruct (CreateContact.collectProperties _ _ _ _ _) as [|property properties];
      [intros H; by apply sent_none in H|].
    set (request := CreateContact.updateRequest _ _ _ _).
    destruct (send_reports request rt trace) as (Hsent & Herror & Hstatus).
    cbn zeta in *. rewrite Hsent. intros <-%sent_one. by split.
  - intros input. unfold Deals.updateDealStage. run.
    destruct (env rt "HUBSPOT_PRIVATE_APP_TOKEN") as [[|c s]|];
      try (intros H; by apply sent_none in H).
    destruct (Deals.UpdateDealStageInput.dealId input) as [|c0 s0];
      [intros H; by apply sent_none in H|].
    destruct (Deals.UpdateDealStageInput.dealstage input) as [|c1 s1];
      [intros H; by apply sent_none in H|].
    run. unfold errorOf, statusOf.
    destruct (remote rt trace _) as [res|] eqn:Hres.
    + destruct (Response.json res) eqn:Hjson; destruct (Response.ok res) eqn:Hok;
        cbn [negb snd fst]; intros <-%sent_one; by rewrite Hres, Hjson, ?Hok.
    + cbn [snd fst]. intros <-%sent_one. by rewrite Hres.
  - unfold Deals.getDealPipelines. run.
    destruct (env rt "HUBSPOT_PRIVATE_APP_TOKEN") as [[|c s]|];
      try (intros H; by apply sent_none in H).
    run. unfold errorOf.
    destruct (remote rt trace _) as [res|] eqn:Hres.
    + destruct (Response.json res) eqn:Hjson; destruct (Response.ok res) eqn:Hok;
        cbn [negb snd fst]; intros <-%sent_one; by rewrite Hres, Hjson, ?Hok.
    + cbn [snd fst]. intros <-%sent_one. by rewrite Hres.
  - intros dealId. unfold Deals.getDealById, Deals.lookup. run.
    destruct (env rt "HUBSPOT_PRIVATE_APP_TOKEN") as [[|c s]|];
      try (intros H; by apply sent_none in H).
    run. unfold errorOf.
    destruct (remote rt trace _) as [res|] eqn:Hres.
    + destruct (Response.json res) eqn:Hjson; destruct (Response.ok res) eqn:Hok;
        cbn [negb snd fst]; intros <-%sent_one; by rewrite Hres, Hjson, ?Hok.
    + cbn [snd fst]. intros <-%sent_one. by rewrite Hres.
  - intros email. unfold Engagements.searchContactByEmail. run.
    destruct (env rt "HUBSPOT_PRIVATE_APP_TOKEN") as [[|c s]|];
      try (intros H; by apply sent_none in H).
    run. unfold errorOf, searchThrows.
    destruct (remote rt trace _) as [res|] eqn:Hres;
      [|cbn [snd fst]; intros <-%sent_one; by rewrite Hres].
    destruct (Response.json res) as [parsed|] eqn:Hjson; destruct (Response.ok res) eqn:Hok;
      cbn [negb snd fst];
      try (intros <-%sent_one; by rewrite Hres, Hjson, ?Hok).
    destruct parsed as [|truthy text|members]; cbn [Json.nullish]; run.
    + intros <-%sent_one. by rewrite Hres, Hjson, Hok.
    + intros <-%sent_one. by rewrite Hres, Hjson, Hok.
    + destruct (Json.results _) as [[|[|entry] rest]|] eqn:Hresults; run;
        intros <-%sent_one; rewrite Hres, Hjson, Hok; cbn [negb]; by rewrite Hresults.
Qed.

(** ** The summary tool *)

Lemma run_emailAccepted email rt trace :
  emailAccepted email rt trace = (acceptedBy rt email, trace).
Proof. reflexivity. Qed.

Lemma envelopeOf_spread result text :
  envelopeOf (SkillTools.GetContactActivitySummaryTool.spread result text) = result.
Proof. by destruct result. Qed.

(** The tool on a resolved contact identifier. *)
Lemma run_summarize c s rt trace :
  let lib := Engagements.getContactActivitySummary (String c s) rt trace in
  let r := SkillTools.GetContactActivitySummaryTool.summarize (Some (String c s)) rt trace in
  r.2 = lib.2 /\ envelopeOf r.1 = lib.1 /\
  SkillTools.GetContactActivitySummaryTool.Result.summaryText r.1 =
    if Engagements.ContactActivitySummaryResult.ok lib.1
    then Some (Skill.generateActivitySummaryText lib.1) else None.
Proof.
  cbn zeta. unfold SkillTools.GetContactActivitySummaryTool.summarize. rewrite run_bind.
  destruct (summary_wf (String c s) rt trace) as [_ Hsummary]. cbn zeta in Hsummary.
  destruct (Engagements.getContactActivitySummary (String c s) rt trace) as [lib sent].
  cbn [fst snd] in *.
  destruct (Engagements.ContactActivitySummaryResult.ok lib) eqn:Hok.
  - destruct Hsummary as [[summary Hsome] _]; [done|]. rewrite Hsome, run_ret. cbn [fst snd].
    by rewrite envelopeOf_spread.
  - rewrite run_ret. cbn [fst snd]. by rewrite envelopeOf_spread.
Qed.

(** X14. The getContactActivitySummary tool resolves the contact before
    summarising, on an input its schema accepts.  A non-empty contactId is
    used as it is, and nothing is searched even when an email is given too.
    Without contactId and email nothing is sent and the error is "Either
    contactId or email must be provided".  With an email alone the contact
    is searched first: a failed search gives "Failed to search for contact:
    <error>", a search without a contact identifier gives "No contact found
    with email <email>", both after the search request alone; otherwise the
    found identifier is summarised, after the search. *)
Theorem summary_tool_resolves_contact (rt : Runtime) (trace : list Request)
    (input : SkillTools.GetContactActivitySummaryTool.Input.t) :
  acceptedBy rt (SkillTools.GetContactActivitySummaryTool.Input.email input) = true ->
  let contactId := SkillTools.GetContactActivitySummaryTool.Input.contactId input in
  let email := SkillTools.GetContactActivitySummaryTool.Input.email input in
  let r := SkillTools.GetContactActivitySummaryTool.execute input rt trace in
  let summaryFor id before :=
    let lib := Engagements.getContactActivitySummary id rt before in
    exists result, r.1 = Returned result /\ envelopeOf result = lib.1 /\ r.2 = lib.2 in
  let refused message sent :=
    r = (Returned (SkillTools.GetContactActivitySummaryTool.failure message), sent) in
  (forall id, contactId = Some id -> id <> EmptyString -> summaryFor id trace) /\
  (Js.truthy contactId = false -> Js.truthy email = false ->
   refused "Either contactId or email must be provided" trace) /\
  (Js.truthy contactId = false ->
   forall address, email = Some address -> address <> EmptyString ->
     let found := Engagements.searchContactByEmail address rt trace in
     (Engagements.SearchResult.ok found.1 = false ->
      refused ("Failed to search for contact: "
                 +:+ templated (Engagements.SearchResult.error found.1)) found.2) /\
     (Engagements.SearchResult.ok found.1 = true ->
      Js.truthy (Engagements.SearchResult.contactId found.1) = false ->
      refused ("No contact found with email " +:+ address) found.2) /\
     (Engagements.SearchResult.ok found.1 = true ->
      forall id, Engagements.SearchResult.contactId found.1 = Some id -> id <> EmptyString ->
        summaryFor id found.2)).
Proof.
  intros Haccepted contactId email r summaryFor refused.
  assert (Hr : r =
    (let k := match Js.truthy contactId, email with
              | false, Some (String c s) =>
                  searchResult ← Engagements.searchContactByEmail (String c s);
                  if negb (Engagements.SearchResult.ok searchResult) then
                    mret (Returned (SkillTools.GetContactActivitySummaryTool.failure
                            ("Failed to search for contact: "
                               +:+ templated (Engagements.SearchResult.error searchResult))))
                  else if negb (Js.truthy (Engagements.SearchResult.contactId searchResult))
                  then
                    mret (Returned (SkillTools.GetContactActivitySummaryTool.failure
                            ("No contact found with email " +:+ String c s)))
                  else
                    result ← SkillTools.GetContactActivitySummaryTool.summarize
                               (Engagements.SearchResult.contactId searchResult);
                    mret (Returned result)
              | _, _ =>
                  result ← SkillTools.GetContactActivitySummaryTool.summarize contactId;
                  mret (Returned result)
              end in k rt trace)).
  { subst r. unfold SkillTools.GetContactActivitySummaryTool.execute.
    rewrite run_bind, run_emailAccepted. cbn [fst snd]. rewrite Haccepted. reflexivity. }
  cbn zeta in Hr. subst summaryFor refused. cbn beta zeta.
  split; [|split].
  - intros id -> Hid. destruct id as [|c s]; [done|]. cbn [Js.truthy] in Hr.
    rewrite run_bind, run_ret in Hr.
    destruct (run_summarize c s rt trace) as (Hsent & Henvelope & _). cbn zeta in *.
    eexists. rewrite Hr. cbn [fst snd]. by split.
  - intros Hid Hemail. rewrite Hr, Hid.
    destruct email as [[|c s]|]; [|discriminate Hemail|];
      by destruct contactId as [[|c' s']|].
  - intros Hid address Hemail Haddress. destruct address as [|c s]; [done|].
    rewrite Hid, Hemail, run_bind in Hr.
    set (found := Engagements.searchContactByEmail (String c s) rt trace) in *.
    split; [|split].
    + intros Hok. rewrite Hr, Hok. reflexivity.
    + intros Hok Hnone. rewrite Hr, Hok. cbn [negb]. rewrite Hnone. reflexivity.
    + intros Hok id Hfound Hne. destruct id as [|c' s']; [done|].
      rewrite Hok, Hfound in Hr. cbn [negb Js.truthy] in Hr.
      rewrite run_bind, run_ret in Hr.
      destruct (run_summarize c' s' rt found.2) as (Hsent & Henvelope & _). cbn zeta in *.
      eexists. rewrite Hr. cbn [fst snd]. by split.
Qed.

(** Jane is summarised by her identifier without a search, even when her
    address is given too; an input without either is refused. *)
Lemma summary_tool_resolves_contact_witness :
  (exists result,
     (SkillTools.GetContactActivitySummaryTool.execute
        (More.summaryInput (Some "42") (Some "jane@example.com")) More.janeByEmail []).1 =
       Returned result /\
     (SkillTools.GetContactActivitySummaryTool.execute
        (More.summaryInput (Some "42") (Some "jane@example.com")) More.janeByEmail []).2 =
       (Engagements.getContactActivitySummary "42" More.janeByEmail []).2) /\
  SkillTools.GetContactActivitySummaryTool.execute (More.summaryInput None None)
    More.janeByEmail [] =
    (Returned (SkillTools.GetContactActivitySummaryTool.failure
                 "Either contactId or email must be provided"), []).
Proof.
  pose proof (summary_tool_resolves_contact More.janeByEmail []
                (More.summaryInput (Some "42") (Some "jane@example.com")) eq_refl) as Hboth.
  pose proof (summary_tool_resolves_contact More.janeByEmail []
                (More.summaryInput None None) eq_refl) as Hneither.
  cbn zeta in Hboth, Hneither.
  destruct Hboth as (Hid & _). destruct Hneither as (_ & Hnone & _).
  split.
  - destruct (Hid "42") as (result & Hresult & _ & Hsent); [reflexivity|discriminate|].
    exists result. by split.
  - apply Hnone; reflexivity.
Defined.

(** X15. The envelope the getContactActivitySummary tool returns is well
    formed: [ok] is true exactly when there is no [error], exactly when there
    is a [summary], and exactly when there is a [summaryText]; the text is
    the rendering of the envelope it comes with. *)
Theorem summary_tool_envelope (rt : Runtime) (trace : list Request)
    (input : SkillTools.GetContactActivitySummaryTool.Input.t)
    (result : SkillTools.GetContactActivitySummaryTool.Result.t) :
  (SkillTools.GetContactActivitySummaryTool.execute input rt trace).1 = Returned result ->
  let ok := SkillTools.GetContactActivitySummaryTool.Result.ok result in
  (ok = true <-> SkillTools.GetContactActivitySummaryTool.Result.error result = None) /\
  (ok = true <-> is_Some (SkillTools.GetContactActivitySummaryTool.Result.summary result)) /\
  (ok = true <->
   SkillTools.GetContactActivitySummaryTool.Result.summaryText result =
     Some (Skill.generateActivitySummaryText (envelopeOf result))) /\
  (ok = false ->
   SkillTools.GetContactActivitySummaryTool.Result.summaryText result = None).
Proof.
  assert (Hfailure : forall message,
    let result := SkillTools.GetContactActivitySummaryTool.failure message in
    let ok := SkillTools.GetContactActivitySummaryTool.Result.ok result in
    (ok = true <-> SkillTools.GetContactActivitySummaryTool.Result.error result = None) /\
    (ok = true <-> is_Some (SkillTools.GetContactActivitySummaryTool.Result.summary result)) /\
    (ok = true <->
     SkillTools.GetContactActivitySummaryTool.Result.summaryText result =
       Some (Skill.generateActivitySummaryText (envelopeOf result))) /\
    (ok = false ->
     SkillTools.GetContactActivitySummaryTool.Result.summaryText result = None)).
  { intros message. settle. }
  assert (Hsummarize : forall contactId before,
    let result := (SkillTools.GetContactActivitySummaryTool.summarize contactId rt before).1 in
    let ok := SkillTools.GetContactActivitySummaryTool.Result.ok result in
    (ok = true <-> SkillTools.GetContactActivitySummaryTool.Result.error result = None) /\
    (ok = true <-> is_Some (SkillTools.GetContactActivitySummaryTool.Result.summary result)) /\
    (ok = true <->
     SkillTools.GetContactActivitySummaryTool.Result.summaryText result =
       Some (Skill.generateActivitySummaryText (envelopeOf result))) /\
    (ok = false ->
     SkillTools.GetContactActivitySummaryTool.Result.summaryText result = None)).
  { intros [[|c s]|] before; [apply Hfailure| |apply Hfailure].
    destruct (run_summarize c s rt before) as (_ & Henvelope & Htext).
    destruct (summary_wf (String c s) rt before) as [Herror Hsummary].
    cbn zeta in *.
    set (res := (SkillTools.GetContactActivitySummaryTool.summarize _ rt before).1) in *.
    set (lib := (Engagements.getContactActivitySummary _ rt before).1) in *.
    rewrite Htext, Henvelope.
    replace (SkillTools.GetContactActivitySummaryTool.Result.ok res)
      with (Engagements.ContactActivitySummaryResult.ok lib) by by rewrite <- Henvelope.
    replace (SkillTools.GetContactActivitySummaryTool.Result.error res)
      with (Engagements.ContactActivitySummaryResult.error lib) by by rewrite <- Henvelope.
    replace (SkillTools.GetContactActivitySummaryTool.Result.summary res)
      with (Engagements.ContactActivitySummaryResult.summary lib) by by rewrite <- Henvelope.
    split; [exact Herror|]. split; [exact Hsummary|].
    destruct (Engagements.ContactActivitySummaryResult.ok lib); by split. }
  unfold SkillTools.GetContactActivitySummaryTool.execute.
  rewrite run_bind, run_emailAccepted. cbn [fst snd].
  destruct (acceptedBy rt _); [|discriminate].
  destruct (Js.truthy _), (SkillTools.GetContactActivitySummaryTool.Input.email input)
    as [[|c s]|]; rewrite run_bind;
    try (rewrite run_ret; cbn [fst]; intros [= <-]; apply Hsummarize).
  destruct (Engagements.SearchResult.ok _); cbn [negb];
    [|rewrite run_ret; cbn [fst]; intros [= <-]; apply Hfailure].
  destruct (Js.truthy _); cbn [negb];
    [|rewrite run_ret; cbn [fst]; intros [= <-]; apply Hfailure].
  rewrite run_bind, run_ret. cbn [fst]. intros [= <-]. apply Hsummarize.
Qed.

(** Jane, found by her address, comes with the text of her summary. *)
Lemma summary_tool_envelope_witness :
  exists result,
    (SkillTools.GetContactActivitySummaryTool.execute
       (More.summaryInput None (Some "jane@example.com")) More.janeByEmail []).1 =
      Returned result /\
    SkillTools.GetContactActivitySummaryTool.Result.ok result = true /\
    SkillTools.GetContactActivitySummaryTool.Result.summaryText result =
      Some (Skill.generateActivitySummaryText (envelopeOf result)).
Proof.
  destruct (SkillTools.GetContactActivitySummaryTool.execute
              (More.summaryInput None (Some "jane@example.com")) More.janeByEmail []).1
    as [result|] eqn:Hresult; [|vm_compute in Hresult; discriminate Hresult].
  exists result. split; [reflexivity|].
  destruct (summary_tool_envelope More.janeByEmail [] _ result Hresult)
    as (_ & _ & Htext & _).
  assert (Hok : SkillTools.GetContactActivitySummaryTool.Result.ok result = true).
  { vm_compute in Hresult. injection Hresult as <-. reflexivity. }
  split; [exact Hok|]. by apply Htext.
Defined.

(** ** The stand-alone tools and the skill tools *)

(** X16. The stand-alone createContact and updateContact tools, which
    repeat the library code inline, behave exactly as the skill's tools built
    on the library: same result and same requests, for every input, remote
    and configuration. *)
Theorem standalone_contact_tools_agree (rt : Runtime) (trace : list Request) :
  (forall input,
     CreateContactToolFile.execute input rt trace =
     SkillTools.CreateContactTool.execute input rt trace) /\
  (forall input,
     UpdateContactToolFile.execute input rt trace =
     SkillTools.UpdateContactTool.execute input rt trace).
Proof.
  split; intros input.
  - unfold CreateContactToolFile.execute, SkillTools.CreateContactTool.execute,
      CreateContact.createContact, CreateContact.send.
    rewrite !run_bind, run_emailAccepted. cbn [fst snd].
    destruct (acceptedBy rt _); [|reflexivity]. run.
    destruct (env rt "HUBSPOT_PRIVATE_APP_TOKEN") as [[|c s]|]; try reflexivity.
    fold (CreateContact.collectProperties (CreateContact.Input.email input)
            (CreateContact.Input.firstname input) (CreateContact.Input.lastname input)
            (CreateContact.Input.phone input) (CreateContact.Input.company input)).
    destruct (CreateContact.collectProperties _ _ _ _ _) as [|property properties];
      [reflexivity|].
    run. unfold CreateContact.createRequest.
    destruct (remote rt trace _) as [res|]; [|reflexivity].
    destruct (Response.json res); [|reflexivity].
    by destruct (negb (Response.ok res)).
  - unfold UpdateContactToolFile.execute, SkillTools.UpdateContactTool.execute,
      CreateContact.updateContact, CreateContact.send.
    rewrite !run_bind, run_emailAccepted. cbn [fst snd].
    destruct (acceptedBy rt _); [|reflexivity]. run.
    destruct (env rt "HUBSPOT_PRIVATE_APP_TOKEN") as [[|c s]|]; try reflexivity.
    destruct (CreateContact.UpdateInput.contactId input) as [|c0 s0]; [reflexivity|].
    fold (CreateContact.collectProperties (CreateContact.UpdateInput.email input)
            (CreateContact.UpdateInput.firstname input)
            (CreateContact.UpdateInput.lastname input)
            (CreateContact.UpdateInput.phone input)
            (CreateContact.UpdateInput.company input)).
    destruct (CreateContact.collectProperties _ _ _ _ _) as [|property properties];
      [reflexivity|].
    run. unfold CreateContact.updateRequest.
    destruct (remote rt trace _) as [res|]; [|reflexivity].
    destruct (Response.json res); [|reflexivity].
    by destruct (negb (Response.ok res)).
Qed.

(** X17. With a credential configured and a non-empty deal identifier and
    stage, the updateDealStage tool of the skill file and the stand-alone one
    return the same result and send the same requests. *)
Theorem updateDealStage_tools_agree (rt : Runtime) (trace : list Request)
    (input : Deals.UpdateDealStageInput.t) :
  Js.truthy (env rt "HUBSPOT_PRIVATE_APP_TOKEN") = true ->
  Deals.UpdateDealStageInput.dealId input <> EmptyString ->
  Deals.UpdateDealStageInput.dealstage input <> EmptyString ->
  Skill.UpdateDealStageTool.execute input rt trace =
  UpdateDealStageToolFile.execute input rt trace.
Proof.
  intros Htoken Hid Hstage.
  unfold Skill.UpdateDealStageTool.execute, UpdateDealStageToolFile.execute,
    Deals.getDealById, Deals.updateDealStage.
  cbn zeta. run. fold (baseUrlOf rt).
  rewrite (env_token rt Htoken).
  destruct (token_nonempty rt Htoken) as (c & s & Htok). rewrite Htok.
  cbn [Deals.UpdateDealStageInput.dealId Deals.UpdateDealStageInput.dealstage].
  destruct (Deals.UpdateDealStageInput.dealId input) as [|c0 s0]; [done|].
  destruct (Deals.UpdateDealStageInput.dealstage input) as [|c1 s1]; [done|].
  rewrite ?run_bind.
  change (UpdateDealStageToolFile.getDealById (String c0 s0) (String c s) (baseUrlOf rt))
    with (Deals.lookup (String c0 s0) (String c s) (baseUrlOf rt)).
  destruct (Deals.lookup _ _ _ rt trace) as [found sent]. cbn [fst snd].
  destruct (Deals.DealResult.ok found); cbn [negb]; [|reflexivity].
  run. fold (baseUrlOf rt). rewrite (env_token rt Htoken), Htok. run.
  destruct (remote rt sent _) as [res|]; [|reflexivity].
  destruct (Response.json res); [|reflexivity].
  by destruct (negb (Response.ok res)).
Qed.

(** Moving the known deal to closed-won gives the same run in both tools. *)
Lemma updateDealStage_tools_agree_witness :
  Skill.UpdateDealStageTool.execute Scenario.dealInput Scenario.dealKnown [] =
  UpdateDealStageToolFile.execute Scenario.dealInput Scenario.dealKnown [].
Proof.
  apply (updateDealStage_tools_agree Scenario.dealKnown [] Scenario.dealInput);
    [vm_compute; reflexivity|discriminate|discriminate].
Defined.

(** X18. Where the two updateDealStage tools differ.  On an empty stage,
    once the deal is found, the skill's tool returns "Deal stage is
    required." after the lookup alone, while the stand-alone tool sends a
    PATCH with the empty stage.  Without a credential both send nothing, but
    the skill's tool reports "Could not find deal with ID <dealId>: Missing
    HUBSPOT_PRIVATE_APP_TOKEN in environment." and the stand-alone tool the
    missing-credential message itself. *)
Theorem updateDealStage_tools_differ (rt : Runtime) (trace : list Request)
    (dealId : string) (notes : option string) :
  let lookup := Deals.dealRequest dealId (tokenOf rt) (baseUrlOf rt) in
  let input dealstage :=
    {| Deals.UpdateDealStageInput.dealId := dealId;
       Deals.UpdateDealStageInput.dealstage := dealstage;
       Deals.UpdateDealStageInput.notes := notes |} in
  (Js.truthy (env rt "HUBSPOT_PRIVATE_APP_TOKEN") = true ->
   dealId <> EmptyString ->
   Deals.DealResult.ok (Deals.getDealById dealId rt trace).1 = true ->
   Skill.UpdateDealStageTool.execute (input EmptyString) rt trace =
     (dealToolFailure "Deal stage is required.", trace ++ [lookup]) /\
   (UpdateDealStageToolFile.execute (input EmptyString) rt trace).2 =
     trace ++ [lookup; Deals.patchRequest dealId EmptyString (tokenOf rt) (baseUrlOf rt)]) /\
  (Js.truthy (env rt "HUBSPOT_PRIVATE_APP_TOKEN") = false ->
   forall dealstage,
     Skill.UpdateDealStageTool.execute (input dealstage) rt trace =
       (dealToolFailure (couldNotFind dealId (Some missingToken)), trace) /\
     UpdateDealStageToolFile.execute (input dealstage) rt trace =
       (dealToolFailure missingToken, trace)).
Proof.
  cbn zeta. split.
  - intros Htoken Hid.
    unfold Skill.UpdateDealStageTool.execute, UpdateDealStageToolFile.execute,
      Deals.getDealById, Deals.updateDealStage.
    cbn zeta. run. fold (baseUrlOf rt).
    rewrite (env_token rt Htoken).
    destruct (token_nonempty rt Htoken) as (c & s & Htok). rewrite Htok, <- Htok.
    cbn [Deals.UpdateDealStageInput.dealId Deals.UpdateDealStageInput.dealstage].
    rewrite ?run_bind.
    change (UpdateDealStageToolFile.getDealById dealId (tokenOf rt) (baseUrlOf rt))
      with (Deals.lookup dealId (tokenOf rt) (baseUrlOf rt)).
    destruct (run_lookup dealId (tokenOf rt) (baseUrlOf rt) rt trace) as (Hsent & _).
    destruct (Deals.lookup _ _ _ rt trace) as [found sent]. cbn [fst snd] in *. subst sent.
    intros ->. cbn [negb]. run. fold (baseUrlOf rt). rewrite (env_token rt Htoken), Htok.
    split.
    + by destruct dealId.
    + run. rewrite <- app_assoc. cbn [app].
      destruct (remote rt _ _) as [res|]; [|reflexivity].
      destruct (Response.json res); [|reflexivity].
      by destruct (negb (Response.ok res)).
  - intros Htoken dealstage.
    unfold Skill.UpdateDealStageTool.execute, UpdateDealStageToolFile.execute,
      Deals.getDealById.
    cbn zeta. run.
    by destruct (falsy_cases _ Htoken) as [-> | ->].
Qed.

(** ** The two createContactFromChat tools *)

Lemma chat_properties c s firstname lastname phone company :
  CreateContact.setIf "company" company
    (CreateContact.setIf "phone" phone
       (CreateContact.setIf "lastname" lastname
          (CreateContact.setIf "firstname" firstname [("email", String c s)]))) =
  CreateContact.collectProperties (Some (String c s)) firstname lastname phone company.
Proof. reflexivity. Qed.

(** The create step of the two versions, from the same point of a run. *)
Lemma afterSearch_agree rt before parsed found1 found2 :
  ChatInput.email parsed <> EmptyString ->
  Js.truthy (env rt "HUBSPOT_PRIVATE_APP_TOKEN") = true ->
  Engagements.SearchResult.ok found1 &&
    Js.truthy (Engagements.SearchResult.contactId found1) = false ->
  Engagements.SearchResult.ok found2 &&
    Js.truthy (Engagements.SearchResult.contactId found2) = false ->
  let skill := Skill.CreateContactFromChatTool.afterSearch parsed found1 rt before in
  let file :=
    CreateContactFromChatToolFile.afterSearch parsed (tokenOf rt) (baseUrlOf rt) found2
      rt before in
  skill.2 = file.2 /\ withoutStatus skill.1 = file.1.
Proof.
  intros Hmail Htoken Hnew1 Hnew2. cbn zeta.
  assert (Hskill : Skill.CreateContactFromChatTool.afterSearch parsed found1 rt before =
    (result ← CreateContact.createContact
                 {| CreateContact.Input.email := Some (ChatInput.email parsed);
                    CreateContact.Input.firstname := ChatInput.firstname parsed;
                    CreateContact.Input.lastname := ChatInput.lastname parsed;
                    CreateContact.Input.phone := ChatInput.phone parsed;
                    CreateContact.Input.company := ChatInput.company parsed |};
     if CreateContact.Result.ok result then
       mret (Returned (chatOfCreate result (Some false)
                         (Some (createdMessage (ChatInput.email parsed)))
                         (ChatInput.chatSummary parsed)))
     else mret (Returned (chatOfCreate result None None None))) rt before).
  { unfold Skill.CreateContactFromChatTool.afterSearch.
    destruct (Engagements.SearchResult.ok found1),
      (Engagements.SearchResult.contactId found1) as [[|c1 s1]|];
      try reflexivity; cbn in Hnew1; discriminate. }
  assert (Hfile : CreateContactFromChatToolFile.afterSearch parsed (tokenOf rt) (baseUrlOf rt)
                    found2 rt before =
    (result ← CreateContactFromChatToolFile.createContact
                 (CreateContact.setIf "company" (ChatInput.company parsed)
                    (CreateContact.setIf "phone" (ChatInput.phone parsed)
                       (CreateContact.setIf "lastname" (ChatInput.lastname parsed)
                          (CreateContact.setIf "firstname" (ChatInput.firstname parsed)
                             [("email", ChatInput.email parsed)]))))
                 (tokenOf rt) (baseUrlOf rt);
     if CreateContact.Result.ok result then
       mret (Returned (chatOfCreate result (Some false)
                         (Some (createdMessage (ChatInput.email parsed)))
                         (ChatInput.chatSummary parsed)))
     else mret (Returned (chatOfCreate result None None None))) rt before).
  { unfold CreateContactFromChatToolFile.afterSearch.
    destruct (Engagements.SearchResult.ok found2),
      (Engagements.SearchResult.contactId found2) as [[|c1 s1]|];
      try reflexivity; cbn in Hnew2; discriminate. }
  rewrite Hskill, Hfile. clear Hskill Hfile.
  destruct (ChatInput.email parsed) as [|c s] eqn:Hemail; [done|].
  rewrite chat_properties.
  destruct (collectProperties_email c s (ChatInput.firstname parsed)
              (ChatInput.lastname parsed) (ChatInput.phone parsed) (ChatInput.company parsed))
    as (others & Hothers).
  unfold CreateContact.createContact, CreateContactFromChatToolFile.createContact,
    CreateContact.send.
  run. fold (baseUrlOf rt). rewrite (env_token rt Htoken).
  destruct (token_nonempty rt Htoken) as (c0 & s0 & Htok). rewrite Htok.
  cbn [CreateContact.Input.email CreateContact.Input.firstname
       CreateContact.Input.lastname CreateContact.Input.phone CreateContact.Input.company].
  rewrite Hothers. run.
  destruct (remote rt before _) as [res|]; [|by split].
  destruct (Response.json res); [|by split].
  by destruct (negb (Response.ok res)).
Qed.

(** X19. On a non-empty email the two versions of the createContactFromChat
    tool send the same requests, and the stand-alone tool returns what the
    skill's tool returns, except that it never reports an HTTP status. *)
Theorem createContactFromChat_tools_agree (rt : Runtime) (trace : list Request)
    (input : ChatInput.t) :
  ChatInput.email input <> EmptyString ->
  let skill := Skill.CreateContactFromChatTool.execute input rt trace in
  let file := CreateContactFromChatToolFile.execute input rt trace in
  skill.2 = file.2 /\ withoutStatus skill.1 = file.1.
Proof.
  intros Hmail. cbn zeta.
  unfold Skill.CreateContactFromChatTool.execute, CreateContactFromChatToolFile.execute,
    parseChatInput.
  rewrite !run_bind. cbn [fst snd].
  destruct (zod_email rt (ChatInput.email input)); [|by split].
  rewrite ?run_bind.
  destruct (Js.truthy (env rt "HUBSPOT_PRIVATE_APP_TOKEN")) eqn:Htoken.
  - rewrite (searchContactByEmail_unfold rt trace _ Htoken). cbn [fst snd]. run.
    fold (baseUrlOf rt). rewrite (env_token rt Htoken).
    destruct (token_nonempty rt Htoken) as (c & s & Htok). rewrite Htok, <- Htok.
    unfold CreateContactFromChatToolFile.searchContactByEmail. run.
    destruct (remote rt trace _) as [res|];
      [|by apply afterSearch_agree].
    destruct (Response.json res) as [parsed|]; [|by apply afterSearch_agree].
    destruct (Response.ok res); cbn [negb andb]; [|by apply afterSearch_agree].
    destruct (Json.nullish parsed); [run; by apply afterSearch_agree|].
    destruct (Json.results parsed) as [[|entry rest]|]; try by apply afterSearch_agree.
    destruct (Json.isNull entry); run; [by apply afterSearch_agree|].
    destruct (Json.entry_id entry) as [[|c1 s1]|];
      [by apply afterSearch_agree| |by apply afterSearch_agree].
    by split.
  - unfold Engagements.searchContactByEmail, Skill.CreateContactFromChatTool.afterSearch,
      CreateContact.createContact.
    destruct (falsy_cases _ Htoken) as [Henv | Henv];
      repeat progress (run; rewrite ?Henv; cbn); by split.
Qed.

(** Both versions send the same requests for a new visitor. *)
Lemma createContactFromChat_tools_agree_witness :
  (Skill.CreateContactFromChatTool.execute Scenario.sarah Scenario.sarahNew []).2 =
  (CreateContactFromChatToolFile.execute Scenario.sarah Scenario.sarahNew []).2.
Proof.
  pose proof (createContactFromChat_tools_agree Scenario.sarahNew [] Scenario.sarah) as Hagree.
  cbn zeta in Hagree. destruct Hagree as [Hsent _]; [discriminate|exact Hsent].
Defined.

Lemma afterSearch_new parsed found rt before :
  Engagements.SearchResult.ok found &&
    Js.truthy (Engagements.SearchResult.contactId found) = false ->
  exists result,
    (Skill.CreateContactFromChatTool.afterSearch parsed found rt before).1 = Returned result /\
    ChatResult.alreadyExists result <> Some true.
Proof.
  intros Hnew. unfold Skill.CreateContactFromChatTool.afterSearch.
  destruct (Engagements.SearchResult.ok found),
    (Engagements.SearchResult.contactId found) as [[|c1 s1]|];
    try (cbn in Hnew; discriminate);
    rewrite run_bind; destruct (CreateContact.Result.ok _); rewrite run_ret;
    eexists; (split; [reflexivity|discriminate]).
Qed.

Lemma afterSearch_sent rt before parsed found :
  ChatInput.email parsed <> EmptyString ->
  Js.truthy (env rt "HUBSPOT_PRIVATE_APP_TOKEN") = true ->
  Engagements.SearchResult.ok found &&
    Js.truthy (Engagements.SearchResult.contactId found) = false ->
  (Skill.CreateContactFromChatTool.afterSearch parsed found rt before).2 =
    before ++ [chatCreateRequest rt parsed] /\
  (CreateContactFromChatToolFile.afterSearch parsed (tokenOf rt) (baseUrlOf rt) found
     rt before).2 = before ++ [chatCreateRequest rt parsed].
Proof.
  intros Hmail Htoken Hnew. unfold chatCreateRequest.
  destruct (ChatInput.email parsed) as [|c s] eqn:Hemail; [done|].
  destruct (collectProperties_email c s (ChatInput.firstname parsed)
              (ChatInput.lastname parsed) (ChatInput.phone parsed) (ChatInput.company parsed))
    as (others & Hothers).
  unfold Skill.CreateContactFromChatTool.afterSearch,
    CreateContactFromChatToolFile.afterSearch.
  rewrite Hemail, chat_properties.
  assert (Hskill : forall K : CreateContact.Result.t -> Net (Completion ChatResult.t),
    (forall result sent, (K result rt sent).2 = sent) ->
    ((CreateContact.createContact
        {| CreateContact.Input.email := Some (String c s);
           CreateContact.Input.firstname := ChatInput.firstname parsed;
           CreateContact.Input.lastname := ChatInput.lastname parsed;
           CreateContact.Input.phone := ChatInput.phone parsed;
           CreateContact.Input.company := ChatInput.company parsed |} ≫= K) rt before).2 =
    before ++ [CreateContact.createRequest
                 (CreateContact.collectProperties (Some (String c s))
                    (ChatInput.firstname parsed) (ChatInput.lastname parsed)
                    (ChatInput.phone parsed) (ChatInput.company parsed))
                 (tokenOf rt) (baseUrlOf rt)]).
  { intros K HK. rewrite run_bind, HK.
    unfold CreateContact.createContact. run. fold (baseUrlOf rt).
    rewrite (env_token rt Htoken).
    destruct (token_nonempty rt Htoken) as (c0 & s0 & Htok). rewrite Htok.
    cbn [CreateContact.Input.email CreateContact.Input.firstname
      CreateContact.Input.lastname CreateContact.Input.phone CreateContact.Input.company].
    rewrite Hothers. by rewrite run_send. }
  assert (Hfile : forall K : CreateContact.Result.t -> Net (Completion ChatResult.t),
    (forall result sent, (K result rt sent).2 = sent) ->
    ((CreateContactFromChatToolFile.createContact
        (CreateContact.collectProperties (Some (String c s))
           (ChatInput.firstname parsed) (ChatInput.lastname parsed)
           (ChatInput.phone parsed) (ChatInput.company parsed))
        (tokenOf rt) (baseUrlOf rt) ≫= K) rt before).2 =
    before ++ [CreateContact.createRequest
                 (CreateContact.collectProperties (Some (String c s))
                    (ChatInput.firstname parsed) (ChatInput.lastname parsed)
                    (ChatInput.phone parsed) (ChatInput.company parsed))
                 (tokenOf rt) (baseUrlOf rt)]).
  { intros K HK. by rewrite run_bind, HK, run_toolFile_createContact. }
  destruct (Engagements.SearchResult.ok found),
    (Engagements.SearchResult.contactId found) as [[|c1 s1]|];
    try (cbn in Hnew; discriminate);
    (split; [apply Hskill|apply Hfile]);
    intros result sent; by destruct (CreateContact.Result.ok result).
Qed.

(** X20. A failed duplicate check does not stop the creation.  On an
    accepted, non-empty email and with a credential configured, when the
    search fails (transport failure, non-success status, or a body that is
    not JSON), both versions of the createContactFromChat tool go on to send
    the create request, whose properties start with the email; the skill's
    tool then never reports [alreadyExists = true]. *)
Theorem createContactFromChat_creates_after_failed_search (rt : Runtime)
    (trace : list Request) (input : ChatInput.t) :
  zod_email rt (ChatInput.email input) = true ->
  ChatInput.email input <> EmptyString ->
  Js.truthy (env rt "HUBSPOT_PRIVATE_APP_TOKEN") = true ->
  reply_fails
    (remote rt trace
       (Engagements.searchRequest (ChatInput.email input) (tokenOf rt) (baseUrlOf rt))) ->
  let search := Engagements.searchRequest (ChatInput.email input) (tokenOf rt) (baseUrlOf rt) in
  let create := chatCreateRequest rt input in
  (Skill.CreateContactFromChatTool.execute input rt trace).2 = trace ++ [search; create] /\
  (CreateContactFromChatToolFile.execute input rt trace).2 = trace ++ [search; create] /\
  (exists others,
     body create = PropertiesPayload (("email", ChatInput.email input) :: others)) /\
  exists result,
    (Skill.CreateContactFromChatTool.execute input rt trace).1 = Returned result /\
    ChatResult.alreadyExists result <> Some true.
Proof.
  intros Hvalid Hmail Htoken Hfails search create. fold search in Hfails.
  pose proof (searchContactByEmail_unfold rt trace (ChatInput.email input) Htoken) as Hsearch.
  fold search in Hsearch. cbn zeta in Hsearch.
  set (viaFile := CreateContactFromChatToolFile.searchContactByEmail (ChatInput.email input)
                    (tokenOf rt) (baseUrlOf rt) rt trace).
  assert (Hfile : viaFile.2 = trace ++ [search] /\
            Engagements.SearchResult.ok viaFile.1 &&
              Js.truthy (Engagements.SearchResult.contactId viaFile.1) = false).
  { subst viaFile. unfold CreateContactFromChatToolFile.searchContactByEmail. run.
    fold search. destruct (remote rt trace search) as [res|]; [|by split].
    destruct (Response.json res) as [body|] eqn:Hbody; [|by split].
    destruct Hfails as [Hok|[message Hjson]]; [|congruence].
    rewrite Hok. by split. }
  destruct Hfile as [Hfile_sent Hfile_new].
  set (found := (Engagements.searchContactByEmail (ChatInput.email input) rt trace).1).
  assert (Hnew : Engagements.SearchResult.ok found &&
                   Js.truthy (Engagements.SearchResult.contactId found) = false).
  { subst found. rewrite Hsearch. cbn [fst].
    destruct (remote rt trace search) as [res|]; [|done].
    destruct (Response.json res) as [body|] eqn:Hbody; [|done].
    destruct Hfails as [Hok|[message Hjson]]; [|congruence].
    by rewrite Hok. }
  destruct (afterSearch_sent rt (trace ++ [search]) input found Hmail Htoken Hnew)
    as (Hskill & _).
  destruct (afterSearch_sent rt (trace ++ [search]) input viaFile.1 Hmail Htoken Hfile_new)
    as (_ & Hfile).
  unfold Skill.CreateContactFromChatTool.execute, CreateContactFromChatToolFile.execute,
    parseChatInput.
  rewrite !run_bind. cbn [fst snd]. rewrite Hvalid. rewrite ?run_bind.
  split; [|split; [|split]].
  - rewrite Hsearch at 2. cbn [snd]. fold found. rewrite Hskill, <- app_assoc. reflexivity.
  - run. fold (baseUrlOf rt). rewrite (env_token rt Htoken).
    destruct (token_nonempty rt Htoken) as (c & s & Htok). rewrite Htok, <- Htok.
    rewrite run_bind. fold viaFile. rewrite Hfile_sent, Hfile, <- app_assoc. reflexivity.
  - subst create. unfold chatCreateRequest. cbn [body CreateContact.createRequest].
    destruct (ChatInput.email input) as [|c s]; [done|].
    destruct (collectProperties_email c s (ChatInput.firstname input)
                (ChatInput.lastname input) (ChatInput.phone input) (ChatInput.company input))
      as (others & ->). by exists others.
  - fold found. apply afterSearch_new. exact Hnew.
Qed.

(** A remote without a search endpoint: the visitor is created all the same. *)
Lemma createContactFromChat_creates_after_failed_search_witness :
  map url (Skill.CreateContactFromChatTool.execute Scenario.sarah More.accepting []).2 =
    ["https://api.hubapi.com/crm/v3/objects/contacts/search";
     "https://api.hubapi.com/crm/v3/objects/contacts"].
Proof.
  pose proof (createContactFromChat_creates_after_failed_search More.accepting []
                Scenario.sarah) as Hcreates.
  cbn zeta in Hcreates.
  destruct Hcreates as (Hskill & _);
    [vm_compute; reflexivity|discriminate|vm_compute; reflexivity
    |left; vm_compute; reflexivity|].
  rewrite Hskill. vm_compute. reflexivity.
Defined.

(** ** Tools without credential or with a rejected input *)

Lemma run_parseChatInput input rt trace :
  parseChatInput input rt trace =
  (if zod_email rt (ChatInput.email input) then Returned input else ZodError, trace).
Proof. reflexivity. Qed.

Lemma library_unconfigured rt trace :
  Js.truthy (env rt "HUBSPOT_PRIVATE_APP_TOKEN") = false ->
  (forall input, CreateContact.createContact input rt trace =
                 (CreateContact.failure None missingToken, trace)) /\
  (forall input, CreateContact.updateContact input rt trace =
                 (CreateContact.failure None missingToken, trace)) /\
  (forall input, Deals.updateDealStage input rt trace =
                 (Deals.failure None missingToken, trace)) /\
  Deals.getDealPipelines rt trace = (Deals.pipelinesFailure missingToken, trace) /\
  (forall dealId, Deals.getDealById dealId rt trace = (Deals.dealFailure missingToken, trace)) /\
  (forall email, Engagements.searchContactByEmail email rt trace =
                 (Engagements.searchFailure missingToken, trace)) /\
  (forall contactId, Engagements.getContactActivitySummary contactId rt trace =
                     (Engagements.failure missingToken, trace)).
Proof.
  intros Htoken.
  unfold CreateContact.createContact, CreateContact.updateContact, Deals.updateDealStage,
    Deals.getDealPipelines, Deals.getDealById, Engagements.searchContactByEmail,
    Engagements.getContactActivitySummary.
  repeat split; intros; run; by destruct (falsy_cases _ Htoken) as [-> | ->].
Qed.

(** X21. Without a credential no tool sends anything: every tool of the
    skill file and every stand-alone tool leaves the trace of requests as it
    was, for every input. *)
Theorem tools_send_nothing_unconfigured (rt : Runtime) (trace : list Request) :
  Js.truthy (env rt "HUBSPOT_PRIVATE_APP_TOKEN") = false ->
  (forall input, (SkillTools.CreateContactTool.execute input rt trace).2 = trace) /\
  (forall input, (SkillTools.UpdateContactTool.execute input rt trace).2 = trace) /\
  (forall input, (Skill.CreateContactFromChatTool.execute input rt trace).2 = trace) /\
  (forall input, (Skill.UpdateDealStageTool.execute input rt trace).2 = trace) /\
  (SkillTools.GetDealPipelinesTool.execute rt trace).2 = trace /\
  (forall input, (SkillTools.GetContactActivitySummaryTool.execute input rt trace).2 = trace) /\
  (forall input, (CreateContactToolFile.execute input rt trace).2 = trace) /\
  (forall input, (UpdateContactToolFile.execute input rt trace).2 = trace) /\
  (forall input, (UpdateDealStageToolFile.execute input rt trace).2 = trace) /\
  (forall input, (CreateContactFromChatToolFile.execute input rt trace).2 = trace).
Proof.
  intros Htoken.
  destruct (library_unconfigured rt trace Htoken)
    as (Hcreate & Hupdate & Hstage & Hpipelines & Hdeal & Hsearch & Hsummary).
  split; [|split; [|split; [|split; [|split; [|split; [|split; [|split; [|split]]]]]]]].
  - intros input. unfold SkillTools.CreateContactTool.execute.
    rewrite run_bind, run_emailAccepted. cbn [fst snd].
    destruct (acceptedBy rt _); [|reflexivity]. by rewrite run_bind, Hcreate.
  - intros input. unfold SkillTools.UpdateContactTool.execute.
    rewrite run_bind, run_emailAccepted. cbn [fst snd].
    destruct (acceptedBy rt _); [|reflexivity]. by rewrite run_bind, Hupdate.
  - intros input. unfold Skill.CreateContactFromChatTool.execute.
    rewrite run_bind, run_parseChatInput. cbn [fst snd].
    destruct (zod_email rt _); [|reflexivity]. rewrite run_bind, Hsearch. cbn [fst snd].
    unfold Skill.CreateContactFromChatTool.afterSearch. cbn.
    by rewrite run_bind, Hcreate.
  - intros input. unfold Skill.UpdateDealStageTool.execute. cbn zeta.
    by rewrite run_bind, Hdeal.
  - unfold SkillTools.GetDealPipelinesTool.execute. by rewrite Hpipelines.
  - intros input. unfold SkillTools.GetContactActivitySummaryTool.execute.
    rewrite run_bind, run_emailAccepted. cbn [fst snd].
    destruct (acceptedBy rt _); [|reflexivity].
    assert (Hsummarize : forall contactId,
      (SkillTools.GetContactActivitySummaryTool.summarize contactId rt trace).2 = trace).
    { intros [[|c s]|]; try reflexivity.
      unfold SkillTools.GetContactActivitySummaryTool.summarize.
      by rewrite run_bind, Hsummary. }
    destruct (Js.truthy (SkillTools.GetContactActivitySummaryTool.Input.contactId input)),
      (SkillTools.GetContactActivitySummaryTool.Input.email input) as [[|c s]|];
      rewrite run_bind; try (rewrite run_ret; apply Hsummarize).
    by rewrite Hsearch.
  - intros input. unfold CreateContactToolFile.execute.
    rewrite run_bind, run_emailAccepted. cbn [fst snd].
    destruct (acceptedBy rt _); [|reflexivity].
    run. by destruct (falsy_cases _ Htoken) as [-> | ->].
  - intros input. unfold UpdateContactToolFile.execute.
    rewrite run_bind, run_emailAccepted. cbn [fst snd].
    destruct (acceptedBy rt _); [|reflexivity].
    run. by destruct (falsy_cases _ Htoken) as [-> | ->].
  - intros input. unfold UpdateDealStageToolFile.execute. cbn zeta.
    run. by destruct (falsy_cases _ Htoken) as [-> | ->].
  - intros input. unfold CreateContactFromChatToolFile.execute.
    rewrite run_bind, run_parseChatInput. cbn [fst snd].
    destruct (zod_email rt _); [|reflexivity].
    run. by destruct (falsy_cases _ Htoken) as [-> | ->].
Qed.

(** The chat tool and the deal tool send nothing when unconfigured. *)
Lemma tools_send_nothing_unconfigured_witness :
  (Skill.CreateContactFromChatTool.execute Scenario.sarah Scenario.unconfigured []).2 = [] /\
  (Skill.UpdateDealStageTool.execute Scenario.dealInput Scenario.unconfigured []).2 = [].
Proof.
  destruct (tools_send_nothing_unconfigured Scenario.unconfigured [])
    as (_ & _ & Hchat & Hdeal & _); [vm_compute; reflexivity|].
  split; [apply Hchat|apply Hdeal].
Defined.

(** X22. Validation comes before any effect: a tool whose schema rejects
    the email ends with the schema's error and has sent nothing, in the skill
    file and in the stand-alone files alike. *)
Theorem tools_validate_before_acting (rt : Runtime) (trace : list Request) :
  (forall input,
     acceptedBy rt (CreateContact.Input.email input) = false ->
     SkillTools.CreateContactTool.execute input rt trace = (ZodError, trace) /\
     CreateContactToolFile.execute input rt trace = (ZodError, trace)) /\
  (forall input,
     acceptedBy rt (CreateContact.UpdateInput.email input) = false ->
     SkillTools.UpdateContactTool.execute input rt trace = (ZodError, trace) /\
     UpdateContactToolFile.execute input rt trace = (ZodError, trace)) /\
  (forall input,
     acceptedBy rt (SkillTools.GetContactActivitySummaryTool.Input.email input) = false ->
     SkillTools.GetContactActivitySummaryTool.execute input rt trace = (ZodError, trace)) /\
  (forall input,
     zod_email rt (ChatInput.email input) = false ->
     Skill.CreateContactFromChatTool.execute input rt trace = (ZodError, trace) /\
     CreateContactFromChatToolFile.execute input rt trace = (ZodError, trace)).
Proof.
  split; [|split; [|split]].
  - intros input Hrejected.
    unfold SkillTools.CreateContactTool.execute, CreateContactToolFile.execute.
    rewrite !run_bind, run_emailAccepted. cbn [fst snd]. by rewrite Hrejected.
  - intros input Hrejected.
    unfold SkillTools.UpdateContactTool.execute, UpdateContactToolFile.execute.
    rewrite !run_bind, run_emailAccepted. cbn [fst snd]. by rewrite Hrejected.
  - intros input Hrejected.
    unfold SkillTools.GetContactActivitySummaryTool.execute.
    rewrite !run_bind, run_emailAccepted. cbn [fst snd]. by rewrite Hrejected.
  - intros input Hrejected.
    unfold Skill.CreateContactFromChatTool.execute, CreateContactFromChatToolFile.execute.
    rewrite !run_bind, run_parseChatInput. cbn [fst snd]. by rewrite Hrejected.
Qed.
